(** * grid-builder: the layout algebra, the tree mutation engine, the
      geometry bridge and the history engine, embedded in Rocq.

    Every definition below is a transcription of one function of the
    TypeScript sources ([lib/grid.ts], [hooks/useGridState.ts],
    [hooks/useHistory.ts], [components/PreviewCanvas.tsx], [App.tsx]).

    Conventions of the embedding.
    - A JavaScript [number] is modelled by [JS.number]: NaN, the two
      infinities, and rationals for the finite values; the signed zero is
      not modelled.  The arithmetic on grid lines, spans and orders
      ([JS.add], [JS.sub], ...) is exact; the arithmetic on pixel sizes
      ([JS.fadd], [JS.fsub], ...) rounds every result to binary64.
    - Strings are [string]; [===] on strings is [String.eqb].
    - The id of an item is a finite number, hence a rational, compared
      with [Qeq_bool]; grid lines, spans and track counts are integers.
    - [Date.now()] and [Math.random()] are explicit arguments.
    - [undefined] for an optional field is [None]. *)

From Stdlib Require Import List String Ascii Bool Arith ZArith QArith Qround Qabs Qpower.
From Stdlib Require Import Lia Lqa.
From Stdlib Require Import DecimalString Permutation Sorted.
From Stdlib Require DecimalPos.
Import ListNotations.

Set Warnings "-register-all".

Local Open Scope string_scope.
Local Open Scope list_scope.

(* ================================================================== *)
(** * JavaScript numbers and the conversions between numbers and strings *)
(* ================================================================== *)

Module JS.

Inductive number : Type :=
| NaN
| NegInf
| Fin (q : Q)
| PosInf.

Definition zero : number := Fin 0.
Definition one : number := Fin 1.
Definition ofZ (z : Z) : number := Fin (inject_Z z).
Definition ofNat (n : nat) : number := ofZ (Z.of_nat n).

(** [Number.isNaN]. *)
Definition isNaN (a : number) : bool :=
  match a with NaN => true | _ => false end.

(** [a === b] on numbers: NaN is not equal to itself. *)
Definition eqb (a b : number) : bool :=
  match a, b with
  | NegInf, NegInf => true
  | PosInf, PosInf => true
  | Fin p, Fin q => Qeq_bool p q
  | _, _ => false
  end.

(** [a < b]: false as soon as one side is NaN. *)
Definition ltb (a b : number) : bool :=
  match a, b with
  | NaN, _ | _, NaN => false
  | NegInf, NegInf => false
  | NegInf, _ => true
  | _, NegInf => false
  | PosInf, _ => false
  | Fin _, PosInf => true
  | Fin p, Fin q => negb (Qle_bool q p)
  end.

(** [a > b]. *)
Definition gtb (a b : number) : bool := ltb b a.

Definition neg (a : number) : number :=
  match a with
  | NaN => NaN
  | NegInf => PosInf
  | PosInf => NegInf
  | Fin q => Fin (- q)
  end.

(** [a + b]. *)
Definition add (a b : number) : number :=
  match a, b with
  | NaN, _ | _, NaN => NaN
  | PosInf, NegInf | NegInf, PosInf => NaN
  | PosInf, _ | _, PosInf => PosInf
  | NegInf, _ | _, NegInf => NegInf
  | Fin p, Fin q => Fin (p + q)
  end.

(** [a - b]. *)
Definition sub (a b : number) : number :=
  match a, b with
  | NaN, _ | _, NaN => NaN
  | PosInf, PosInf | NegInf, NegInf => NaN
  | PosInf, _ | _, NegInf => PosInf
  | NegInf, _ | _, PosInf => NegInf
  | Fin p, Fin q => Fin (p - q)
  end.

(** The sign of a finite value, as a comparison with zero. *)
Definition Qsign (q : Q) : comparison := (q ?= 0)%Q.

(** [a * b]. *)
Definition mul (a b : number) : number :=
  match a, b with
  | NaN, _ | _, NaN => NaN
  | Fin p, Fin q => Fin (p * q)
  | Fin p, PosInf | PosInf, Fin p =>
      match Qsign p with Eq => NaN | Gt => PosInf | Lt => NegInf end
  | Fin p, NegInf | NegInf, Fin p =>
      match Qsign p with Eq => NaN | Gt => NegInf | Lt => PosInf end
  | PosInf, PosInf | NegInf, NegInf => PosInf
  | PosInf, NegInf | NegInf, PosInf => NegInf
  end.

(** [a / b] (a zero divisor counts as [+0]). *)
Definition div (a b : number) : number :=
  match a, b with
  | NaN, _ | _, NaN => NaN
  | Fin p, Fin q =>
      match Qsign q with
      | Eq => match Qsign p with Eq => NaN | Gt => PosInf | Lt => NegInf end
      | _ => Fin (p / q)
      end
  | Fin _, PosInf | Fin _, NegInf => Fin 0
  | PosInf, Fin q => match Qsign q with Lt => NegInf | _ => PosInf end
  | NegInf, Fin q => match Qsign q with Lt => PosInf | _ => NegInf end
  | _, _ => NaN
  end.

(** [Math.max(a, b)]: NaN as soon as one argument is NaN. *)
Definition max (a b : number) : number :=
  match a, b with
  | NaN, _ | _, NaN => NaN
  | _, _ => if ltb a b then b else a
  end.

(** Two numbers denote the same value (NaN included, as for
    [Object.is] up to the sign of zero). *)
Definition same (a b : number) : Prop :=
  match a, b with
  | NaN, NaN => True
  | NegInf, NegInf => True
  | PosInf, PosInf => True
  | Fin p, Fin q => (p == q)%Q
  | _, _ => False
  end.

(** ** [Number(s)] for a string [s] (StringToNumber of ECMA-262).

    Blanks are stripped on both sides; the empty string is [0]; then a
    signed decimal literal (with fraction and exponent), a signed
    [Infinity], or an unsigned hexadecimal, octal or binary integer
    literal; everything else is NaN.  Only the ASCII blanks are
    recognised as white space. *)

Definition isBlank (c : ascii) : bool :=
  let n := nat_of_ascii c in
  Nat.eqb n 9 || Nat.eqb n 10 || Nat.eqb n 11 || Nat.eqb n 12
  || Nat.eqb n 13 || Nat.eqb n 32.

Fixpoint dropBlanks (l : list ascii) : list ascii :=
  match l with
  | c :: r => if isBlank c then dropBlanks r else l
  | [] => []
  end.

Definition trim (l : list ascii) : list ascii :=
  rev (dropBlanks (rev (dropBlanks l))).

(** The value of a digit in base at most 16. *)
Definition digitValue (c : ascii) : option Z :=
  let n := Z.of_nat (nat_of_ascii c) in
  if (48 <=? n)%Z && (n <=? 57)%Z then Some (n - 48)%Z
  else if (97 <=? n)%Z && (n <=? 102)%Z then Some (n - 87)%Z
  else if (65 <=? n)%Z && (n <=? 70)%Z then Some (n - 55)%Z
  else None.

Definition digitIn (base : Z) (c : ascii) : option Z :=
  match digitValue c with
  | Some d => if (d <? base)%Z then Some d else None
  | None => None
  end.

(** Reads the longest run of digits: the value read so far, the number
    of digits read, and the rest of the input. *)
Fixpoint readDigits (base : Z) (l : list ascii) (acc : Z) (count : nat)
  : Z * nat * list ascii :=
  match l with
  | c :: r =>
      match digitIn base c with
      | Some d => readDigits base r (acc * base + d)%Z (S count)
      | None => (acc, count, l)
      end
  | [] => (acc, count, [])
  end.

(** [m * 10^e] as an exact rational. *)
Definition scale10 (m e : Z) : Q :=
  if (0 <=? e)%Z then inject_Z (m * 10 ^ e)
  else (m # Z.to_pos (10 ^ (- e)))%Q.

(** ExponentPart (optional): [None] when the tail is malformed. *)
Definition readExponent (l : list ascii) : option Z :=
  match l with
  | [] => Some 0%Z
  | c :: r =>
      if Ascii.eqb c "e" || Ascii.eqb c "E" then
        let '(sign, r') :=
          match r with
          | s :: t =>
              if Ascii.eqb s "+" then (1%Z, t)
              else if Ascii.eqb s "-" then ((-1)%Z, t)
              else (1%Z, r)
          | [] => (1%Z, r)
          end in
        match readDigits 10 r' 0 0 with
        | (v, S _, []) => Some (sign * v)%Z
        | _ => None
        end
      else None
  end.

(** StrUnsignedDecimalLiteral, [Infinity] aside. *)
Definition readUnsignedDecimal (l : list ascii) : number :=
  let '(ip, icount, r1) := readDigits 10 l 0 0 in
  let '(m, fcount, r2) :=
    match r1 with
    | c :: t => if Ascii.eqb c "." then readDigits 10 t ip 0 else (ip, O, r1)
    | [] => (ip, O, r1)
    end in
  match (icount + fcount)%nat with
  | O => NaN
  | S _ =>
      match readExponent r2 with
      | Some e => Fin (scale10 m (e - Z.of_nat fcount))
      | None => NaN
      end
  end.

Definition infinityLit : list ascii := list_ascii_of_string "Infinity".

Definition listEqb (a b : list ascii) : bool :=
  String.eqb (string_of_list_ascii a) (string_of_list_ascii b).

Definition readUnsigned (l : list ascii) : number :=
  if listEqb l infinityLit then PosInf else readUnsignedDecimal l.

(** NonDecimalIntegerLiteral: [0x], [0o], [0b] followed by digits. *)
Definition readRadix (base : Z) (l : list ascii) : number :=
  match readDigits base l 0 0 with
  | (v, S _, []) => ofZ v
  | _ => NaN
  end.

Definition parseNumber (l : list ascii) : number :=
  match trim l with
  | [] => zero
  | c :: r =>
      if Ascii.eqb c "+" then readUnsigned r
      else if Ascii.eqb c "-" then neg (readUnsigned r)
      else
        match r with
        | p :: t =>
            if Ascii.eqb c "0" && (Ascii.eqb p "x" || Ascii.eqb p "X") then readRadix 16 t
            else if Ascii.eqb c "0" && (Ascii.eqb p "o" || Ascii.eqb p "O") then readRadix 8 t
            else if Ascii.eqb c "0" && (Ascii.eqb p "b" || Ascii.eqb p "B") then readRadix 2 t
            else readUnsigned (c :: r)
        | [] => readUnsigned (c :: r)
        end
  end.

Definition Number (s : string) : number :=
  parseNumber (list_ascii_of_string s).

(** [String(n)] for an integer: the decimal digits, with a minus sign
    for a negative value. *)
Definition StringOfNat (n : nat) : string :=
  NilZero.string_of_uint (Nat.to_uint n).

Definition StringOfZ (z : Z) : string :=
  NilZero.string_of_int (Z.to_int z).

(** ** String helpers: template literals, [repeat], [join], [trim]. *)

(** The pieces of a template literal, concatenated. *)
Definition cat (parts : list string) : string := String.concat "" parts.

(** The line feed and the double quote. *)
Definition nl : string := String (ascii_of_nat 10) EmptyString.
Definition dq : string := String (ascii_of_nat 34) EmptyString.

(** [s.repeat(n)]. *)
Fixpoint repeatString (s : string) (n : nat) : string :=
  match n with
  | O => ""
  | S k => s ++ repeatString s k
  end.

(** [parts.join(sep)]. *)
Definition join (sep : string) (parts : list string) : string :=
  String.concat sep parts.

(** [s.trim()]. *)
Definition trimString (s : string) : string :=
  string_of_list_ascii (trim (list_ascii_of_string s)).

(** [a >= b]: false as soon as one side is NaN. *)
Definition geb (a b : number) : bool :=
  match a, b with
  | NaN, _ | _, NaN => false
  | _, _ => negb (ltb a b)
  end.

(** [Math.min(a, b)]: NaN as soon as one argument is NaN. *)
Definition min (a b : number) : number :=
  match a, b with
  | NaN, _ | _, NaN => NaN
  | _, _ => if ltb b a then b else a
  end.

(** [a || b] on numbers: [b] when [a] is zero or NaN. *)
Definition orElse (a b : number) : number :=
  match a with
  | NaN => b
  | Fin q => if Qeq_bool q 0 then b else a
  | _ => a
  end.

(** ** Binary64 arithmetic

    The pixel arithmetic of the canvas is done on measured sizes, and
    its results depend on the rounding of the binary64 format: each
    operation returns the exact result rounded to the nearest binary64
    value, ties to the even significand, with gradual underflow and
    overflow to the infinities. *)

(** [floor(log2 a)] for a positive rational. *)
Definition log2floor (a : Q) : Z :=
  let e := (Z.log2 (Qnum a) - Z.log2 (Z.pos (Qden a)))%Z in
  if Qle_bool (2 ^ e) a then e else (e - 1)%Z.

(** The nearest integer, the even one of two nearest. *)
Definition roundHalfEven (x : Q) : Z :=
  let f := Qfloor x in
  match Qcompare (x - inject_Z f) (1 # 2) with
  | Lt => f
  | Gt => (f + 1)%Z
  | Eq => if Z.even f then f else (f + 1)%Z
  end.

(** The binary64 value nearest to a rational: a significand of 53
    bits, the least exponent [-1074] of the unit in the last place,
    and an infinity from [2^1024] on. *)
Definition round64 (q : Q) : number :=
  match Qnum q with
  | 0%Z => Fin 0
  | _ =>
      let a := Qabs q in
      let t := Z.max (log2floor a - 52) (-1074) in
      let m := roundHalfEven (a / 2 ^ t) in
      let v := Qred (inject_Z m * 2 ^ t) in
      if Qle_bool (2 ^ 1024) v then (if (0 <? Qnum q)%Z then PosInf else NegInf)
      else Fin (if (0 <? Qnum q)%Z then v else - v)
  end.

Definition rounded (n : number) : number :=
  match n with
  | Fin q => round64 q
  | _ => n
  end.

(** [a + b], [a - b], [a * b] and [a / b] in binary64. *)
Definition fadd (a b : number) : number := rounded (add a b).
Definition fsub (a b : number) : number := rounded (sub a b).
Definition fmul (a b : number) : number := rounded (mul a b).
Definition fdiv (a b : number) : number := rounded (div a b).

End JS.

(* ================================================================== *)
(** * The data model ([lib/types.ts], [lib/constants.ts]) *)
(* ================================================================== *)

Inductive Breakpoint : Type := xs | sm | md | lg | xl | xxl.

Definition BREAKPOINT_ORDER : list Breakpoint := [xs; sm; md; lg; xl; xxl].

Definition Breakpoint_eqb (a b : Breakpoint) : bool :=
  match a, b with
  | xs, xs | sm, sm | md, md | lg, lg | xl, xl | xxl, xxl => true
  | _, _ => false
  end.

(** [Record<Breakpoint, A>]: one entry per breakpoint. *)
Record PerBreakpoint (A : Type) : Type := mkPerBreakpoint {
  at_xs : A; at_sm : A; at_md : A; at_lg : A; at_xl : A; at_xxl : A
}.
Arguments mkPerBreakpoint {A}.
Arguments at_xs {A}. Arguments at_sm {A}. Arguments at_md {A}.
Arguments at_lg {A}. Arguments at_xl {A}. Arguments at_xxl {A}.

(** [map[bp]]. *)
Definition getBp {A} (m : PerBreakpoint A) (bp : Breakpoint) : A :=
  match bp with
  | xs => at_xs m | sm => at_sm m | md => at_md m
  | lg => at_lg m | xl => at_xl m | xxl => at_xxl m
  end.

(** [const m = {}; BREAKPOINT_ORDER.forEach((bp) => { m[bp] = f(bp) })]. *)
Definition buildBp {A} (f : Breakpoint -> A) : PerBreakpoint A :=
  mkPerBreakpoint (f xs) (f sm) (f md) (f lg) (f xl) (f xxl).

(** [map[bp] = v]. *)
Definition setBp {A} (m : PerBreakpoint A) (bp : Breakpoint) (v : A) : PerBreakpoint A :=
  match bp with
  | xs => mkPerBreakpoint v (at_sm m) (at_md m) (at_lg m) (at_xl m) (at_xxl m)
  | sm => mkPerBreakpoint (at_xs m) v (at_md m) (at_lg m) (at_xl m) (at_xxl m)
  | md => mkPerBreakpoint (at_xs m) (at_sm m) v (at_lg m) (at_xl m) (at_xxl m)
  | lg => mkPerBreakpoint (at_xs m) (at_sm m) (at_md m) v (at_xl m) (at_xxl m)
  | xl => mkPerBreakpoint (at_xs m) (at_sm m) (at_md m) (at_lg m) v (at_xxl m)
  | xxl => mkPerBreakpoint (at_xs m) (at_sm m) (at_md m) (at_lg m) (at_xl m) v
  end.

Record ItemLayout : Type := mkItemLayout {
  colStart : string;
  colEnd : string;
  rowStart : string;
  rowEnd : string;
  colSpan : JS.number;
  rowSpan : JS.number;
  order : string
}.

Definition LayoutMap : Type := PerBreakpoint ItemLayout.

Inductive TrackUnit : Type :=
| u_fr | u_px | u_rem | u_pct | u_auto | u_min_content | u_max_content.

Definition TrackUnit_eqb (a b : TrackUnit) : bool :=
  match a, b with
  | u_fr, u_fr | u_px, u_px | u_rem, u_rem | u_pct, u_pct
  | u_auto, u_auto | u_min_content, u_min_content
  | u_max_content, u_max_content => true
  | _, _ => false
  end.

Definition unitName (u : TrackUnit) : string :=
  match u with
  | u_fr => "fr" | u_px => "px" | u_rem => "rem" | u_pct => "%"
  | u_auto => "auto" | u_min_content => "min-content"
  | u_max_content => "max-content"
  end.

Record Track : Type := mkTrack {
  trackId : string;
  value : JS.number;
  unit : TrackUnit
}.

Record GridSetting : Type := mkGridSetting {
  cols : Z;
  rows : Z;
  colTracks : list Track;
  rowTracks : list Track;
  gap : Z
}.

Definition GridSettingsMap : Type := PerBreakpoint GridSetting.

(** A grid item; [subGrid] and [children] are the two optional fields.
    An id is a finite JavaScript number ([Date.now() + Math.random()] is
    not an integer), compared with [===]. *)
Inductive GridItem : Type := mkGridItem {
  id : Q;
  color : string;
  layout : LayoutMap;
  subGrid : option GridSettingsMap;
  children : option (list GridItem)
}.

(** [a.id === b] on ids. *)
Definition idEqb (a b : Q) : bool := Qeq_bool a b.

(** [{ ...item, layout }] and [{ ...item, children }]. *)
Definition withLayout (item : GridItem) (l : LayoutMap) : GridItem :=
  mkGridItem (id item) (color item) l (subGrid item) (children item).

Definition withChildren (item : GridItem) (c : option (list GridItem)) : GridItem :=
  mkGridItem (id item) (color item) (layout item) (subGrid item) c.

Record DragIndicator : Type := mkDragIndicator {
  left : JS.number;
  top : JS.number;
  width : JS.number;
  height : JS.number
}.

(** [createTracks(count)]; the ids carry [Date.now()], read as one
    value for the tracks of a call. *)
Definition createTracks (now : Z) (count : nat) : list Track :=
  map (fun i => mkTrack ("track-" ++ JS.StringOfZ now ++ "-" ++ JS.StringOfNat i)
                        JS.one u_fr)
      (seq 0 count).

Definition defaultSetting (now : Z) (n : nat) : GridSetting :=
  mkGridSetting (Z.of_nat n) (Z.of_nat n)
                (createTracks now n) (createTracks now n) 4.

Definition DEFAULT_GRID_SETTINGS (now : Z) : GridSettingsMap :=
  mkPerBreakpoint (defaultSetting now 1) (defaultSetting now 4)
                  (defaultSetting now 4) (defaultSetting now 4)
                  (defaultSetting now 4) (defaultSetting now 4).

Definition COLORS : list string :=
  [ "bg-blue-500"; "bg-purple-500"; "bg-pink-500"; "bg-red-500";
    "bg-orange-500"; "bg-yellow-500"; "bg-green-500"; "bg-teal-500";
    "bg-cyan-500"; "bg-indigo-500"; "bg-violet-500"; "bg-fuchsia-500" ].

(* ================================================================== *)
(** * The layout algebra ([lib/grid.ts]) *)
(* ================================================================== *)

Inductive Axis : Type := col | row.

(** The optional fields of [Partial<ItemLayout>]. *)
Record PartialItemLayout : Type := mkPartialItemLayout {
  p_colStart : option string;
  p_colEnd : option string;
  p_rowStart : option string;
  p_rowEnd : option string;
  p_colSpan : option JS.number;
  p_rowSpan : option JS.number;
  p_order : option string
}.

(** [Partial<Record<Breakpoint, Partial<ItemLayout>>>]. *)
Definition PartialLayoutMap : Type := PerBreakpoint (option PartialItemLayout).

Module Grid.

Definition clamp (value min max : Z) : Z := Z.min (Z.max value min) max.

Definition isAuto (value : string) : bool :=
  String.eqb value "" || String.eqb value "auto".

Definition createEmptyLayout : ItemLayout :=
  mkItemLayout "auto" "auto" "auto" "auto" JS.one JS.one "auto".

Definition createLayoutMap : LayoutMap :=
  buildBp (fun bp => createEmptyLayout).

(** [{ ...layout[bp] }]: a fresh object with the same seven fields. *)
Definition copyLayout (l : ItemLayout) : ItemLayout :=
  mkItemLayout (colStart l) (colEnd l) (rowStart l) (rowEnd l)
               (colSpan l) (rowSpan l) (order l).

Definition cloneLayoutMap (layout : LayoutMap) : LayoutMap :=
  buildBp (fun bp => copyLayout (getBp layout bp)).

(** [{ ...base, ...over }]: a field present in [over] wins. *)
Definition spreadLayout (base : ItemLayout) (over : PartialItemLayout) : ItemLayout :=
  let pick {A} (o : option A) (d : A) := match o with Some v => v | None => d end in
  mkItemLayout
    (pick (p_colStart over) (colStart base))
    (pick (p_colEnd over) (colEnd base))
    (pick (p_rowStart over) (rowStart base))
    (pick (p_rowEnd over) (rowEnd base))
    (pick (p_colSpan over) (colSpan base))
    (pick (p_rowSpan over) (rowSpan base))
    (pick (p_order over) (order base)).

Definition sanitizeLayoutMap (layout : option PartialLayoutMap) : LayoutMap :=
  let sanitized := createLayoutMap in
  match layout with
  | None => sanitized
  | Some layout =>
      fold_left
        (fun sanitized bp =>
           match getBp layout bp with
           | Some part => setBp sanitized bp (spreadLayout (getBp sanitized bp) part)
           | None => sanitized
           end)
        BREAKPOINT_ORDER sanitized
  end.

Definition cloneGridSettings (settings : GridSettingsMap) : GridSettingsMap :=
  buildBp
    (fun bp =>
       let setting := getBp settings bp in
       mkGridSetting (cols setting) (rows setting)
         (map (fun t => mkTrack (trackId t) (value t) (unit t)) (colTracks setting))
         (map (fun t => mkTrack (trackId t) (value t) (unit t)) (rowTracks setting))
         (gap setting)).

Definition getSpan (layout : ItemLayout) (axis : Axis) : JS.number :=
  let start := match axis with col => colStart layout | row => rowStart layout end in
  let end_ := match axis with col => colEnd layout | row => rowEnd layout end in
  if negb (isAuto start) && negb (isAuto end_) then
    let span := JS.sub (JS.Number end_) (JS.Number start) in
    if JS.isNaN span || JS.ltb span JS.one then JS.one else span
  else
    match axis with col => colSpan layout | row => rowSpan layout end.

(** ** Inline styles ([buildGridStyles]) *)

(** The properties [buildGridStyles] may set; the order is a number
    when the string reads as one, and the string otherwise. *)
Record CSSProperties : Type := mkCSSProperties {
  gridColumnStart : option string;
  gridColumnEnd : option string;
  gridRowStart : option string;
  gridRowEnd : option string;
  gridColumn : option string;
  gridRow : option string;
  cssOrder : option (string + JS.number)
}.

Definition buildGridStyles (numberToString : JS.number -> string) (layout : ItemLayout)
  : CSSProperties :=
  mkCSSProperties
    (if negb (isAuto (colStart layout)) then Some (colStart layout) else None)
    (if negb (isAuto (colEnd layout)) then Some (colEnd layout) else None)
    (if negb (isAuto (rowStart layout)) then Some (rowStart layout) else None)
    (if negb (isAuto (rowEnd layout)) then Some (rowEnd layout) else None)
    (if isAuto (colStart layout) && isAuto (colEnd layout)
        && JS.gtb (colSpan layout) JS.one
     then Some (JS.cat ["span "; numberToString (colSpan layout)]) else None)
    (if isAuto (rowStart layout) && isAuto (rowEnd layout)
        && JS.gtb (rowSpan layout) JS.one
     then Some (JS.cat ["span "; numberToString (rowSpan layout)]) else None)
    (if negb (isAuto (order layout)) then
       let parsed := JS.Number (order layout) in
       Some (if JS.isNaN parsed then inl (order layout) else inr parsed)
     else None).

(** ** Code generation *)

Definition prefixMap (bp : Breakpoint) : string :=
  match bp with
  | xs => "" | sm => "sm:" | md => "md:"
  | lg => "lg:" | xl => "xl:" | xxl => "2xl:"
  end.

Section Codegen.

(** [String(n)] for an arbitrary number (Number::toString); on the
    integers it is [JS.StringOfZ]. *)
Variable numberToString : JS.number -> string.

Definition getTrackString (tracks : list Track) : string :=
  JS.join "_"
    (map (fun t =>
            match unit t with
            | u_auto | u_min_content | u_max_content => unitName (unit t)
            | _ => JS.cat [numberToString (value t); unitName (unit t)]
            end)
         tracks).

Definition isStandardTracks (tracks : list Track) : bool :=
  forallb (fun t => TrackUnit_eqb (unit t) u_fr && JS.eqb (value t) JS.one) tracks.

(** The variables the [forEach] over the breakpoints updates. *)
Record HeaderState : Type := mkHeaderState {
  h_code : string;
  previousCols : option string;
  previousGap : option Z;
  previousRows : option string
}.

(** [previous === null || previous !== current]. *)
Definition changedString (previous : option string) (current : string) : bool :=
  match previous with
  | None => true
  | Some p => negb (String.eqb p current)
  end.

Definition changedZ (previous : option Z) (current : Z) : bool :=
  match previous with
  | None => true
  | Some p => negb (Z.eqb p current)
  end.

(** One breakpoint of the container's class list. *)
Definition headerStep (currentSettings : GridSettingsMap)
    (st : HeaderState) (bp : Breakpoint) : HeaderState :=
  let config := getBp currentSettings bp in
  let prefix := prefixMap bp in
  let colsClass :=
    if negb (isStandardTracks (colTracks config))
    then JS.cat ["grid-cols-["; getTrackString (colTracks config); "]"]
    else JS.cat ["grid-cols-"; JS.StringOfZ (cols config)] in
  let st1 :=
    if changedString (previousCols st) colsClass
    then mkHeaderState (JS.cat [h_code st; " "; prefix; colsClass])
                       (Some colsClass) (previousGap st) (previousRows st)
    else st in
  let st2 :=
    if changedZ (previousGap st1) (gap config)
    then mkHeaderState (JS.cat [h_code st1; " "; prefix; "gap-"; JS.StringOfZ (gap config)])
                       (previousCols st1) (Some (gap config)) (previousRows st1)
    else st1 in
  let rowsClass :=
    if negb (isStandardTracks (rowTracks config))
    then JS.cat ["grid-rows-["; getTrackString (rowTracks config); "]"]
    else JS.cat ["grid-rows-"; JS.StringOfZ (rows config)] in
  if changedString (previousRows st2) rowsClass
  then mkHeaderState (JS.cat [h_code st2; " "; prefix; rowsClass])
                     (previousCols st2) (previousGap st2) (Some rowsClass)
  else st2.

(** The opening tag of a container, up to and including the line feed
    that follows it. *)
Definition containerOpen (classAttr : string) (currentSettings : GridSettingsMap)
    (indent : nat) (isRoot : bool) : string :=
  let spaces := JS.repeatString " " indent in
  let code :=
    if isRoot
    then JS.cat [spaces; "<div "; classAttr; "="; JS.dq; "grid"]
    else JS.cat [JS.nl; spaces; "<div "; classAttr; "="; JS.dq; "grid w-full h-full"] in
  let st := fold_left (headerStep currentSettings) BREAKPOINT_ORDER
                      (mkHeaderState code None None None) in
  JS.cat [h_code st; JS.dq; ">"; JS.nl].

(** The classes one breakpoint pushes for an item. *)
Definition layoutClasses (bp : Breakpoint) (layout : ItemLayout) : list string :=
  let prefix := prefixMap bp in
  let push (cond : bool) (cls : string) : list string :=
    if cond then [cls] else [] in
  push (negb (isAuto (colStart layout)))
       (JS.cat [prefix; "col-start-"; colStart layout])
  ++ push (negb (isAuto (colEnd layout)))
       (JS.cat [prefix; "col-end-"; colEnd layout])
  ++ push (negb (isAuto (rowStart layout)))
       (JS.cat [prefix; "row-start-"; rowStart layout])
  ++ push (negb (isAuto (rowEnd layout)))
       (JS.cat [prefix; "row-end-"; rowEnd layout])
  ++ push (isAuto (colStart layout) && isAuto (colEnd layout)
           && JS.gtb (colSpan layout) JS.one)
       (JS.cat [prefix; "col-span-"; numberToString (colSpan layout)])
  ++ push (isAuto (rowStart layout) && isAuto (rowEnd layout)
           && JS.gtb (rowSpan layout) JS.one)
       (JS.cat [prefix; "row-span-"; numberToString (rowSpan layout)])
  ++ push (negb (isAuto (order layout)))
       (JS.cat [prefix; "order-"; order layout]).

Definition itemClassNames (l : LayoutMap) : list string :=
  flat_map (fun bp => layoutClasses bp (getBp l bp)) BREAKPOINT_ORDER.

(** [list.forEach((item, index) => { code += render(index, item) })]. *)
Fixpoint itemsCode (render : nat -> GridItem -> string) (index : nat)
    (list : list GridItem) : string :=
  match list with
  | [] => ""
  | item :: rest => (render index item ++ itemsCode render (S index) rest)%string
  end.

(** The markup of one item of a container indented by [indent]; a
    container item holds the markup of its own grid, four columns
    deeper. *)
Fixpoint itemCode (classAttr : string) (indent : nat) (index : nat)
    (item : GridItem) {struct item} : string :=
  let spaces := JS.repeatString " " indent in
  let itemIndent := (spaces ++ "  ")%string in
  match item with
  | mkGridItem _ _ lay sg ch =>
      let classNames := itemClassNames lay in
      let classes := JS.trimString (JS.join " " classNames) in
      match sg, ch with
      | Some sub, Some kids =>
          let subGridCode :=
            JS.cat [containerOpen classAttr sub (indent + 4) false;
                    itemsCode (itemCode classAttr (indent + 4)) 0 kids;
                    JS.repeatString " " (indent + 4); "</div>"] in
          JS.cat [itemIndent; "<div "; classAttr; "="; JS.dq; classes; JS.dq; ">";
                  subGridCode;
                  itemIndent; "</div>"; JS.nl]
      | _, _ =>
          match classNames with
          | [] =>
              JS.cat [itemIndent; "<div>"; JS.nl;
                      itemIndent; "  <!-- Item "; JS.StringOfNat (index + 1); " -->"; JS.nl;
                      itemIndent; "</div>"; JS.nl]
          | _ :: _ =>
              JS.cat [itemIndent; "<div "; classAttr; "="; JS.dq; classes; JS.dq; ">"; JS.nl;
                      itemIndent; "  <!-- Item "; JS.StringOfNat (index + 1); " -->"; JS.nl;
                      itemIndent; "</div>"; JS.nl]
          end
      end
  end.

Definition generateGridContainer (classAttr : string)
    (currentItems : list GridItem) (currentSettings : GridSettingsMap)
    (indent : nat) (isRoot : bool) : string :=
  JS.cat [containerOpen classAttr currentSettings indent isRoot;
          itemsCode (itemCode classAttr indent) 0 currentItems;
          JS.repeatString " " indent; "</div>"].

Definition generateTailwindCode (items : list GridItem)
    (settings : GridSettingsMap) (useClassName : bool) : string :=
  let classAttr := if useClassName then "className" else "class" in
  generateGridContainer classAttr items settings 0 true.

End Codegen.
End Grid.

(* ================================================================== *)
(** * The first version of the code generator (flat grids, no tracks) *)
(* ================================================================== *)

Module LegacyGrid.

Section Codegen.

Variable numberToString : JS.number -> string.

Record HeaderState : Type := mkHeaderState {
  h_code : string;
  previousCols : option Z;
  previousGap : option Z;
  previousRows : option Z
}.

Definition headerStep (settings : GridSettingsMap)
    (st : HeaderState) (bp : Breakpoint) : HeaderState :=
  let config := getBp settings bp in
  let prefix := Grid.prefixMap bp in
  let st1 :=
    if Grid.changedZ (previousCols st) (cols config)
    then mkHeaderState (JS.cat [h_code st; " "; prefix; "grid-cols-"; JS.StringOfZ (cols config)])
                       (Some (cols config)) (previousGap st) (previousRows st)
    else st in
  let st2 :=
    if Grid.changedZ (previousGap st1) (gap config)
    then mkHeaderState (JS.cat [h_code st1; " "; prefix; "gap-"; JS.StringOfZ (gap config)])
                       (previousCols st1) (Some (gap config)) (previousRows st1)
    else st1 in
  if Grid.changedZ (previousRows st2) (rows config)
  then mkHeaderState (JS.cat [h_code st2; " "; prefix; "grid-rows-"; JS.StringOfZ (rows config)])
                     (previousCols st2) (previousGap st2) (Some (rows config))
  else st2.

Definition itemCode (index : nat) (item : GridItem) : string :=
  let classNames := Grid.itemClassNames numberToString (layout item) in
  match classNames with
  | [] =>
      JS.cat ["  <div>"; JS.nl; "    <!-- Item "; JS.StringOfNat (index + 1); " -->"; JS.nl;
              "  </div>"; JS.nl]
  | _ :: _ =>
      JS.cat ["  <div class="; JS.dq; JS.trimString (JS.join " " classNames); JS.dq; ">"; JS.nl;
              "    <!-- Item "; JS.StringOfNat (index + 1); " -->"; JS.nl;
              "  </div>"; JS.nl]
  end.

Definition generateTailwindCode (items : list GridItem)
    (settings : GridSettingsMap) : string :=
  match items with
  | [] => JS.cat ["<div class="; JS.dq; "grid"; JS.dq; "></div>"]
  | _ :: _ =>
      let code := JS.cat ["<div class="; JS.dq; "grid"] in
      let st := fold_left (headerStep settings) BREAKPOINT_ORDER
                          (mkHeaderState code None None None) in
      JS.cat [h_code st; JS.dq; ">"; JS.nl;
              Grid.itemsCode itemCode 0 items;
              "</div>"]
  end.

End Codegen.

End LegacyGrid.

(* ================================================================== *)
(** * The history engine ([hooks/useHistory.ts]) *)
(* ================================================================== *)

Module History.

Section Reducer.

Context {T : Type}.

(** [a === b] on snapshots: identity of references for objects.  The
    reducer is stated over any such test. *)
Variable sameRef : T -> T -> bool.

Record HistoryState : Type := mkHistoryState {
  past : list T;
  present : T;
  future : list T
}.

Inductive HistoryAction : Type :=
| UNDO
| REDO
| SET (newPresent : T)
| RESET (newPresent : T).

Definition historyReducer (state : HistoryState) (action : HistoryAction)
  : HistoryState :=
  match action with
  | UNDO =>
      match past state with
      | [] => state
      | _ :: _ =>
          let previous := last (past state) (present state) in
          let newPast := removelast (past state) in
          mkHistoryState newPast previous (present state :: future state)
      end
  | REDO =>
      match future state with
      | [] => state
      | next :: newFuture =>
          mkHistoryState (past state ++ [present state]) next newFuture
      end
  | SET newPresent =>
      if sameRef newPresent (present state) then state
      else mkHistoryState (past state ++ [present state]) newPresent []
  | RESET newPresent =>
      mkHistoryState [] newPresent []
  end.

(** The initial state of [useReducer], and the two queries. *)
Definition initialState (initialPresent : T) : HistoryState :=
  mkHistoryState [] initialPresent [].

Definition canUndo (state : HistoryState) : bool :=
  Nat.ltb 0 (List.length (past state)).

Definition canRedo (state : HistoryState) : bool :=
  Nat.ltb 0 (List.length (future state)).

End Reducer.

Arguments HistoryState : clear implicits.
Arguments HistoryAction : clear implicits.

End History.

(* ================================================================== *)
(** * JSON values: what [JSON.stringify] writes and [JSON.parse] reads *)
(* ================================================================== *)

(** The text layer is not modelled: [JSON.parse (JSON.stringify v)] is
    the JSON value of [v], in which a property whose value is
    [undefined] is left out and a number that is not finite is
    [null]. *)

Module Json.

Inductive JSON : Type :=
| JNull
| JBool (b : bool)
| JNumber (q : Q)
| JString (s : string)
| JArray (elements : list JSON)
| JObject (properties : list (string * JSON)).

(** [value.key]: [None] is [undefined].  Reading a property of [null]
    throws, which the callers handle before they come here. *)
Fixpoint lookup (key : string) (properties : list (string * JSON)) : option JSON :=
  match properties with
  | [] => None
  | (k, v) :: r => if String.eqb k key then Some v else lookup key r
  end.

Definition prop (value : JSON) (key : string) : option JSON :=
  match value with
  | JObject properties => lookup key properties
  | _ => None
  end.

(** Truthiness of a property that may be [undefined]. *)
Definition truthy (value : option JSON) : bool :=
  match value with
  | None => false
  | Some JNull => false
  | Some (JBool b) => b
  | Some (JNumber q) => negb (Qeq_bool q 0)
  | Some (JString s) => negb (String.eqb s "")
  | Some (JArray _) => true
  | Some (JObject _) => true
  end.

(** ** Writing the data model *)

Definition ofNumber (n : JS.number) : JSON :=
  match n with
  | JS.Fin q => JNumber q
  | _ => JNull
  end.

Definition ofZ (z : Z) : JSON := JNumber (inject_Z z).

Definition breakpointKey (bp : Breakpoint) : string :=
  match bp with
  | xs => "xs" | sm => "sm" | md => "md"
  | lg => "lg" | xl => "xl" | xxl => "2xl"
  end.

Definition ofPerBreakpoint {A} (f : A -> JSON) (m : PerBreakpoint A) : JSON :=
  JObject (map (fun bp => (breakpointKey bp, f (getBp m bp))) BREAKPOINT_ORDER).

Definition ofLayout (l : ItemLayout) : JSON :=
  JObject [ ("colStart", JString (colStart l)); ("colEnd", JString (colEnd l));
            ("rowStart", JString (rowStart l)); ("rowEnd", JString (rowEnd l));
            ("colSpan", ofNumber (colSpan l)); ("rowSpan", ofNumber (rowSpan l));
            ("order", JString (order l)) ].

Definition ofTrack (t : Track) : JSON :=
  JObject [ ("id", JString (trackId t)); ("value", ofNumber (value t));
            ("unit", JString (unitName (unit t))) ].

Definition ofSetting (s : GridSetting) : JSON :=
  JObject [ ("cols", ofZ (cols s)); ("rows", ofZ (rows s)); ("gap", ofZ (gap s));
            ("colTracks", JArray (map ofTrack (colTracks s)));
            ("rowTracks", JArray (map ofTrack (rowTracks s))) ].

Definition ofSettingsMap (m : GridSettingsMap) : JSON :=
  ofPerBreakpoint ofSetting m.

Definition optionalProp (key : string) (value : option JSON) : list (string * JSON) :=
  match value with
  | Some v => [(key, v)]
  | None => []
  end.

Fixpoint ofItem (item : GridItem) : JSON :=
  match item with
  | mkGridItem i c l sg ch =>
      JObject
        ([ ("id", JNumber i); ("color", JString c);
           ("layout", ofPerBreakpoint ofLayout l) ]
         ++ optionalProp "subGrid" (option_map ofSettingsMap sg)
         ++ optionalProp "children"
              (match ch with
               | Some kids => Some (JArray (map ofItem kids))
               | None => None
               end))
  end.

(** ** Reading the data model back *)

(** What a piece of code that reads JSON comes to: a value, an
    exception (caught by the [try] of the caller), or a value that
    does not have the TypeScript type the code gives it, on which
    this embedding says nothing. *)
Inductive Outcome (A : Type) : Type :=
| Ok (a : A)
| Thrown
| IllTyped.
Arguments Ok {A}. Arguments Thrown {A}. Arguments IllTyped {A}.

Definition bind {A B} (o : Outcome A) (f : A -> Outcome B) : Outcome B :=
  match o with
  | Ok a => f a
  | Thrown => Thrown
  | IllTyped => IllTyped
  end.

Fixpoint mapM {A B} (f : A -> Outcome B) (l : list A) : Outcome (list B) :=
  match l with
  | [] => Ok []
  | a :: r => bind (f a) (fun b => bind (mapM f r) (fun bs => Ok (b :: bs)))
  end.

Definition asString (value : JSON) : Outcome string :=
  match value with JString s => Ok s | _ => IllTyped end.

Definition asNumber (value : JSON) : Outcome JS.number :=
  match value with JNumber q => Ok (JS.Fin q) | _ => IllTyped end.

Definition asInteger (value : JSON) : Outcome Z :=
  match value with
  | JNumber q => if Qeq_bool q (inject_Z (Qfloor q)) then Ok (Qfloor q) else IllTyped
  | _ => IllTyped
  end.

Definition asUnit (value : JSON) : Outcome TrackUnit :=
  match value with
  | JString s =>
      match find (fun u => String.eqb (unitName u) s)
                 [u_fr; u_px; u_rem; u_pct; u_auto; u_min_content; u_max_content] with
      | Some u => Ok u
      | None => IllTyped
      end
  | _ => IllTyped
  end.

(** A property that has to be there with its type. *)
Definition required {A} (read : JSON -> Outcome A) (value : option JSON) : Outcome A :=
  match value with
  | Some v => read v
  | None => IllTyped
  end.

(** A property that may be missing. *)
Definition optional {A} (read : JSON -> Outcome A) (value : option JSON)
  : Outcome (option A) :=
  match value with
  | Some v => bind (read v) (fun a => Ok (Some a))
  | None => Ok None
  end.

End Json.

(* ================================================================== *)
(** * The tree mutation engine ([hooks/useGridState.ts]) *)
(* ================================================================== *)

(** [keyof ItemLayout]. *)
Inductive LayoutField : Type :=
| f_colStart | f_colEnd | f_rowStart | f_rowEnd
| f_colSpan | f_rowSpan | f_order.

(** The pair [(key, value)] of a settings update. *)
Inductive SettingUpdate : Type :=
| set_cols (v : Z)
| set_rows (v : Z)
| set_colTracks (v : list Track)
| set_rowTracks (v : list Track)
| set_gap (v : Z).

Module GridState.

Definition parsePosition (value : string) : JS.number :=
  let num := JS.Number value in
  if JS.isNaN num then JS.PosInf else num.

(** ** Reflow *)

(** The records the sort works on. *)
Record SortEntry : Type := mkSortEntry {
  e_id : Q;
  e_row : JS.number;
  e_col : JS.number;
  e_index : nat
}.

(** [list.map((item, index) => f(item, index))]. *)
Fixpoint mapIndexed {A B} (f : A -> nat -> B) (index : nat) (l : list A) : list B :=
  match l with
  | [] => []
  | a :: r => f a index :: mapIndexed f (S index) r
  end.

Definition toEntry (bp : Breakpoint) (item : GridItem) (index : nat) : SortEntry :=
  let layout := getBp (layout item) bp in
  mkSortEntry (id item) (parsePosition (rowStart layout))
              (parsePosition (colStart layout)) index.

(** The comparator handed to [sort]. *)
Definition compareEntries (a b : SortEntry) : JS.number :=
  if JS.eqb (e_row a) (e_row b) then
    if JS.eqb (e_col a) (e_col b) then
      JS.ofZ (Z.of_nat (e_index a) - Z.of_nat (e_index b))
    else JS.sub (e_col a) (e_col b)
  else JS.sub (e_row a) (e_row b).

(** [Array.prototype.sort(compareFn)], which is stable: each element
    is inserted behind the elements that do not compare greater. *)
Fixpoint insertSorted {A} (compareFn : A -> A -> JS.number) (x : A) (l : list A)
  : list A :=
  match l with
  | [] => [x]
  | y :: r =>
      if JS.gtb (compareFn y x) JS.zero then x :: y :: r
      else y :: insertSorted compareFn x r
  end.

Definition sort {A} (compareFn : A -> A -> JS.number) (l : list A) : list A :=
  fold_left (fun acc x => insertSorted compareFn x acc) l [].

(** [Map<number, number>]: [set], [get] and [size]. *)
Definition OrderMap : Type := list (Q * nat).

Fixpoint mapSet (m : OrderMap) (k : Q) (v : nat) : OrderMap :=
  match m with
  | [] => [(k, v)]
  | (k', v') :: r =>
      if idEqb k' k then (k', v) :: r else (k', v') :: mapSet r k v
  end.

Fixpoint mapGet (m : OrderMap) (k : Q) : option nat :=
  match m with
  | [] => None
  | (k', v') :: r => if idEqb k' k then Some v' else mapGet r k
  end.

Definition mapSize (m : OrderMap) : nat := List.length m.

(** [sorted.forEach((entry, idx) => orderMap.set(entry.id, idx + 1))]. *)
Fixpoint setOrders (sorted : list SortEntry) (idx : nat) (orderMap : OrderMap)
  : OrderMap :=
  match sorted with
  | [] => orderMap
  | entry :: r => setOrders r (S idx) (mapSet orderMap (e_id entry) (idx + 1))
  end.

(** [{ ...layout, order }]. *)
Definition withOrder (l : ItemLayout) (o : string) : ItemLayout :=
  mkItemLayout (colStart l) (colEnd l) (rowStart l) (rowEnd l)
               (colSpan l) (rowSpan l) o.

Definition reflowOrders (lst : list GridItem) (bp : Breakpoint) : list GridItem :=
  let sorted := sort compareEntries (mapIndexed (toEntry bp) 0 lst) in
  let orderMap := setOrders sorted 0 [] in
  map (fun item =>
         let layouts := layout item in
         let currentOrder :=
           match mapGet orderMap (id item) with
           | Some o => o
           | None => (mapSize orderMap + 1)%nat
           end in
         withLayout item
           (setBp layouts bp (withOrder (getBp layouts bp) (JS.StringOfNat currentOrder))))
      lst.

(** ** Locating an item *)

(** [list.findIndex((i) => i.id === itemId) !== -1]. *)
Definition hasId (itemId : Q) (lst : list GridItem) : bool :=
  existsb (fun i => idEqb (id i) itemId) lst.

(** [list[list.findIndex(p)]] when the index is not [-1]. *)
Fixpoint findFirst {B} (p : GridItem -> bool) (f : GridItem -> B)
    (lst : list GridItem) : option B :=
  match lst with
  | [] => None
  | item :: r => if p item then Some (f item) else findFirst p f r
  end.

(** The recursive functions of the hook take a sibling list and call
    themselves on [item.children]; here each is a function of the item
    that returns what the recursive call on the children returns
    ([None] when the item has no children), and the function on lists
    applies it to the members of the list. *)

Fixpoint updateItemIn (itemId : Q) (cb : GridItem -> GridItem) (item : GridItem)
  : GridItem :=
  match item with
  | mkGridItem i c l sg ch =>
      if idEqb i itemId then cb item
      else
        match ch with
        | Some kids => mkGridItem i c l sg (Some (map (updateItemIn itemId cb) kids))
        | None => item
        end
  end.

Definition updateItemRecursive (lst : list GridItem) (itemId : Q)
    (cb : GridItem -> GridItem) : list GridItem :=
  map (updateItemIn itemId cb) lst.

(** ** [mutateLayout] and [updateItemLayout] *)

Section MutateLayout.

Variables (itemId : Q) (breakpoint : Breakpoint) (cb : ItemLayout -> ItemLayout).

(** One sibling list of [updateAndReflow], given the result [rec] of
    the recursive call on the children of each member. *)
Definition updateAndReflowLevel (rec : GridItem -> option (list GridItem))
    (lst : list GridItem) : list GridItem :=
  if hasId itemId lst then
    let updatedList :=
      map (fun item =>
             if negb (idEqb (id item) itemId) then item
             else
               let layouts := layout item in
               withLayout item
                 (setBp layouts breakpoint (cb (Grid.copyLayout (getBp layouts breakpoint)))))
          lst in
    reflowOrders updatedList breakpoint
  else
    map (fun item =>
           match rec item with
           | Some kids => withChildren item (Some kids)
           | None => item
           end)
        lst.

Fixpoint updateAndReflowChildren (item : GridItem) : option (list GridItem) :=
  match item with
  | mkGridItem _ _ _ _ ch =>
      match ch with
      | Some kids => Some (updateAndReflowLevel updateAndReflowChildren kids)
      | None => None
      end
  end.

Definition updateAndReflow (lst : list GridItem) : list GridItem :=
  updateAndReflowLevel updateAndReflowChildren lst.

Definition mutateLayout (prev : list GridItem) : list GridItem :=
  updateAndReflow prev.

End MutateLayout.

(** [{ ...layout, [field]: v }] for the two kinds of fields. *)
Definition setSpanField (l : ItemLayout) (field : LayoutField) (v : JS.number)
  : ItemLayout :=
  match field with
  | f_colSpan => mkItemLayout (colStart l) (colEnd l) (rowStart l) (rowEnd l)
                              v (rowSpan l) (order l)
  | f_rowSpan => mkItemLayout (colStart l) (colEnd l) (rowStart l) (rowEnd l)
                              (colSpan l) v (order l)
  | _ => l
  end.

Definition setStringField (l : ItemLayout) (field : LayoutField) (v : string)
  : ItemLayout :=
  match field with
  | f_colStart => mkItemLayout v (colEnd l) (rowStart l) (rowEnd l)
                               (colSpan l) (rowSpan l) (order l)
  | f_colEnd => mkItemLayout (colStart l) v (rowStart l) (rowEnd l)
                             (colSpan l) (rowSpan l) (order l)
  | f_rowStart => mkItemLayout (colStart l) (colEnd l) v (rowEnd l)
                               (colSpan l) (rowSpan l) (order l)
  | f_rowEnd => mkItemLayout (colStart l) (colEnd l) (rowStart l) v
                             (colSpan l) (rowSpan l) (order l)
  | f_order => mkItemLayout (colStart l) (colEnd l) (rowStart l) (rowEnd l)
                            (colSpan l) (rowSpan l) v
  | _ => l
  end.

Definition updateItemLayout (currentBreakpoint : Breakpoint) (itemId : Q)
    (field : LayoutField) (value : string) (prev : list GridItem) : list GridItem :=
  mutateLayout itemId currentBreakpoint
    (fun layout =>
       match field with
       | f_colSpan | f_rowSpan =>
           let parsed := JS.Number value in
           setSpanField layout field
             (if JS.isNaN parsed || JS.ltb parsed JS.one then JS.one else parsed)
       | _ =>
           let payload :=
             if String.eqb value "" || String.eqb value "auto" then "auto" else value in
           setStringField layout field payload
       end)
    prev.

(** ** [addItem], [removeItem], [duplicateItem], [convertItemToGrid] *)

(** [COLORS[Math.floor(Math.random() * COLORS.length)]], for
    [random] in the interval from 0 (included) to 1 (excluded). *)
Definition randomColor (random : Q) : string :=
  nth (Z.to_nat (Qfloor (random * inject_Z (Z.of_nat (List.length COLORS)))))
      COLORS "".

(** [!parentId]: no argument, or the number zero. *)
Definition noParent (parentId : option Q) : bool :=
  match parentId with
  | None => true
  | Some p => Qeq_bool p 0
  end.

(** [now] is [Date.now()], [random] is [Math.random()]. *)
Definition addItem (currentBreakpoint : Breakpoint) (now : Z) (random : Q)
    (parentId : option Q) (prev : list GridItem) : list GridItem :=
  let newItem :=
    mkGridItem (inject_Z now) (randomColor random) Grid.createLayoutMap None None in
  match parentId with
  | Some parent_id =>
      if noParent parentId then reflowOrders (prev ++ [newItem]) currentBreakpoint
      else
        updateItemRecursive prev parent_id
          (fun parent =>
             withChildren parent
               (Some (reflowOrders
                        (match children parent with Some kids => kids | None => [] end
                         ++ [newItem])
                        currentBreakpoint)))
  | None => reflowOrders (prev ++ [newItem]) currentBreakpoint
  end.

(** [list.filter(keep).map(f)], in one pass over the list. *)
Fixpoint filterMap (keep : GridItem -> bool) (f : GridItem -> GridItem)
    (lst : list GridItem) : list GridItem :=
  match lst with
  | [] => []
  | item :: r =>
      if keep item then f item :: filterMap keep f r else filterMap keep f r
  end.

Section RemoveItem.

Variable itemId : Q.

Definition removeLevel (rec : GridItem -> option (list GridItem))
    (lst : list GridItem) : list GridItem :=
  filterMap (fun item => negb (idEqb (id item) itemId))
            (fun item => withChildren item (rec item))
            lst.

Fixpoint removeChildren (item : GridItem) : option (list GridItem) :=
  match item with
  | mkGridItem _ _ _ _ ch =>
      match ch with
      | Some kids => Some (removeLevel removeChildren kids)
      | None => None
      end
  end.

Definition removeRecursive (lst : list GridItem) : list GridItem :=
  removeLevel removeChildren lst.

Definition removeItem (prev : list GridItem) : list GridItem :=
  removeRecursive prev.

End RemoveItem.

Section DuplicateItem.

(** [newId] is [Date.now() + Math.random()], the id of the clone (the
    code draws a new one for each clone it makes; a call makes more
    than one only where the id occurs again below an item that
    carries it). *)
Variables (currentBreakpoint : Breakpoint) (newId : Q) (itemId : Q).

Definition duplicateLevel (rec : GridItem -> option (list GridItem))
    (lst : list GridItem) : list GridItem :=
  match
    findFirst (fun i => idEqb (id i) itemId)
      (fun item =>
         mkGridItem newId (color item) (Grid.cloneLayoutMap (layout item))
                    (subGrid item) (rec item))
      lst
  with
  | Some clone => reflowOrders (lst ++ [clone]) currentBreakpoint
  | None =>
      map (fun item =>
             match rec item with
             | Some kids => withChildren item (Some kids)
             | None => item
             end)
          lst
  end.

Fixpoint duplicateChildren (item : GridItem) : option (list GridItem) :=
  match item with
  | mkGridItem _ _ _ _ ch =>
      match ch with
      | Some kids => Some (duplicateLevel duplicateChildren kids)
      | None => None
      end
  end.

Definition duplicateRecursive (lst : list GridItem) : list GridItem :=
  duplicateLevel duplicateChildren lst.

Definition duplicateItem (prev : list GridItem) : list GridItem :=
  duplicateRecursive prev.

End DuplicateItem.

(** [loadTime] is the value of [Date.now()] when the constants were
    created. *)
Definition convertItemToGrid (loadTime : Z) (itemId : Q) (prev : list GridItem)
  : list GridItem :=
  updateItemRecursive prev itemId
    (fun item =>
       mkGridItem (id item) (color item) (layout item)
                  (Some (Grid.cloneGridSettings (DEFAULT_GRID_SETTINGS loadTime)))
                  (Some [])).

(** ** [updateGridSetting] *)

(** [tracks.slice(0, end)]: a negative [end] counts from the end. *)
Definition sliceTo (tracks : list Track) (end_ : Z) : list Track :=
  if (end_ <? 0)%Z
  then firstn (Z.to_nat (Z.max (Z.of_nat (List.length tracks) + end_) 0)) tracks
  else firstn (Z.to_nat end_) tracks.

(** [Array.from({ length }, () => ({ id, value: 1, unit: "fr" }))];
    [freshId k] is the id drawn for the [k]-th new track. *)
Definition addedTracks (freshId : nat -> string) (length : Z) : list Track :=
  map (fun k => mkTrack (freshId k) JS.one u_fr) (seq 0 (Z.to_nat length)).

Definition resizeTracks (freshId : nat -> string) (oldTracks : list Track)
    (newCount : Z) : option (list Track) :=
  let len := Z.of_nat (List.length oldTracks) in
  if (newCount >? len)%Z then
    Some (oldTracks ++ addedTracks freshId (newCount - len))
  else if (newCount <? len)%Z then
    Some (sliceTo oldTracks newCount)
  else None.

(** [{ ...currentSettings, ...updates }], the updates being the field
    named by the key and the ones the synchronisation adds. *)
Definition applyUpdate (freshId : nat -> string) (currentSettings : GridSetting)
    (update : SettingUpdate) : GridSetting :=
  match update with
  | set_cols newCols =>
      mkGridSetting newCols (rows currentSettings)
        (match resizeTracks freshId (colTracks currentSettings) newCols with
         | Some tracks => tracks
         | None => colTracks currentSettings
         end)
        (rowTracks currentSettings) (gap currentSettings)
  | set_rows newRows =>
      mkGridSetting (cols currentSettings) newRows
        (colTracks currentSettings)
        (match resizeTracks freshId (rowTracks currentSettings) newRows with
         | Some tracks => tracks
         | None => rowTracks currentSettings
         end)
        (gap currentSettings)
  | set_colTracks v =>
      mkGridSetting (Z.of_nat (List.length v)) (rows currentSettings)
        v (rowTracks currentSettings) (gap currentSettings)
  | set_rowTracks v =>
      mkGridSetting (cols currentSettings) (Z.of_nat (List.length v))
        (colTracks currentSettings) v (gap currentSettings)
  | set_gap v =>
      mkGridSetting (cols currentSettings) (rows currentSettings)
        (colTracks currentSettings) (rowTracks currentSettings) v
  end.

Definition updateSettings (currentBreakpoint : Breakpoint) (freshId : nat -> string)
    (update : SettingUpdate) (settingsMap : GridSettingsMap) : GridSettingsMap :=
  let currentSettings := getBp settingsMap currentBreakpoint in
  setBp settingsMap currentBreakpoint (applyUpdate freshId currentSettings update).

(** The state the hook edits. *)
Record Snapshot : Type := mkSnapshot {
  items : list GridItem;
  gridSettings : GridSettingsMap
}.

Definition updateGridSetting (currentBreakpoint : Breakpoint) (freshId : nat -> string)
    (update : SettingUpdate) (targetGridId : option Q) (state : Snapshot) : Snapshot :=
  if noParent targetGridId then
    mkSnapshot (items state)
               (updateSettings currentBreakpoint freshId update (gridSettings state))
  else
    match targetGridId with
    | Some target =>
        mkSnapshot
          (updateItemRecursive (items state) target
             (fun item =>
                mkGridItem (id item) (color item) (layout item)
                  (match subGrid item with
                   | Some sub => Some (updateSettings currentBreakpoint freshId update sub)
                   | None => None
                   end)
                  (children item)))
          (gridSettings state)
    | None => state
    end.

(** ** [importPreset] *)

Import Json.

(** [Partial<ItemLayout>] read from a truthy [layout[bp]]: only an
    object has properties to spread. *)
Definition readPartialLayout (value : JSON) : Outcome PartialItemLayout :=
  bind (optional asString (prop value "colStart")) (fun cs =>
  bind (optional asString (prop value "colEnd")) (fun ce =>
  bind (optional asString (prop value "rowStart")) (fun rs =>
  bind (optional asString (prop value "rowEnd")) (fun re =>
  bind (optional asNumber (prop value "colSpan")) (fun csp =>
  bind (optional asNumber (prop value "rowSpan")) (fun rsp =>
  bind (optional asString (prop value "order")) (fun o =>
  Ok (mkPartialItemLayout cs ce rs re csp rsp o)))))))).

(** The argument [item.layout] of [sanitizeLayoutMap]: a falsy value
    is [undefined] for [if (!layout)], and a falsy [layout[bp]] is
    skipped. *)
Definition readPartialLayoutMap (value : option JSON)
  : Outcome (option PartialLayoutMap) :=
  if truthy value then
    match value with
    | Some layout =>
        let entry (bp : Breakpoint) : Outcome (option PartialItemLayout) :=
          let at_bp := prop layout (breakpointKey bp) in
          if truthy at_bp then
            match at_bp with
            | Some v => bind (readPartialLayout v) (fun p => Ok (Some p))
            | None => Ok None
            end
          else Ok None in
        bind (entry xs) (fun a => bind (entry sm) (fun b =>
        bind (entry md) (fun c => bind (entry lg) (fun d =>
        bind (entry xl) (fun e => bind (entry xxl) (fun f =>
        Ok (Some (mkPerBreakpoint a b c d e f))))))))
    | None => Ok None
    end
  else Ok None.

(** [x ?? fallback]: the fallback for [undefined] and [null]. *)
Definition nullish {A} (read : JSON -> Outcome A) (value : option JSON) (fallback : A)
  : Outcome A :=
  match value with
  | None | Some JNull => Ok fallback
  | Some v => read v
  end.

(** One element of [preset.items]; reading a property of [null]
    throws. *)
Definition importItem (now : Z) (item : JSON) (index : nat) : Outcome GridItem :=
  match item with
  | JNull => Thrown
  | _ =>
      bind (nullish (fun v => match v with JNumber q => Ok q | _ => IllTyped end)
                    (prop item "id") (inject_Z now + inject_Z (Z.of_nat index))%Q)
           (fun i =>
      bind (nullish asString (prop item "color")
                    (nth (index mod List.length COLORS) COLORS ""))
           (fun c =>
      bind (readPartialLayoutMap (prop item "layout")) (fun l =>
      Ok (mkGridItem i c (Grid.sanitizeLayoutMap l) None None))))
  end.

Fixpoint importItems (now : Z) (elements : list JSON) (index : nat)
  : Outcome (list GridItem) :=
  match elements with
  | [] => Ok []
  | item :: r =>
      bind (importItem now item index) (fun i =>
      bind (importItems now r (S index)) (fun rest => Ok (i :: rest)))
  end.

(** [{ ...t }] for one element of the array. *)
Definition readTrack (value : JSON) : Outcome Track :=
  bind (required asString (prop value "id")) (fun i =>
  bind (required asNumber (prop value "value")) (fun v =>
  bind (required asUnit (prop value "unit")) (fun u =>
  Ok (mkTrack i v u)))).

(** [setting.colTracks?.map((t) => ({ ...t })) || []]. *)
Definition readTracks (value : option JSON) : Outcome (list Track) :=
  match value with
  | None | Some JNull => Ok []
  | Some (JArray elements) => mapM readTrack elements
  | Some _ => Thrown
  end.

(** One entry of [cloneGridSettings(preset.gridSettings)]; a missing
    breakpoint makes [setting.colTracks] throw. *)
Definition readSetting (settings : JSON) (bp : Breakpoint) : Outcome GridSetting :=
  match prop settings (breakpointKey bp) with
  | None | Some JNull => Thrown
  | Some setting =>
      bind (readTracks (prop setting "colTracks")) (fun ct =>
      bind (readTracks (prop setting "rowTracks")) (fun rt =>
      bind (required asInteger (prop setting "cols")) (fun c =>
      bind (required asInteger (prop setting "rows")) (fun r =>
      bind (required asInteger (prop setting "gap")) (fun g =>
      Ok (mkGridSetting c r ct rt g))))))
  end.

Definition readSettingsMap (settings : JSON) : Outcome GridSettingsMap :=
  bind (readSetting settings xs) (fun a => bind (readSetting settings sm) (fun b =>
  bind (readSetting settings md) (fun c => bind (readSetting settings lg) (fun d =>
  bind (readSetting settings xl) (fun e => bind (readSetting settings xxl) (fun f =>
  Ok (mkPerBreakpoint a b c d e f))))))).

(** [preset] is what [JSON.parse(jsonString)] returned; [Thrown] is
    the [catch] branch, which reports the error and leaves the state
    as it was; [Ok s] is the snapshot handed to [setHistoryState]. *)
Definition importPreset (currentBreakpoint : Breakpoint) (now : Z) (preset : JSON)
  : Outcome Snapshot :=
  match preset with
  | JNull => Thrown
  | _ =>
      if negb (truthy (prop preset "items")) || negb (truthy (prop preset "gridSettings"))
      then Thrown
      else
        match prop preset "items", prop preset "gridSettings" with
        | Some (JArray elements), Some settings =>
            bind (importItems now elements 0) (fun importedItems =>
            bind (readSettingsMap settings) (fun clonedSettings =>
            Ok (mkSnapshot (reflowOrders importedItems currentBreakpoint)
                           clonedSettings)))
        | _, _ => Thrown
        end
  end.

(** ** [clearItems], [handleCopyFromBreakpoint] *)

(** [confirmed] is the answer to [window.confirm]. *)
Definition clearItems (confirmed : bool) (targetGridId : option Q)
    (prev : list GridItem) : list GridItem :=
  if confirmed then
    match targetGridId with
    | Some target =>
        if noParent targetGridId then []
        else updateItemRecursive prev target (fun item => withChildren item (Some []))
    | None => []
    end
  else prev.

Inductive Direction : Type := d_prev | d_next.

(** [BREAKPOINT_ORDER.indexOf(bp)]. *)
Fixpoint indexFrom (order : list Breakpoint) (bp : Breakpoint) (index : Z) : Z :=
  match order with
  | [] => (-1)%Z
  | b :: r => if Breakpoint_eqb b bp then index else indexFrom r bp (index + 1)
  end.

Definition indexOf (bp : Breakpoint) : Z := indexFrom BREAKPOINT_ORDER bp 0.

(** The neighbour the copy reads, [None] at the two ends of the order. *)
Definition neighborOf (currentBreakpoint : Breakpoint) (direction : Direction)
  : option Breakpoint :=
  let currentIndex := indexOf currentBreakpoint in
  let neighborIndex :=
    match direction with
    | d_prev => (currentIndex - 1)%Z
    | d_next => (currentIndex + 1)%Z
    end in
  if (neighborIndex <? 0)%Z || (neighborIndex >=? Z.of_nat (List.length BREAKPOINT_ORDER))%Z
  then None
  else nth_error BREAKPOINT_ORDER (Z.to_nat neighborIndex).

(** The snapshot handed to [setHistoryState]; [None] when the function
    returns before it. *)
Definition handleCopyFromBreakpoint (currentBreakpoint : Breakpoint)
    (direction : Direction) (state : Snapshot) : option Snapshot :=
  match neighborOf currentBreakpoint direction with
  | None => None
  | Some neighbor =>
      Some
        (mkSnapshot
           (map (fun item =>
                   withLayout item
                     (setBp (layout item) currentBreakpoint
                            (Grid.copyLayout (getBp (layout item) neighbor))))
                (items state))
           (setBp (gridSettings state) currentBreakpoint
                  (getBp (gridSettings state) neighbor)))
  end.

End GridState.

(* ================================================================== *)
(** * The export of the configuration ([App.tsx]) *)
(* ================================================================== *)

Module App.

(** The JSON value of [JSON.stringify({ items, settings: gridSettings }, null, 2)]. *)
Definition handleExport (state : GridState.Snapshot) : Json.JSON :=
  Json.JObject
    [ ("items", Json.JArray (map Json.ofItem (GridState.items state)));
      ("settings", Json.ofSettingsMap (GridState.gridSettings state)) ].

End App.

(* ================================================================== *)
(** * The geometry bridge ([components/PreviewCanvas.tsx]) *)
(* ================================================================== *)

Module PreviewCanvas.

(** Pixel sizes are numbers, and the arithmetic on them is the
    binary64 arithmetic of [JS.fadd], [JS.fsub], [JS.fmul] and
    [JS.fdiv]; grid lines, spans and track counts are integers.  The
    field [gridRect] of the metrics, which only [positionFromRect]
    reads, is left out. *)
Record GridMetrics : Type := mkGridMetrics {
  colWidths : list JS.number;
  rowHeights : list JS.number;
  gapPx : JS.number
}.

Record GridPosition : Type := mkGridPosition {
  pos_colStart : Z;
  pos_rowStart : Z
}.

(** [sizes[i]] in an arithmetic expression: [undefined] outside the
    array, which a sum turns into NaN. *)
Definition sizeAt (sizes : list JS.number) (i : Z) : JS.number :=
  if (i <? 0)%Z then JS.NaN else nth (Z.to_nat i) sizes JS.NaN.

(** The indices [from, from + 1, ...] below [from + count]. *)
Definition indicesFrom (from count : Z) : list Z :=
  map (fun k => (from + Z.of_nat k)%Z) (seq 0 (Z.to_nat count)).

Definition getTrackPosition (index : Z) (sizes : list JS.number) (gap : JS.number)
  : JS.number :=
  fold_left (fun pos i => JS.fadd pos (JS.fadd (sizeAt sizes i) gap))
            (indicesFrom 0 (index - 1)) JS.zero.

(** One of the two loops of [positionFromCoords]: [current] is
    [currentX], [start] is [colStart]. *)
Fixpoint scanTracks (x : JS.number) (gap : JS.number) (sizes : list JS.number)
    (current : JS.number) (start : Z) : Z :=
  match sizes with
  | [] => start
  | size :: rest =>
      if JS.ltb x (JS.fadd current (JS.fdiv size (JS.Fin 2))) then start
      else scanTracks x gap rest (JS.fadd current (JS.fadd size gap)) (start + 1)
  end.

Definition positionFromCoords (x y : JS.number) (metrics : GridMetrics)
    (colSpan rowSpan totalCols totalRows : Z) : GridPosition :=
  let colStart := scanTracks x (gapPx metrics) (colWidths metrics) JS.zero 1 in
  let rowStart := scanTracks y (gapPx metrics) (rowHeights metrics) JS.zero 1 in
  let maxCol := Z.max 1 (totalCols - colSpan + 1) in
  let maxRow := Z.max 1 (totalRows - rowSpan + 1) in
  mkGridPosition (Grid.clamp colStart 1 maxCol) (Grid.clamp rowStart 1 maxRow).

(** The sum of the sizes of the tracks an item spans. *)
Definition spannedSize (start span : Z) (sizes : list JS.number) : JS.number :=
  fold_left
    (fun size i =>
       if (i <? Z.of_nat (List.length sizes))%Z then JS.fadd size (sizeAt sizes i)
       else size)
    (indicesFrom (start - 1) span) JS.zero.

Definition indicatorFrom (colStart rowStart colSpan rowSpan : Z)
    (metrics : GridMetrics) : DragIndicator :=
  let left := getTrackPosition colStart (colWidths metrics) (gapPx metrics) in
  let top := getTrackPosition rowStart (rowHeights metrics) (gapPx metrics) in
  let width :=
    JS.fadd (spannedSize colStart colSpan (colWidths metrics))
            (JS.fmul (gapPx metrics) (JS.ofZ (Z.max (colSpan - 1) 0))) in
  let height :=
    JS.fadd (spannedSize rowStart rowSpan (rowHeights metrics))
            (JS.fmul (gapPx metrics) (JS.ofZ (Z.max (rowSpan - 1) 0))) in
  mkDragIndicator left top width height.

(** ** Resizing and the commit of a drag *)

(** The tracks [sizes[from], sizes[from + 1], ...]: a negative index
    reads [undefined]. *)
Definition tracksFrom (from : Z) (sizes : list JS.number) : list JS.number :=
  if (from <? 0)%Z then repeat JS.NaN (Z.to_nat (- from)) ++ sizes
  else skipn (Z.to_nat from) sizes.

(** The loop of [spanFromSize]. *)
Fixpoint growSpan (size gap : JS.number) (sizes : list JS.number)
    (currentSize : JS.number) (span : Z) : Z :=
  match sizes with
  | [] => span
  | s :: rest =>
      let currentSize := JS.fadd currentSize s in
      let span := (span + 1)%Z in
      if JS.geb currentSize (JS.fsub size (JS.fdiv gap (JS.Fin 2))) then span
      else growSpan size gap rest (JS.fadd currentSize gap) span
  end.

Definition spanFromSize (size : JS.number) (startIndex : Z) (sizes : list JS.number)
    (gap : JS.number) (maxSpan : Z) : Z :=
  Grid.clamp (growSpan size gap (tracksFrom (startIndex - 1) sizes) JS.zero 0) 1 maxSpan.

Inductive DragMode : Type := m_move | m_resize.

Record DragSession : Type := mkDragSession {
  mode : DragMode;
  itemId : Q;
  breakpoint : Breakpoint;
  startCol : Z;
  startRow : Z;
  baseColSpan : Z;
  baseRowSpan : Z;
  startWidth : JS.number;
  startHeight : JS.number
}.

(** The callback [setItemsForMove] hands to [mutateLayout]. *)
Definition moveLayout (session : DragSession) (coords : GridPosition)
    (layout : ItemLayout) : ItemLayout :=
  mkItemLayout
    (JS.StringOfZ (pos_colStart coords))
    (JS.StringOfZ (pos_colStart coords + baseColSpan session))
    (JS.StringOfZ (pos_rowStart coords))
    (JS.StringOfZ (pos_rowStart coords + baseRowSpan session))
    (colSpan layout) (rowSpan layout) (order layout).

Definition setItemsForMove (session : DragSession) (coords : GridPosition)
    (prev : list GridItem) : list GridItem :=
  GridState.mutateLayout (itemId session) (breakpoint session)
    (moveLayout session coords) prev.

Section Resize.

(** [String(n)] for an arbitrary number, as in the code generator. *)
Variable numberToString : JS.number -> string.

(** The callback [setItemsForResize] hands to [mutateLayout]. *)
Definition resizeLayout (session : DragSession) (newColSpan newRowSpan totalCols : Z)
    (layout : ItemLayout) : ItemLayout :=
  let next := Grid.copyLayout layout in
  let next :=
    if negb (Grid.isAuto (colStart next)) then
      let start := JS.orElse (JS.Number (colStart next)) (JS.ofZ (startCol session)) in
      mkItemLayout (colStart next)
        (numberToString (JS.min (JS.add start (JS.ofZ newColSpan)) (JS.ofZ (totalCols + 1))))
        (rowStart next) (rowEnd next) (colSpan next) (rowSpan next) (order next)
    else
      mkItemLayout (colStart next) (colEnd next) (rowStart next) (rowEnd next)
                   (JS.ofZ newColSpan) (rowSpan next) (order next) in
  if negb (Grid.isAuto (rowStart next)) then
    let start := JS.orElse (JS.Number (rowStart next)) (JS.ofZ (startRow session)) in
    mkItemLayout (colStart next) (colEnd next) (rowStart next)
      (numberToString (JS.add start (JS.ofZ newRowSpan)))
      (colSpan next) (rowSpan next) (order next)
  else
    mkItemLayout (colStart next) (colEnd next) (rowStart next) (rowEnd next)
                 (colSpan next) (JS.ofZ newRowSpan) (order next).

Definition setItemsForResize (session : DragSession) (newColSpan newRowSpan : Z)
    (totalCols : Z) (prev : list GridItem) : list GridItem :=
  GridState.mutateLayout (itemId session) (breakpoint session)
    (resizeLayout session newColSpan newRowSpan totalCols) prev.

End Resize.

End PreviewCanvas.

(* ================================================================== *)
(** * Trees of items: lookup, shape, induction *)
(* ================================================================== *)

Module Tree.

(** [findItemRecursive] of the hook: the first item with the id, depth
    first. *)
Fixpoint firstSome {B} (f : GridItem -> option B) (lst : list GridItem) : option B :=
  match lst with
  | [] => None
  | item :: r =>
      match f item with
      | Some found => Some found
      | None => firstSome f r
      end
  end.

Fixpoint findInItem (itemId : Q) (item : GridItem) : option GridItem :=
  match item with
  | mkGridItem i _ _ _ ch =>
      if idEqb i itemId then Some item
      else
        match ch with
        | Some kids => firstSome (findInItem itemId) kids
        | None => None
        end
  end.

Definition findItemRecursive (lst : list GridItem) (itemId : Q) : option GridItem :=
  firstSome (findInItem itemId) lst.

(** The dichotomy of the data model: a leaf has neither [subGrid] nor
    [children], a container has both; and so for every descendant. *)
Fixpoint wellShaped (item : GridItem) : bool :=
  match item with
  | mkGridItem _ _ _ sg ch =>
      match sg, ch with
      | None, None => true
      | Some _, Some kids => forallb wellShaped kids
      | _, _ => false
      end
  end.

Definition wellShapedTree (lst : list GridItem) : bool := forallb wellShaped lst.

(** Some item of the subtree carries the id and has no children. *)
Fixpoint hasLeafWithId (itemId : Q) (item : GridItem) : bool :=
  match item with
  | mkGridItem i _ _ _ ch =>
      match ch with
      | None => idEqb i itemId
      | Some kids => existsb (hasLeafWithId itemId) kids
      end
  end.

(** The number of items of a tree. *)
Fixpoint countItems (item : GridItem) : nat :=
  match item with
  | mkGridItem _ _ _ _ ch =>
      match ch with
      | None => 1
      | Some kids => S (list_sum (map countItems kids))
      end
  end.

(** Induction on a tree of items: the children of a container satisfy
    the property. *)
Section Induction.

Variable P : GridItem -> Prop.
Hypothesis leaf_case : forall i c l sg, P (mkGridItem i c l sg None).
Hypothesis container_case :
  forall i c l sg kids, Forall P kids -> P (mkGridItem i c l sg (Some kids)).

Fixpoint GridItem_tree_ind (item : GridItem) : P item :=
  match item with
  | mkGridItem i c l sg None => leaf_case i c l sg
  | mkGridItem i c l sg (Some kids) =>
      container_case i c l sg kids
        ((fix all (lst : list GridItem) : Forall P lst :=
            match lst with
            | [] => Forall_nil P
            | k :: r => Forall_cons k (GridItem_tree_ind k) (all r)
            end) kids)
  end.

End Induction.

(** [findParent] of the hook: the loop [find(list, parent)], given the
    result [rec item] of [find(item.children, item)]. *)
Fixpoint findLevel (itemId : Q) (rec : GridItem -> option GridItem)
    (parent : option GridItem) (lst : list GridItem) : option GridItem :=
  match lst with
  | [] => None
  | item :: r =>
      if idEqb (id item) itemId then parent
      else
        match rec item with
        | Some found => Some found
        | None => findLevel itemId rec parent r
        end
  end.

Fixpoint findBelow (itemId : Q) (item : GridItem) : option GridItem :=
  match item with
  | mkGridItem _ _ _ _ ch =>
      match ch with
      | Some kids => findLevel itemId (findBelow itemId) (Some item) kids
      | None => None
      end
  end.

Definition findParent (items : list GridItem) (itemId : Q) : option GridItem :=
  findLevel itemId (findBelow itemId) None items.

End Tree.

(* ================================================================== *)
(** * The vocabulary of the statements, and sample data *)
(* ================================================================== *)

(** The start and end strings of an axis, and its explicit span. *)
Definition startOf (l : ItemLayout) (axis : Axis) : string :=
  match axis with col => colStart l | row => rowStart l end.

Definition endOf (l : ItemLayout) (axis : Axis) : string :=
  match axis with col => colEnd l | row => rowEnd l end.

Definition spanOf (l : ItemLayout) (axis : Axis) : JS.number :=
  match axis with col => colSpan l | row => rowSpan l end.

(** A numeric string: [Number] reads a finite number. *)
Definition numeric (s : string) : Prop :=
  exists q, JS.Number s = JS.Fin q.

(** The difference [Number(end) - Number(start)] of an axis. *)
Definition lineDifference (l : ItemLayout) (axis : Axis) : JS.number :=
  JS.sub (JS.Number (endOf l axis)) (JS.Number (startOf l axis)).

(** A layout with the lines 2 and 5 on the column axis, [span 2] on
    the row axis start, and explicit spans 3 and 4. *)
Definition sampleLayout : ItemLayout :=
  mkItemLayout "2" "5" "span 2" "4" (JS.Fin 3) (JS.Fin 4) "auto".

(** Sample data for the history engine and the settings. *)
Definition sampleHistory : History.HistoryState nat :=
  History.mkHistoryState [0%nat] 1%nat [9%nat].

Definition sampleSettings : GridSettingsMap := DEFAULT_GRID_SETTINGS 0.

Definition sampleFreshId (k : nat) : string := JS.cat ["t"; JS.StringOfNat k].

(** The classes the loop over the breakpoints appends to the opening
    tag of a container. *)
Definition containerClasses (numberToString : JS.number -> string)
    (settings : GridSettingsMap) : string :=
  Grid.h_code
    (fold_left (Grid.headerStep numberToString settings) BREAKPOINT_ORDER
               (Grid.mkHeaderState "" None None None)).

(** A field of a sanitized layout: the value given for the breakpoint,
    the default otherwise. *)
Definition givenOr {A} (part : option PartialItemLayout)
    (field : PartialItemLayout -> option A) (default : A) : A :=
  match part with
  | Some p => match field p with Some v => v | None => default end
  | None => default
  end.

(** The partial input [{ xs: { colSpan: 3 } }]. *)
Definition onlyXsColSpan3 : PartialLayoutMap :=
  mkPerBreakpoint
    (Some (mkPartialItemLayout None None None None (Some (JS.Fin 3)) None None))
    None None None None None.

(** The list of tracks after the count of an axis is set to [n]. *)
Definition resized (freshId : nat -> string) (tracks : list Track) (n : Z) : list Track :=
  match GridState.resizeTracks freshId tracks n with
  | Some t => t
  | None => tracks
  end.

(** A leaf with the id [i], placed at row [r] and column [c] at the
    breakpoint [xs]. *)
Definition sampleLeaf (i : Q) (r c : string) : GridItem :=
  mkGridItem i "bg-blue-500"
    (setBp Grid.createLayoutMap xs
       (mkItemLayout c "auto" r "auto" JS.one JS.one "auto"))
    None None.

(** A tree with a leaf (id 1) and a container (id 2) that holds a leaf
    (id 3) and an empty container (id 4). *)
Definition sampleTree : list GridItem :=
  [ sampleLeaf 1 "2" "1";
    mkGridItem 2 "bg-red-500" Grid.createLayoutMap (Some sampleSettings)
      (Some [ sampleLeaf 3 "1" "1";
              mkGridItem 4 "bg-pink-500" Grid.createLayoutMap
                         (Some sampleSettings) (Some []) ]) ].

(** What the shape of an item says about the result [rec item] of a
    recursive call on its children. *)
Definition keepsShape (rec : GridItem -> option (list GridItem)) (item : GridItem) : Prop :=
  Tree.wellShaped item = true -> Tree.wellShaped (withChildren item (rec item)) = true.

(** The metrics of a grid of uniform tracks. *)
Definition uniformMetrics (w h g : Q) (totalCols totalRows : Z)
  : PreviewCanvas.GridMetrics :=
  PreviewCanvas.mkGridMetrics
    (repeat (JS.Fin w) (Z.to_nat totalCols))
    (repeat (JS.Fin h) (Z.to_nat totalRows))
    (JS.Fin g).

(** The order of the reflow, in the words of the specification: by
    numeric row start, then by numeric column start, then by original
    index; the numeric value of a position is [parsePosition], which
    is [+infinity] for a position that is not a number. *)
Definition entryBefore (a b : GridState.SortEntry) : bool :=
  JS.ltb (GridState.e_row a) (GridState.e_row b)
  || (JS.eqb (GridState.e_row a) (GridState.e_row b)
      && (JS.ltb (GridState.e_col a) (GridState.e_col b)
          || (JS.eqb (GridState.e_col a) (GridState.e_col b)
              && Nat.ltb (GridState.e_index a) (GridState.e_index b)))).

(** The entries of a sibling list, in the order of the list. *)
Definition entriesOf (lst : list GridItem) (bp : Breakpoint) : list GridState.SortEntry :=
  GridState.mapIndexed (GridState.toEntry bp) 0 lst.

(** The number of entries of a list that come before an entry. *)
Definition countBefore (e : GridState.SortEntry) (l : list GridState.SortEntry) : nat :=
  List.length (filter (fun x => entryBefore x e) l).

(** The rank of the sibling at position [i]: the number of siblings
    that come before it in the order of the reflow, which is its
    position in the sorted list. *)
Definition rank (lst : list GridItem) (bp : Breakpoint) (i : nat) : nat :=
  match nth_error (entriesOf lst bp) i with
  | Some e => countBefore e (entriesOf lst bp)
  | None => O
  end.

(** The ids of a sibling list are pairwise different. *)
Fixpoint distinctIds (lst : list GridItem) : bool :=
  match lst with
  | [] => true
  | a :: r => negb (existsb (fun b => idEqb (id a) (id b)) r) && distinctIds r
  end.

(** The layout of an item at a breakpoint, with another order. *)
Definition reordered (item : GridItem) (bp : Breakpoint) (o : string) : GridItem :=
  withLayout item
    (setBp (layout item) bp (GridState.withOrder (getBp (layout item) bp) o)).

(** An entry whose row and column are numbers. *)
Definition validEntry (e : GridState.SortEntry) : Prop :=
  JS.isNaN (GridState.e_row e) = false /\ JS.isNaN (GridState.e_col e) = false.

(** The three siblings of the example: at (row, column) = (2, 1),
    (1, 1) and (1, 3). *)
Definition exampleSiblings : list GridItem :=
  [ sampleLeaf 11 "2" "1"; sampleLeaf 12 "1" "1"; sampleLeaf 13 "1" "3" ].

(** Two siblings with the same id. *)
Definition twinSiblings : list GridItem :=
  [ sampleLeaf 1 "2" "1"; sampleLeaf 1 "1" "1" ].

(** [a] comes before [b] in the order of the reflow. *)
Definition comesBefore (a b : GridState.SortEntry) : Prop := entryBefore a b = true.

(** No entry occurs twice, and two entries with the same id are the
    same entry. *)
Definition uniqueIds (l : list GridState.SortEntry) : Prop :=
  NoDup l
  /\ forall a b, In a l -> In b l ->
                 idEqb (GridState.e_id a) (GridState.e_id b) = true -> a = b.

(* ================================================================== *)
(** * Further vocabulary *)
(* ================================================================== *)

(** The order the reflow writes for an item, as a number: what the
    map of orders holds for its id. *)
Definition orderNumber (orderMap : GridState.OrderMap) (item : GridItem) : nat :=
  match GridState.mapGet orderMap (id item) with
  | Some o => o
  | None => (GridState.mapSize orderMap + 1)%nat
  end.

(** The map of orders the reflow builds for a sibling list. *)
Definition orderMapOf (lst : list GridItem) (bp : Breakpoint) : GridState.OrderMap :=
  GridState.setOrders (GridState.sort GridState.compareEntries (entriesOf lst bp)) 0 [].

(** The order string of an item at a breakpoint. *)
Definition orderAt (bp : Breakpoint) (item : GridItem) : string :=
  order (getBp (layout item) bp).

(** A complete layout as a partial one, and a complete map of layouts
    as a partial one. *)
Definition completeLayout (l : ItemLayout) : PartialItemLayout :=
  mkPartialItemLayout (Some (colStart l)) (Some (colEnd l)) (Some (rowStart l))
                      (Some (rowEnd l)) (Some (colSpan l)) (Some (rowSpan l))
                      (Some (order l)).

Definition completeLayoutMap (m : LayoutMap) : PartialLayoutMap :=
  buildBp (fun bp => Some (completeLayout (getBp m bp))).

(** A history of numbers with two past states and one future state. *)
Definition sampleHistory2 : History.HistoryState nat :=
  History.mkHistoryState [3%nat; 4%nat] 5%nat [6%nat].

(** A snapshot that holds the sample tree. *)
Definition sampleSnapshot : GridState.Snapshot :=
  GridState.mkSnapshot sampleTree sampleSettings.

(** The first item of a sibling list that carries the id. *)
Definition firstWithId (itemId : Q) (lst : list GridItem) : option GridItem :=
  GridState.findFirst (fun i => idEqb (id i) itemId) (fun item => item) lst.

(** The item [addItem] creates. *)
Definition newItemOf (now : Z) (random : Q) : GridItem :=
  mkGridItem (inject_Z now) (GridState.randomColor random) Grid.createLayoutMap
             None None.

(** An item with the layout at a breakpoint replaced. *)
Definition withLayoutAt (item : GridItem) (bp : Breakpoint) (l : ItemLayout) : GridItem :=
  withLayout item (setBp (layout item) bp l).

(** A number that is at least 1 (and so not NaN). *)
Definition atLeastOne (n : JS.number) : Prop :=
  JS.isNaN n = false /\ JS.ltb n JS.one = false.

(** The span the field update stores for an input. *)
Definition storedSpan (value : string) : JS.number :=
  let parsed := JS.Number value in
  if JS.isNaN parsed || JS.ltb parsed JS.one then JS.one else parsed.

(** The string the field update stores for an input. *)
Definition storedString (value : string) : string :=
  if String.eqb value "" || String.eqb value "auto" then "auto" else value.

(** The layout the field update stores. *)
Definition updatedLayout (l : ItemLayout) (field : LayoutField) (value : string)
  : ItemLayout :=
  match field with
  | f_colSpan | f_rowSpan => GridState.setSpanField l field (storedSpan value)
  | _ => GridState.setStringField l field (storedString value)
  end.

(** A map of settings with the same setting at every breakpoint. *)
Definition sameEverywhere (s : GridSetting) : GridSettingsMap :=
  buildBp (fun _ => s).

(** The class of the column tracks and of the row tracks of a
    setting, as the generator writes them. *)
Definition colsClassOf (numberToString : JS.number -> string) (config : GridSetting)
  : string :=
  if negb (Grid.isStandardTracks (colTracks config))
  then JS.cat ["grid-cols-["; Grid.getTrackString numberToString (colTracks config); "]"]
  else JS.cat ["grid-cols-"; JS.StringOfZ (cols config)].

Definition rowsClassOf (numberToString : JS.number -> string) (config : GridSetting)
  : string :=
  if negb (Grid.isStandardTracks (rowTracks config))
  then JS.cat ["grid-rows-["; Grid.getTrackString numberToString (rowTracks config); "]"]
  else JS.cat ["grid-rows-"; JS.StringOfZ (rows config)].

(** A number that JSON can write: a finite one. *)
Definition isFinite (n : JS.number) : bool :=
  match n with JS.Fin _ => true | _ => false end.

Definition finiteSpans (l : ItemLayout) : bool :=
  isFinite (colSpan l) && isFinite (rowSpan l).

Definition finiteLayouts (m : LayoutMap) : bool :=
  forallb (fun bp => finiteSpans (getBp m bp)) BREAKPOINT_ORDER.

Definition finiteTracks (s : GridSetting) : bool :=
  forallb (fun t => isFinite (value t)) (colTracks s)
  && forallb (fun t => isFinite (value t)) (rowTracks s).

Definition finiteSettings (m : GridSettingsMap) : bool :=
  forallb (fun bp => finiteTracks (getBp m bp)) BREAKPOINT_ORDER.

(** An item without its sub-grid and its children. *)
Definition asLeaf (item : GridItem) : GridItem :=
  mkGridItem (id item) (color item) (layout item) None None.

(** The configuration in the format the import reads. *)
Definition presetOf (state : GridState.Snapshot) : Json.JSON :=
  Json.JObject
    [ ("items", Json.JArray (map Json.ofItem (GridState.items state)));
      ("gridSettings", Json.ofSettingsMap (GridState.gridSettings state)) ].

(** The step of a copy from a neighbour in the order of the
    breakpoints. *)
Definition directionStep (direction : GridState.Direction) : Z :=
  match direction with
  | GridState.d_prev => (-1)%Z
  | GridState.d_next => 1%Z
  end.

(** The characters of a decimal numeral. *)
Definition digitsOf (d : Decimal.uint) : list ascii :=
  list_ascii_of_string (NilEmpty.string_of_uint d).

(** [String(n)] on the integers: what the statements about a resize
    ask of the printer of numbers. *)
Definition printsIntegers (numberToString : JS.number -> string) : Prop :=
  forall (q : Q) (z : Z), (q == inject_Z z)%Q -> numberToString (JS.Fin q) = JS.StringOfZ z.

(** A printer of numbers that is right on the integers. *)
Definition integerToString (n : JS.number) : string :=
  match n with
  | JS.Fin q => JS.StringOfZ (Qfloor q)
  | JS.NaN => "NaN"
  | JS.PosInf => "Infinity"
  | JS.NegInf => "-Infinity"
  end.

Definition sampleSession : PreviewCanvas.DragSession :=
  PreviewCanvas.mkDragSession PreviewCanvas.m_move 5 xs 1 1 2 1 (JS.Fin 100) (JS.Fin 50).

(** The number of properties a style object sets. *)
Definition propertyCount (styles : Grid.CSSProperties) : nat :=
  let one (A : Type) (p : option A) : nat := match p with Some _ => 1%nat | None => 0%nat end in
  (one _ (Grid.gridColumnStart styles) + one _ (Grid.gridColumnEnd styles)
   + one _ (Grid.gridRowStart styles) + one _ (Grid.gridRowEnd styles)
   + one _ (Grid.gridColumn styles) + one _ (Grid.gridRow styles)
   + one _ (Grid.cssOrder styles))%nat.

(** ** Sibling lists below the root *)

(** The sibling list reached from a list along a path of child
    indices: the empty path reaches the list itself. *)
Fixpoint siblingsAt (path : list nat) (lst : list GridItem) : option (list GridItem) :=
  match path with
  | [] => Some lst
  | i :: rest =>
      match nth_error lst i with
      | Some item =>
          match children item with
          | Some kids => siblingsAt rest kids
          | None => None
          end
      | None => None
      end
  end.

(** The search for a sibling list that holds the id goes down the
    path: no list on the way, the one the path reaches apart, holds
    the id. *)
Fixpoint descends (itemId : Q) (path : list nat) (lst : list GridItem) : bool :=
  match path with
  | [] => true
  | i :: rest =>
      negb (GridState.hasId itemId lst)
      && match nth_error lst i with
         | Some item =>
             match children item with
             | Some kids => descends itemId rest kids
             | None => false
             end
         | None => false
         end
  end.

(** The metrics of a grid whose tracks have the finite sizes [ws] and
    [hs]. *)
Definition finiteMetrics (ws hs : list Q) (g : Q) : PreviewCanvas.GridMetrics :=
  PreviewCanvas.mkGridMetrics (map JS.Fin ws) (map JS.Fin hs) (JS.Fin g).

(** ** Measured pixels *)

(** A measure of [a] units of [2^-k] pixel. *)
Definition pixels (k : nat) (a : Z) : Q := inject_Z a / 2 ^ Z.of_nat k.

(** The metrics of a grid whose measured sizes are whole numbers of
    units of [2^-k] pixel. *)
Definition pixelMetrics (k : nat) (ws hs : list Z) (g : Z) : PreviewCanvas.GridMetrics :=
  PreviewCanvas.mkGridMetrics
    (map (fun a => JS.Fin (pixels k a)) ws)
    (map (fun a => JS.Fin (pixels k a)) hs)
    (JS.Fin (pixels k g)).

Definition allPositive (ws : list Z) : Prop := Forall (fun a => (0 < a)%Z) ws.

(** The extent of tracks that are each followed by a gap, in units. *)
Definition extent (g : Z) (ws : list Z) : Z :=
  fold_right (fun a rest => (a + g + rest)%Z) 0%Z ws.

(** The number is [z] units of [2^-K] pixel. *)
Definition denotes (K : Z) (n : JS.number) (z : Z) : Prop :=
  exists q, n = JS.Fin q /\ (q == inject_Z z / 2 ^ K)%Q.

(* ================================================================== *)
(** * Properties *)
(* ================================================================== *)

(** ** The recursive functions, in the shape of the source *)

(** [list.filter(keep).map(f)]. *)
Lemma filterMap_spec (keep : GridItem -> bool) (f : GridItem -> GridItem)
    (lst : list GridItem) :
  GridState.filterMap keep f lst = map f (filter keep lst).
Proof.
  induction lst as [| item r IH]; simpl; [reflexivity |].
  destruct (keep item); simpl; rewrite IH; reflexivity.
Qed.

(** [removeRecursive(list)] filters the list and calls itself on the
    children of the items that stay. *)
Lemma removeRecursive_unfold (itemId : Q) (lst : list GridItem) :
  GridState.removeRecursive itemId lst
  = map (fun item =>
           withChildren item
             (match children item with
              | Some kids => Some (GridState.removeRecursive itemId kids)
              | None => None
              end))
        (filter (fun item => negb (idEqb (id item) itemId)) lst).
Proof.
  unfold GridState.removeRecursive at 1. unfold GridState.removeLevel.
  rewrite filterMap_spec. apply map_ext.
  intros [i c l sg [kids |]]; reflexivity.
Qed.

(** [updateAndReflow(list)] updates and reflows the list that holds
    the item, and otherwise calls itself on the children. *)
Lemma updateAndReflow_unfold (itemId : Q) (bp : Breakpoint)
    (cb : ItemLayout -> ItemLayout) (lst : list GridItem) :
  GridState.updateAndReflow itemId bp cb lst
  = if GridState.hasId itemId lst then
      GridState.reflowOrders
        (map (fun item =>
                if negb (idEqb (id item) itemId) then item
                else withLayout item
                       (setBp (layout item) bp
                              (cb (Grid.copyLayout (getBp (layout item) bp)))))
             lst)
        bp
    else
      map (fun item =>
             match children item with
             | Some kids =>
                 withChildren item (Some (GridState.updateAndReflow itemId bp cb kids))
             | None => item
             end)
          lst.
Proof.
  unfold GridState.updateAndReflow at 1. unfold GridState.updateAndReflowLevel.
  destruct (GridState.hasId itemId lst); [reflexivity |].
  apply map_ext. intros [i c l sg [kids |]]; reflexivity.
Qed.

(** [duplicateRecursive(list)] appends the clone to the list that
    holds the item and reflows it, and otherwise calls itself on the
    children; the children of the clone are what the function returns
    on the children of the item. *)
Lemma duplicateRecursive_unfold (bp : Breakpoint) (newId itemId : Q)
    (lst : list GridItem) :
  GridState.duplicateRecursive bp newId itemId lst
  = match
      GridState.findFirst (fun i => idEqb (id i) itemId)
        (fun item =>
           mkGridItem newId (color item) (Grid.cloneLayoutMap (layout item))
             (subGrid item)
             (match children item with
              | Some kids => Some (GridState.duplicateRecursive bp newId itemId kids)
              | None => None
              end))
        lst
    with
    | Some clone => GridState.reflowOrders (lst ++ [clone]) bp
    | None =>
        map (fun item =>
               match children item with
               | Some kids =>
                   withChildren item
                     (Some (GridState.duplicateRecursive bp newId itemId kids))
               | None => item
               end)
            lst
    end.
Proof.
  unfold GridState.duplicateRecursive at 1. unfold GridState.duplicateLevel.
  assert (Hfind : forall l,
             GridState.findFirst (fun i => idEqb (id i) itemId)
               (fun item =>
                  mkGridItem newId (color item) (Grid.cloneLayoutMap (layout item))
                    (subGrid item) (GridState.duplicateChildren bp newId itemId item)) l
             = GridState.findFirst (fun i => idEqb (id i) itemId)
                 (fun item =>
                    mkGridItem newId (color item) (Grid.cloneLayoutMap (layout item))
                      (subGrid item)
                      (match children item with
                       | Some kids => Some (GridState.duplicateRecursive bp newId itemId kids)
                       | None => None
                       end)) l).
  { induction l as [| item r IH]; simpl; [reflexivity |].
    destruct (idEqb (id item) itemId); [| exact IH].
    destruct item as [i c l sg [kids |]]; reflexivity. }
  rewrite Hfind.
  destruct (GridState.findFirst _ _ lst); [reflexivity |].
  apply map_ext. intros [i c l sg [kids |]]; reflexivity.
Qed.

(** [updateItemRecursive(list, itemId, cb)] applies the callback to
    the items with the id and calls itself on the children of the
    others. *)
Lemma updateItemRecursive_unfold (itemId : Q) (cb : GridItem -> GridItem)
    (lst : list GridItem) :
  GridState.updateItemRecursive lst itemId cb
  = map (fun item =>
           if idEqb (id item) itemId then cb item
           else
             match children item with
             | Some kids =>
                 withChildren item (Some (GridState.updateItemRecursive kids itemId cb))
             | None => item
             end)
        lst.
Proof.
  unfold GridState.updateItemRecursive at 1. apply map_ext.
  intros [i c l sg [kids |]]; reflexivity.
Qed.

(** The markup of a container item holds [generateGridContainer] of
    its children, four columns deeper and not as the root. *)
Lemma itemCode_container (numberToString : JS.number -> string)
    (classAttr : string) (indent index : nat)
    (i : Q) (c : string) (l : LayoutMap) (sub : GridSettingsMap)
    (kids : list GridItem) :
  Grid.itemCode numberToString classAttr indent index
    (mkGridItem i c l (Some sub) (Some kids))
  = JS.cat [ (JS.repeatString " " indent ++ "  ")%string; "<div "; classAttr; "=";
             JS.dq;
             JS.trimString (JS.join " " (Grid.itemClassNames numberToString l));
             JS.dq; ">";
             Grid.generateGridContainer numberToString classAttr kids sub (indent + 4) false;
             (JS.repeatString " " indent ++ "  ")%string; "</div>"; JS.nl ].
Proof.
  unfold Grid.generateGridContainer. cbn [Grid.itemCode]. reflexivity.
Qed.

(** ** Numbers *)

Lemma same_refl (a : JS.number) : JS.same a a.
Proof. destruct a; simpl; auto. reflexivity. Qed.

Lemma sub_finite_is_number (p q : Q) :
  JS.isNaN (JS.sub (JS.Fin p) (JS.Fin q)) = false.
Proof. reflexivity. Qed.

Lemma Qle_bool_false_lt (p q : Q) : Qle_bool p q = false -> (q < p)%Q.
Proof.
  intros H. apply Qnot_le_lt. intros Hle.
  apply Qle_bool_iff in Hle. congruence.
Qed.

(** [x < 1 ? 1 : x] is [Math.max(1, x)] when [x] is a number. *)
Lemma clamp_below_one_is_max (x : JS.number) :
  JS.isNaN x = false ->
  JS.same (if JS.isNaN x || JS.ltb x JS.one then JS.one else x) (JS.max JS.one x).
Proof.
  destruct x as [| |q|]; simpl; intros Hx; try discriminate; try exact I.
  - reflexivity.
  - destruct (Qle_bool 1 q) eqn:H1, (Qle_bool q 1) eqn:H2; simpl.
    + apply Qle_bool_iff in H1. apply Qle_bool_iff in H2. apply Qle_antisym; assumption.
    + reflexivity.
    + reflexivity.
    + apply Qle_bool_false_lt in H1. apply Qle_bool_false_lt in H2. lra.
Qed.

(** ** C1: the effective span *)

Lemma numeric_difference (l : ItemLayout) (axis : Axis) :
  numeric (startOf l axis) -> numeric (endOf l axis) ->
  JS.isNaN (lineDifference l axis) = false.
Proof.
  intros [p Hp] [q Hq]. unfold lineDifference. rewrite Hp, Hq. reflexivity.
Qed.

(** C1 (as amended).  On either axis: when start and end are both
    non-auto, [getSpan] is [max(1, Number(end) - Number(start))] if
    that difference is a number (which it is for two numeric strings)
    and [1] if it is NaN; when start or end is auto, [getSpan] is the
    explicit span of the layout. *)
Theorem getSpan_spec (l : ItemLayout) (axis : Axis) :
  (Grid.isAuto (startOf l axis) = false ->
   Grid.isAuto (endOf l axis) = false ->
   numeric (startOf l axis) -> numeric (endOf l axis) ->
   JS.same (Grid.getSpan l axis) (JS.max JS.one (lineDifference l axis)))
  /\ (Grid.isAuto (startOf l axis) = false ->
      Grid.isAuto (endOf l axis) = false ->
      JS.isNaN (lineDifference l axis) = false ->
      JS.same (Grid.getSpan l axis) (JS.max JS.one (lineDifference l axis)))
  /\ (Grid.isAuto (startOf l axis) = false ->
      Grid.isAuto (endOf l axis) = false ->
      JS.isNaN (lineDifference l axis) = true ->
      Grid.getSpan l axis = JS.one)
  /\ (Grid.isAuto (startOf l axis) = true \/ Grid.isAuto (endOf l axis) = true ->
      Grid.getSpan l axis = spanOf l axis).
Proof.
  assert (Hnum : Grid.isAuto (startOf l axis) = false ->
                 Grid.isAuto (endOf l axis) = false ->
                 JS.isNaN (lineDifference l axis) = false ->
                 JS.same (Grid.getSpan l axis) (JS.max JS.one (lineDifference l axis))).
  { intros Hs He Hd. unfold Grid.getSpan.
    replace (match axis with col => colStart l | row => rowStart l end)
      with (startOf l axis) by (destruct axis; reflexivity).
    replace (match axis with col => colEnd l | row => rowEnd l end)
      with (endOf l axis) by (destruct axis; reflexivity).
    rewrite Hs, He. simpl negb. cbv iota. simpl andb. cbv iota.
    apply clamp_below_one_is_max. exact Hd. }
  split; [| split; [| split]].
  - intros Hs He Ns Ne. apply Hnum; auto. apply numeric_difference; assumption.
  - exact Hnum.
  - intros Hs He Hd. unfold Grid.getSpan.
    replace (match axis with col => colStart l | row => rowStart l end)
      with (startOf l axis) by (destruct axis; reflexivity).
    replace (match axis with col => colEnd l | row => rowEnd l end)
      with (endOf l axis) by (destruct axis; reflexivity).
    rewrite Hs, He. simpl negb. simpl andb. cbv iota.
    unfold lineDifference in Hd. rewrite Hd. reflexivity.
  - intros Hauto. unfold Grid.getSpan.
    replace (match axis with col => colStart l | row => rowStart l end)
      with (startOf l axis) by (destruct axis; reflexivity).
    replace (match axis with col => colEnd l | row => rowEnd l end)
      with (endOf l axis) by (destruct axis; reflexivity).
    destruct Hauto as [H | H]; rewrite H; simpl.
    + destruct axis; reflexivity.
    + rewrite andb_false_r. destruct axis; reflexivity.
Qed.

Lemma getSpan_spec_witness :
  JS.same (Grid.getSpan sampleLayout col) (JS.Fin 3)
  /\ Grid.getSpan sampleLayout row = JS.one
  /\ Grid.getSpan (mkItemLayout "auto" "5" "" "" (JS.Fin 7) (JS.Fin 4) "auto") col
     = JS.Fin 7.
Proof.
  split; [| split].
  - destruct (getSpan_spec sampleLayout col) as (H & _).
    exact (H eq_refl eq_refl (ex_intro _ 2%Q eq_refl) (ex_intro _ 5%Q eq_refl)).
  - destruct (getSpan_spec sampleLayout row) as (_ & _ & H & _).
    exact (H eq_refl eq_refl eq_refl).
  - destruct (getSpan_spec (mkItemLayout "auto" "5" "" "" (JS.Fin 7) (JS.Fin 4) "auto") col)
      as (_ & _ & _ & H).
    exact (H (or_introl eq_refl)).
Defined.

(** C1 as stated fails: the two column lines below are neither auto
    nor numeric, so the claim promises the explicit span 3; the code
    returns 1. *)
Lemma getSpan_otherwise_counterexample :
  let l := mkItemLayout "a" "b" "auto" "auto" (JS.Fin 3) JS.one "auto" in
  ~ (numeric (colStart l) /\ numeric (colEnd l))
  /\ Grid.getSpan l col = JS.one
  /\ ~ JS.same (Grid.getSpan l col) (colSpan l).
Proof.
  simpl. split; [| split].
  - intros [[q Hq] _]. vm_compute in Hq. discriminate.
  - reflexivity.
  - vm_compute. intros H. discriminate.
Qed.

(** ** C4: the history laws *)

(** C4.  From a present [A]: after [set(B)] with [B] not identical to
    [A], [undo] makes [A] the present again and [B] the head of
    [future], and [redo] then makes [B] the present; [set(X)] with [X]
    not identical to the present leaves [future] empty; [set(X)] with
    [X] identical to the present returns the state as it is. *)
Theorem history_laws {T : Type} (sameRef : T -> T -> bool)
    (s : History.HistoryState T) (B X : T) :
  let A := History.present s in
  let step := History.historyReducer sameRef in
  (sameRef B A = false ->
   let undone := step (step s (History.SET B)) History.UNDO in
   History.present undone = A
   /\ History.future undone = [B]
   /\ History.past undone = History.past s
   /\ History.present (step undone History.REDO) = B
   /\ step undone History.REDO = step s (History.SET B))
  /\ (sameRef X A = false -> History.future (step s (History.SET X)) = [])
  /\ (sameRef X A = true -> step s (History.SET X) = s).
Proof.
  destruct s as [past present future]. simpl.
  split; [| split].
  - intros HB. rewrite HB. simpl.
    destruct (past ++ [present]) eqn:Hp.
    + exfalso. destruct past; discriminate.
    + rewrite <- Hp. rewrite last_last, removelast_last. simpl. auto.
  - intros HX. rewrite HX. reflexivity.
  - intros HX. rewrite HX. reflexivity.
Qed.

Lemma history_laws_witness :
  let step := History.historyReducer Nat.eqb in
  History.present (step (step sampleHistory (History.SET 2%nat)) History.UNDO) = 1%nat
  /\ History.future (step sampleHistory (History.SET 3%nat)) = []
  /\ step sampleHistory (History.SET 1%nat) = sampleHistory.
Proof.
  split; [| split].
  - destruct (history_laws Nat.eqb sampleHistory 2%nat 3%nat) as (H & _).
    exact (proj1 (H eq_refl)).
  - destruct (history_laws Nat.eqb sampleHistory 2%nat 3%nat) as (_ & H & _).
    exact (H eq_refl).
  - destruct (history_laws Nat.eqb sampleHistory 2%nat 1%nat) as (_ & _ & H).
    exact (H eq_refl).
Defined.

(** ** C5: tracks and counts stay in step *)

Lemma getBp_setBp_same {A} (m : PerBreakpoint A) (bp : Breakpoint) (v : A) :
  getBp (setBp m bp v) bp = v.
Proof. destruct bp; reflexivity. Qed.

Lemma getBp_setBp_other {A} (m : PerBreakpoint A) (bp bp' : Breakpoint) (v : A) :
  bp <> bp' -> getBp (setBp m bp v) bp' = getBp m bp'.
Proof. destruct bp, bp'; intros H; try reflexivity; contradiction H; reflexivity. Qed.

Lemma length_addedTracks (freshId : nat -> string) (n : Z) :
  List.length (GridState.addedTracks freshId n) = Z.to_nat n.
Proof. unfold GridState.addedTracks. rewrite length_map, length_seq. reflexivity. Qed.

Lemma addedTracks_default (freshId : nat -> string) (n : Z) :
  Forall (fun t => unit t = u_fr /\ value t = JS.one)
         (GridState.addedTracks freshId n).
Proof.
  unfold GridState.addedTracks. apply Forall_forall. intros t Ht.
  apply in_map_iff in Ht. destruct Ht as (k & <- & _). split; reflexivity.
Qed.

Lemma resized_length (freshId : nat -> string) (tracks : list Track) (n : Z) :
  (0 <= n)%Z -> Z.of_nat (List.length (resized freshId tracks n)) = n.
Proof.
  intros Hn. unfold resized, GridState.resizeTracks.
  destruct (n >? Z.of_nat (List.length tracks))%Z eqn:Hgt.
  - rewrite length_app, length_addedTracks. lia.
  - destruct (n <? Z.of_nat (List.length tracks))%Z eqn:Hlt.
    + unfold GridState.sliceTo.
      destruct (n <? 0)%Z eqn:Hneg; [lia |].
      rewrite length_firstn. lia.
    + lia.
Qed.

Lemma resized_grow (freshId : nat -> string) (tracks : list Track) (n : Z) :
  (Z.of_nat (List.length tracks) < n)%Z ->
  resized freshId tracks n
  = tracks ++ GridState.addedTracks freshId (n - Z.of_nat (List.length tracks)).
Proof.
  intros H. unfold resized, GridState.resizeTracks.
  destruct (n >? Z.of_nat (List.length tracks))%Z eqn:Hgt; [reflexivity | lia].
Qed.

Lemma resized_shrink (freshId : nat -> string) (tracks : list Track) (n : Z) :
  (0 <= n < Z.of_nat (List.length tracks))%Z ->
  resized freshId tracks n = firstn (Z.to_nat n) tracks.
Proof.
  intros H. unfold resized, GridState.resizeTracks.
  destruct (n >? Z.of_nat (List.length tracks))%Z eqn:Hgt; [lia |].
  destruct (n <? Z.of_nat (List.length tracks))%Z eqn:Hlt; [| lia].
  unfold GridState.sliceTo. destruct (n <? 0)%Z eqn:Hneg; [lia | reflexivity].
Qed.

(** What growing a list of four tracks to six, and shrinking it to
    two, gives. *)
Lemma resized_four (freshId : nat -> string) (tracks : list Track) :
  List.length tracks = 4%nat ->
  List.length (resized freshId tracks 6) = 6%nat
  /\ firstn 4 (resized freshId tracks 6) = tracks
  /\ Forall (fun t => unit t = u_fr /\ value t = JS.one)
            (skipn 4 (resized freshId tracks 6))
  /\ List.length (skipn 4 (resized freshId tracks 6)) = 2%nat
  /\ resized freshId tracks 2 = firstn 2 tracks.
Proof.
  intros H4.
  assert (Hg : resized freshId tracks 6 = tracks ++ GridState.addedTracks freshId 2).
  { rewrite resized_grow by lia. rewrite H4. reflexivity. }
  rewrite Hg. repeat split.
  - rewrite length_app, length_addedTracks, H4. reflexivity.
  - rewrite <- H4 at 1. rewrite firstn_app, firstn_all, Nat.sub_diag. simpl.
    apply app_nil_r.
  - rewrite <- H4 at 1. rewrite skipn_app, skipn_all, Nat.sub_diag. simpl.
    apply addedTracks_default.
  - rewrite <- H4 at 1. rewrite skipn_app, skipn_all, Nat.sub_diag. reflexivity.
  - rewrite resized_shrink by lia. reflexivity.
Qed.

(** C5.  On the setting of the active breakpoint: with four column
    tracks, [cols = 6] gives six tracks, the four original ones
    followed by two with unit [fr] and value 1, and [cols = 2] gives
    the first two original tracks; a new list of tracks resets the
    count to its length; the same for rows; and after each of these
    updates the count of the updated axis is the length of its list
    of tracks. *)
Theorem track_count_sync (freshId : nat -> string) (bp : Breakpoint)
    (m : GridSettingsMap) (v : list Track) (n : Z) :
  let s := getBp m bp in
  let after u := getBp (GridState.updateSettings bp freshId u m) bp in
  (List.length (colTracks s) = 4%nat ->
   List.length (colTracks (after (set_cols 6))) = 6%nat
   /\ firstn 4 (colTracks (after (set_cols 6))) = colTracks s
   /\ Forall (fun t => unit t = u_fr /\ value t = JS.one)
             (skipn 4 (colTracks (after (set_cols 6))))
   /\ List.length (skipn 4 (colTracks (after (set_cols 6)))) = 2%nat
   /\ cols (after (set_cols 6)) = 6%Z
   /\ colTracks (after (set_cols 2)) = firstn 2 (colTracks s)
   /\ cols (after (set_cols 2)) = 2%Z)
  /\ (List.length (rowTracks s) = 4%nat ->
      List.length (rowTracks (after (set_rows 6))) = 6%nat
      /\ firstn 4 (rowTracks (after (set_rows 6))) = rowTracks s
      /\ Forall (fun t => unit t = u_fr /\ value t = JS.one)
                (skipn 4 (rowTracks (after (set_rows 6))))
      /\ List.length (skipn 4 (rowTracks (after (set_rows 6)))) = 2%nat
      /\ rows (after (set_rows 6)) = 6%Z
      /\ rowTracks (after (set_rows 2)) = firstn 2 (rowTracks s)
      /\ rows (after (set_rows 2)) = 2%Z)
  /\ (colTracks (after (set_colTracks v)) = v
      /\ cols (after (set_colTracks v)) = Z.of_nat (List.length v))
  /\ (rowTracks (after (set_rowTracks v)) = v
      /\ rows (after (set_rowTracks v)) = Z.of_nat (List.length v))
  /\ ((0 <= n)%Z ->
      cols (after (set_cols n)) = Z.of_nat (List.length (colTracks (after (set_cols n))))
      /\ rows (after (set_rows n)) = Z.of_nat (List.length (rowTracks (after (set_rows n)))))
  /\ (cols s = Z.of_nat (List.length (colTracks s)) ->
      rows s = Z.of_nat (List.length (rowTracks s)) ->
      (0 <= n)%Z ->
      forall u, u = set_cols n \/ u = set_rows n \/ u = set_colTracks v
                \/ u = set_rowTracks v \/ u = set_gap n ->
      cols (after u) = Z.of_nat (List.length (colTracks (after u)))
      /\ rows (after u) = Z.of_nat (List.length (rowTracks (after u)))).
Proof.
  intros s after. subst after. cbv beta.
  unfold GridState.updateSettings. fold s.
  repeat rewrite getBp_setBp_same. simpl.
  fold (resized freshId (colTracks s) 6). fold (resized freshId (colTracks s) 2).
  fold (resized freshId (rowTracks s) 6). fold (resized freshId (rowTracks s) 2).
  fold (resized freshId (colTracks s) n). fold (resized freshId (rowTracks s) n).
  split; [| split; [| split; [| split; [| split]]]].
  - intros H4. destruct (resized_four freshId (colTracks s) H4) as (A & B & C & D & E).
    repeat split; assumption.
  - intros H4. destruct (resized_four freshId (rowTracks s) H4) as (A & B & C & D & E).
    repeat split; assumption.
  - split; reflexivity.
  - split; reflexivity.
  - intros Hn. split; symmetry; apply resized_length; assumption.
  - intros Hc Hr Hn u Hu.
    destruct Hu as [-> | [-> | [-> | [-> | ->]]]]; rewrite getBp_setBp_same; simpl;
      fold (resized freshId (colTracks s) n); fold (resized freshId (rowTracks s) n);
      try rewrite resized_length by assumption; auto.
Qed.

Lemma track_count_sync_witness :
  let after u := getBp (GridState.updateSettings sm sampleFreshId u sampleSettings) sm in
  List.length (colTracks (after (set_cols 6))) = 6%nat
  /\ List.length (rowTracks (after (set_rows 6))) = 6%nat
  /\ cols (after (set_cols 3)) = Z.of_nat (List.length (colTracks (after (set_cols 3))))
  /\ rows (after (set_gap 3)) = Z.of_nat (List.length (rowTracks (after (set_gap 3)))).
Proof.
  pose proof (track_count_sync sampleFreshId sm sampleSettings [] 3) as H.
  cbv zeta in H. destruct H as (Hc & Hr & _ & _ & Hn & Hall).
  split; [| split; [| split]].
  - exact (proj1 (Hc eq_refl)).
  - exact (proj1 (Hr eq_refl)).
  - refine (proj1 (Hn _)). discriminate.
  - refine (proj2 (Hall eq_refl eq_refl _ (set_gap 3) _)).
    + discriminate.
    + right. right. right. right. reflexivity.
Defined.

(** ** C7: [sanitizeLayoutMap] is total and fills in the defaults *)

Lemma createLayoutMap_default (bp : Breakpoint) :
  getBp Grid.createLayoutMap bp
  = mkItemLayout "auto" "auto" "auto" "auto" JS.one JS.one "auto".
Proof. destruct bp; reflexivity. Qed.

Lemma sanitizeLayoutMap_entry (p : PartialLayoutMap) (bp : Breakpoint) :
  getBp (Grid.sanitizeLayoutMap (Some p)) bp
  = match getBp p bp with
    | Some part => Grid.spreadLayout Grid.createEmptyLayout part
    | None => Grid.createEmptyLayout
    end.
Proof.
  destruct p as [[a|] [b|] [c|] [d|] [e|] [f|]]; destruct bp; reflexivity.
Qed.

(** C7.  Without an argument the result has, at each of the six
    breakpoints, the positions and the order ["auto"] and the spans 1;
    with a partial argument each field of each breakpoint is the value
    the argument gives for it, and the default where it gives none; so
    for [{ xs: { colSpan: 3 } }] the column span at [xs] is 3 and all
    the rest is default. *)
Theorem sanitizeLayoutMap_total (p : PartialLayoutMap) (bp : Breakpoint) :
  getBp (Grid.sanitizeLayoutMap None) bp
  = mkItemLayout "auto" "auto" "auto" "auto" JS.one JS.one "auto"
  /\ (let r := getBp (Grid.sanitizeLayoutMap (Some p)) bp in
      let part := getBp p bp in
      colStart r = givenOr part p_colStart "auto"
      /\ colEnd r = givenOr part p_colEnd "auto"
      /\ rowStart r = givenOr part p_rowStart "auto"
      /\ rowEnd r = givenOr part p_rowEnd "auto"
      /\ colSpan r = givenOr part p_colSpan JS.one
      /\ rowSpan r = givenOr part p_rowSpan JS.one
      /\ order r = givenOr part p_order "auto")
  /\ (let r := getBp (Grid.sanitizeLayoutMap (Some onlyXsColSpan3)) bp in
      colSpan (getBp (Grid.sanitizeLayoutMap (Some onlyXsColSpan3)) xs) = JS.Fin 3
      /\ r = if Breakpoint_eqb bp xs
             then mkItemLayout "auto" "auto" "auto" "auto" (JS.Fin 3) JS.one "auto"
             else mkItemLayout "auto" "auto" "auto" "auto" JS.one JS.one "auto").
Proof.
  split; [| split].
  - apply createLayoutMap_default.
  - cbv zeta. rewrite sanitizeLayoutMap_entry.
    destruct (getBp p bp) as [part |]; simpl.
    + destruct part as [[?|] [?|] [?|] [?|] [?|] [?|] [?|]]; simpl; repeat split.
    + repeat split.
  - cbv zeta. split; [reflexivity |]. destruct bp; reflexivity.
Qed.

(** ** C3: a configuration that was exported cannot be imported *)

(** The object the export writes has the keys [items] and [settings]. *)
Lemma export_keys (state : GridState.Snapshot) :
  Json.prop (App.handleExport state) "items"
  = Some (Json.JArray (map Json.ofItem (GridState.items state)))
  /\ Json.prop (App.handleExport state) "settings"
     = Some (Json.ofSettingsMap (GridState.gridSettings state))
  /\ Json.prop (App.handleExport state) "gridSettings" = None.
Proof. repeat split. Qed.

(** The import rejects every value without the property
    [gridSettings]. *)
Lemma import_requires_gridSettings (bp : Breakpoint) (now : Z) (preset : Json.JSON) :
  Json.prop preset "gridSettings" = None ->
  GridState.importPreset bp now preset = Json.Thrown.
Proof.
  intros Hmissing. unfold GridState.importPreset.
  rewrite Hmissing. simpl Json.truthy. rewrite orb_true_r.
  destruct preset; reflexivity.
Qed.

(** C3 (the code does not do what the claim says).  The export writes
    the settings under the key [settings]; the import reads the key
    [gridSettings], finds nothing, and ends in its [catch] branch: for
    every state, importing what was exported reports an error and
    yields no state. *)
Theorem import_of_export_is_rejected (bp : Breakpoint) (now : Z)
    (state : GridState.Snapshot) :
  GridState.importPreset bp now (App.handleExport state) = Json.Thrown.
Proof.
  apply import_requires_gridSettings.
  destruct (export_keys state) as (_ & _ & Hmissing). exact Hmissing.
Qed.

(** Under the key the import reads, the same data are accepted, and
    the items come back without their sub-grids. *)
Lemma import_under_gridSettings_key :
  let container :=
    mkGridItem 7 "bg-red-500" Grid.createLayoutMap (Some sampleSettings)
               (Some [mkGridItem 8 "bg-blue-500" Grid.createLayoutMap None None]) in
  exists leaf,
    GridState.importPreset xs 0
      (Json.JObject [ ("items", Json.JArray [Json.ofItem container]);
                      ("gridSettings", Json.ofSettingsMap sampleSettings) ])
    = Json.Ok (GridState.mkSnapshot [leaf] sampleSettings)
    /\ id leaf = 7 /\ color leaf = "bg-red-500"
    /\ subGrid leaf = None /\ children leaf = None.
Proof.
  eexists. split; [vm_compute; reflexivity | repeat split].
Qed.

(** ** C10: the code of an empty root grid *)

Lemma append_assoc (a b c : string) : ((a ++ b) ++ c = a ++ (b ++ c))%string.
Proof. induction a as [| ch a IH]; simpl; [reflexivity | rewrite IH; reflexivity]. Qed.

Lemma append_empty_r (a : string) : (a ++ "" = a)%string.
Proof. induction a as [| ch a IH]; simpl; [reflexivity | rewrite IH; reflexivity]. Qed.

Lemma cat_prefix (before code : string) (rest : list string) :
  JS.cat ((before ++ code)%string :: rest) = (before ++ JS.cat (code :: rest))%string.
Proof.
  unfold JS.cat. destruct rest as [| x rest]; simpl; [reflexivity |].
  apply append_assoc.
Qed.

(** The text accumulated so far is a prefix of the text after one
    more breakpoint, and does not influence what is appended. *)
Lemma headerStep_prefix (numberToString : JS.number -> string)
    (settings : GridSettingsMap) (bp : Breakpoint)
    (before code : string) (pc : option string) (pg : option Z) (pr : option string) :
  let st := Grid.headerStep numberToString settings
              (Grid.mkHeaderState code pc pg pr) bp in
  Grid.headerStep numberToString settings
    (Grid.mkHeaderState (before ++ code) pc pg pr) bp
  = Grid.mkHeaderState (before ++ Grid.h_code st) (Grid.previousCols st)
                       (Grid.previousGap st) (Grid.previousRows st).
Proof.
  unfold Grid.headerStep. cbv zeta. simpl Grid.previousCols. simpl Grid.h_code.
  destruct (Grid.changedString pc _); simpl;
    destruct (Grid.changedZ pg _); simpl;
    destruct (Grid.changedString pr _); simpl;
    rewrite ?cat_prefix; reflexivity.
Qed.

Lemma header_fold_prefix (numberToString : JS.number -> string)
    (settings : GridSettingsMap) (bps : list Breakpoint) :
  forall (before code : string) (pc : option string) (pg : option Z)
         (pr : option string),
  Grid.h_code
    (fold_left (Grid.headerStep numberToString settings) bps
               (Grid.mkHeaderState (before ++ code) pc pg pr))
  = (before
     ++ Grid.h_code
          (fold_left (Grid.headerStep numberToString settings) bps
                     (Grid.mkHeaderState code pc pg pr)))%string.
Proof.
  induction bps as [| bp bps IH]; intros before code pc pg pr.
  - reflexivity.
  - simpl fold_left. rewrite headerStep_prefix. cbv zeta.
    destruct (Grid.headerStep numberToString settings
                (Grid.mkHeaderState code pc pg pr) bp) as [c' pc' pg' pr'].
    simpl. apply IH.
Qed.

(** C10.  For an empty list of root items the generated code is the
    container alone: its opening tag, whose class list starts with
    [grid] and goes on with the classes of the settings, a line feed,
    and its closing tag, with no markup of any item; the first version
    of the generator returns the container without any class of the
    settings. *)
Theorem empty_root_is_bare_container (numberToString : JS.number -> string)
    (settings : GridSettingsMap) (useClassName : bool) :
  let attr := if useClassName then "className" else "class" in
  Grid.generateTailwindCode numberToString [] settings useClassName
  = JS.cat [ "<div "; attr; "="; JS.dq; "grid";
             containerClasses numberToString settings;
             JS.dq; ">"; JS.nl; "</div>" ]
  /\ LegacyGrid.generateTailwindCode numberToString [] settings
     = JS.cat [ "<div class="; JS.dq; "grid"; JS.dq; "></div>" ].
Proof.
  split; [| reflexivity].
  unfold Grid.generateTailwindCode, Grid.generateGridContainer, Grid.containerOpen,
    containerClasses.
  cbn [Grid.itemsCode JS.repeatString].
  set (attr := if useClassName then "className" else "class").
  replace (JS.cat [""; "<div "; attr; "="; JS.dq; "grid"])
    with ((JS.cat ["<div "; attr; "="; JS.dq; "grid"]) ++ "")%string
    by (rewrite append_empty_r; reflexivity).
  rewrite header_fold_prefix.
  generalize (Grid.h_code
                (fold_left (Grid.headerStep numberToString settings) BREAKPOINT_ORDER
                           (Grid.mkHeaderState "" None None None))).
  intros classes. unfold JS.cat.
  destruct useClassName; subst attr; cbn; rewrite ?append_assoc; reflexivity.
Qed.

(** ** Trees: what a missing id means for a sibling list *)

Lemma firstSome_none {B} (f : GridItem -> option B) (lst : list GridItem) :
  Tree.firstSome f lst = None <-> Forall (fun item => f item = None) lst.
Proof.
  induction lst as [| item r IH]; simpl.
  - split; auto.
  - destruct (f item) eqn:Hf.
    + split; [discriminate |]. intros H. inversion H; subst. congruence.
    + rewrite IH. split; intros H.
      * constructor; assumption.
      * inversion H; assumption.
Qed.

Lemma findInItem_none (itemId : Q) (item : GridItem) :
  Tree.findInItem itemId item = None ->
  idEqb (id item) itemId = false
  /\ forall kids, children item = Some kids ->
                  Tree.findItemRecursive kids itemId = None.
Proof.
  destruct item as [i c l sg ch]. simpl.
  destruct (idEqb i itemId); [discriminate |].
  intros H. split; [reflexivity |].
  intros kids Hk. subst ch. exact H.
Qed.

Lemma missing_hasId (itemId : Q) (lst : list GridItem) :
  Tree.findItemRecursive lst itemId = None -> GridState.hasId itemId lst = false.
Proof.
  unfold Tree.findItemRecursive. rewrite firstSome_none.
  induction 1 as [| item r Hitem _ IH]; simpl; [reflexivity |].
  apply findInItem_none in Hitem. destruct Hitem as [-> _]. exact IH.
Qed.

Lemma missing_findFirst {B} (itemId : Q) (f : GridItem -> B) (lst : list GridItem) :
  Tree.findItemRecursive lst itemId = None ->
  GridState.findFirst (fun i => idEqb (id i) itemId) f lst = None.
Proof.
  unfold Tree.findItemRecursive. rewrite firstSome_none.
  induction 1 as [| item r Hitem _ IH]; simpl; [reflexivity |].
  apply findInItem_none in Hitem. destruct Hitem as [-> _]. exact IH.
Qed.

Lemma withChildren_same (item : GridItem) : withChildren item (children item) = item.
Proof. destruct item; reflexivity. Qed.

(** A sibling list whose members keep their children is rebuilt as it
    was. *)
Lemma rebuild_same (rec : GridItem -> option (list GridItem)) (lst : list GridItem) :
  Forall (fun item => rec item = children item) lst ->
  map (fun item =>
         match rec item with
         | Some kids => withChildren item (Some kids)
         | None => item
         end) lst = lst.
Proof.
  induction 1 as [| item r Hitem _ IH]; simpl; [reflexivity |].
  rewrite IH. f_equal. rewrite Hitem.
  destruct item as [i c l sg [kids |]]; reflexivity.
Qed.

Lemma removeLevel_same (itemId : Q) (rec : GridItem -> option (list GridItem))
    (lst : list GridItem) :
  Tree.findItemRecursive lst itemId = None ->
  Forall (fun item => rec item = children item) lst ->
  GridState.removeLevel itemId rec lst = lst.
Proof.
  unfold Tree.findItemRecursive. rewrite firstSome_none. intros Hmiss Hrec.
  induction lst as [| item r IH]; simpl; [reflexivity |].
  inversion Hmiss; subst. inversion Hrec; subst.
  match goal with H : Tree.findInItem _ _ = None |- _ =>
    apply findInItem_none in H; destruct H as [Hid _] end.
  unfold GridState.removeLevel in *. simpl. rewrite Hid. simpl.
  rewrite IH by assumption. f_equal.
  match goal with H : rec item = _ |- _ => rewrite H end.
  apply withChildren_same.
Qed.

(** In a tree without the id, the recursive call on the children of
    an item returns them as they are. *)
Section MissingId.

Variables (itemId : Q) (rec : GridItem -> option (list GridItem)).
Variable level : (GridItem -> option (list GridItem)) -> list GridItem -> list GridItem.

Hypothesis rec_unfold :
  forall i c l sg kids,
    rec (mkGridItem i c l sg (Some kids)) = Some (level rec kids).
Hypothesis rec_leaf : forall i c l sg, rec (mkGridItem i c l sg None) = None.
Hypothesis level_same :
  forall lst,
    Tree.findItemRecursive lst itemId = None ->
    Forall (fun item => rec item = children item) lst ->
    level rec lst = lst.

Lemma missing_children_same (item : GridItem) :
  Tree.findInItem itemId item = None -> rec item = children item.
Proof.
  induction item as [i c l sg | i c l sg kids IH] using Tree.GridItem_tree_ind;
    intros Hmiss.
  - apply rec_leaf.
  - rewrite rec_unfold. simpl. f_equal.
    apply findInItem_none in Hmiss. destruct Hmiss as [_ Hkids].
    specialize (Hkids kids eq_refl).
    apply level_same; [exact Hkids |].
    unfold Tree.findItemRecursive in Hkids. rewrite firstSome_none in Hkids.
    rewrite Forall_forall in *. intros k Hk. apply IH; auto.
Qed.

Lemma missing_level_same (lst : list GridItem) :
  Tree.findItemRecursive lst itemId = None -> level rec lst = lst.
Proof.
  intros Hmiss. apply level_same; [exact Hmiss |].
  unfold Tree.findItemRecursive in Hmiss. rewrite firstSome_none in Hmiss.
  rewrite Forall_forall in *. intros k Hk. apply missing_children_same. auto.
Qed.

End MissingId.

(** ** C8: an id that is not in the tree *)

(** C8.  When no item of the tree carries the id, removing the item,
    mutating its layout (with any callback, and so updating any of its
    layout fields with any value), and duplicating it all return the
    tree they were given. *)
Theorem missing_id_is_noop (tree : list GridItem) (itemId newId : Q)
    (bp : Breakpoint) (cb : ItemLayout -> ItemLayout)
    (field : LayoutField) (value : string) :
  Tree.findItemRecursive tree itemId = None ->
  GridState.removeItem itemId tree = tree
  /\ GridState.mutateLayout itemId bp cb tree = tree
  /\ GridState.updateItemLayout bp itemId field value tree = tree
  /\ GridState.duplicateItem bp newId itemId tree = tree.
Proof.
  intros Hmiss.
  assert (Hmut : forall f, GridState.mutateLayout itemId bp f tree = tree).
  { intros f. unfold GridState.mutateLayout, GridState.updateAndReflow.
    apply (missing_level_same itemId
             (GridState.updateAndReflowChildren itemId bp f)
             (GridState.updateAndReflowLevel itemId bp f)); auto.
    intros lst Hl Hrec. unfold GridState.updateAndReflowLevel.
    rewrite (missing_hasId _ _ Hl). apply rebuild_same. exact Hrec. }
  split; [| split; [| split]].
  - unfold GridState.removeItem, GridState.removeRecursive.
    apply (missing_level_same itemId (GridState.removeChildren itemId)
             (GridState.removeLevel itemId)); auto.
    intros lst Hl Hrec. apply removeLevel_same; assumption.
  - apply Hmut.
  - unfold GridState.updateItemLayout. apply Hmut.
  - unfold GridState.duplicateItem, GridState.duplicateRecursive.
    apply (missing_level_same itemId
             (GridState.duplicateChildren bp newId itemId)
             (GridState.duplicateLevel bp newId itemId)); auto.
    intros lst Hl Hrec. unfold GridState.duplicateLevel.
    rewrite (missing_findFirst _ _ _ Hl). apply rebuild_same. exact Hrec.
Qed.

Lemma missing_id_is_noop_witness :
  GridState.removeItem 9 sampleTree = sampleTree
  /\ GridState.updateItemLayout md 9 f_colSpan "3" sampleTree = sampleTree
  /\ GridState.duplicateItem md 10 9 sampleTree = sampleTree.
Proof.
  pose proof (missing_id_is_noop sampleTree 9 10 md (fun l => l) f_colSpan "3" eq_refl)
    as (H1 & _ & H3 & H4).
  exact (conj H1 (conj H3 H4)).
Defined.

(** ** C9: leaves and containers *)

Lemma wellShaped_withLayout (item : GridItem) (l : LayoutMap) :
  Tree.wellShaped (withLayout item l) = Tree.wellShaped item.
Proof. destruct item; reflexivity. Qed.

Lemma wellShapedTree_map (g : GridItem -> GridItem) (lst : list GridItem) :
  (forall item, Tree.wellShaped (g item) = Tree.wellShaped item) ->
  Tree.wellShapedTree (map g lst) = Tree.wellShapedTree lst.
Proof.
  intros Hg. unfold Tree.wellShapedTree.
  induction lst as [| item r IH]; simpl; [reflexivity |].
  rewrite Hg, IH. reflexivity.
Qed.

Lemma wellShapedTree_reflow (lst : list GridItem) (bp : Breakpoint) :
  Tree.wellShapedTree (GridState.reflowOrders lst bp) = Tree.wellShapedTree lst.
Proof.
  unfold GridState.reflowOrders. apply wellShapedTree_map.
  intros item. apply wellShaped_withLayout.
Qed.

Lemma wellShapedTree_app (a b : list GridItem) :
  Tree.wellShapedTree (a ++ b) = Tree.wellShapedTree a && Tree.wellShapedTree b.
Proof. unfold Tree.wellShapedTree. apply forallb_app. Qed.

Lemma wellShapedTree_Forall (lst : list GridItem) :
  Tree.wellShapedTree lst = true <-> Forall (fun item => Tree.wellShaped item = true) lst.
Proof. unfold Tree.wellShapedTree. rewrite forallb_forall, Forall_forall. reflexivity. Qed.

Lemma rebuild_shape (rec : GridItem -> option (list GridItem)) (lst : list GridItem) :
  Forall (keepsShape rec) lst ->
  Tree.wellShapedTree lst = true ->
  Tree.wellShapedTree
    (map (fun item =>
            match rec item with
            | Some kids => withChildren item (Some kids)
            | None => item
            end) lst) = true.
Proof.
  intros Hrec Hshape. apply wellShapedTree_Forall in Hshape.
  apply wellShapedTree_Forall. apply Forall_forall. intros x Hx.
  apply in_map_iff in Hx. destruct Hx as (item & <- & Hin).
  rewrite Forall_forall in Hrec, Hshape.
  specialize (Hrec item Hin (Hshape item Hin)).
  destruct (rec item); [exact Hrec | apply Hshape; exact Hin].
Qed.

Lemma removeLevel_shape (itemId : Q) (rec : GridItem -> option (list GridItem))
    (lst : list GridItem) :
  Forall (keepsShape rec) lst ->
  Tree.wellShapedTree lst = true ->
  Tree.wellShapedTree (GridState.removeLevel itemId rec lst) = true.
Proof.
  unfold GridState.removeLevel, Tree.wellShapedTree.
  induction 1 as [| item r Hitem _ IH]; [reflexivity |].
  intros Hshape. cbn [forallb] in Hshape.
  apply andb_true_iff in Hshape. destruct Hshape as [Hi Hr].
  cbn [GridState.filterMap].
  destruct (negb (idEqb (id item) itemId)); cbn [forallb].
  - rewrite (Hitem Hi). apply IH. exact Hr.
  - apply IH. exact Hr.
Qed.

Lemma updateAndReflowLevel_shape (itemId : Q) (bp : Breakpoint)
    (cb : ItemLayout -> ItemLayout) (rec : GridItem -> option (list GridItem))
    (lst : list GridItem) :
  Forall (keepsShape rec) lst ->
  Tree.wellShapedTree lst = true ->
  Tree.wellShapedTree (GridState.updateAndReflowLevel itemId bp cb rec lst) = true.
Proof.
  intros Hrec Hshape. unfold GridState.updateAndReflowLevel.
  destruct (GridState.hasId itemId lst).
  - rewrite wellShapedTree_reflow. rewrite wellShapedTree_map; [exact Hshape |].
    intros item. destruct (negb (idEqb (id item) itemId)); [reflexivity |].
    apply wellShaped_withLayout.
  - apply rebuild_shape; assumption.
Qed.

Lemma findFirst_some {B} (p : GridItem -> bool) (f : GridItem -> B)
    (lst : list GridItem) (b : B) :
  GridState.findFirst p f lst = Some b -> exists item, In item lst /\ b = f item.
Proof.
  induction lst as [| item r IH]; simpl; [discriminate |].
  destruct (p item).
  - intros H. inversion H. exists item. auto.
  - intros H. destruct (IH H) as (x & Hx & Hb). exists x. auto.
Qed.

Lemma duplicateLevel_shape (bp : Breakpoint) (newId itemId : Q)
    (rec : GridItem -> option (list GridItem)) (lst : list GridItem) :
  Forall (keepsShape rec) lst ->
  Tree.wellShapedTree lst = true ->
  Tree.wellShapedTree (GridState.duplicateLevel bp newId itemId rec lst) = true.
Proof.
  intros Hrec Hshape. unfold GridState.duplicateLevel.
  destruct (GridState.findFirst _ _ lst) as [clone |] eqn:Hfind.
  - rewrite wellShapedTree_reflow, wellShapedTree_app, Hshape. simpl.
    apply findFirst_some in Hfind. destruct Hfind as (item & Hin & ->).
    rewrite andb_true_r.
    rewrite Forall_forall in Hrec. apply wellShapedTree_Forall in Hshape.
    rewrite Forall_forall in Hshape.
    specialize (Hrec item Hin (Hshape item Hin)).
    destruct item; exact Hrec.
  - apply rebuild_shape; assumption.
Qed.

(** The recursive call on the children keeps the shape, by induction
    on the tree. *)
Section KeepsShape.

Variable rec : GridItem -> option (list GridItem).
Variable level : (GridItem -> option (list GridItem)) -> list GridItem -> list GridItem.

Hypothesis rec_unfold :
  forall i c l sg kids,
    rec (mkGridItem i c l sg (Some kids)) = Some (level rec kids).
Hypothesis rec_leaf : forall i c l sg, rec (mkGridItem i c l sg None) = None.
Hypothesis level_shape :
  forall lst,
    Forall (keepsShape rec) lst ->
    Tree.wellShapedTree lst = true ->
    Tree.wellShapedTree (level rec lst) = true.

Lemma children_keep_shape (item : GridItem) : keepsShape rec item.
Proof.
  induction item as [i c l sg | i c l sg kids IH] using Tree.GridItem_tree_ind;
    unfold keepsShape.
  - rewrite rec_leaf. auto.
  - rewrite rec_unfold. simpl. destruct sg; [| discriminate].
    intros Hkids. apply level_shape; assumption.
Qed.

Lemma level_keeps_shape (lst : list GridItem) :
  Tree.wellShapedTree lst = true -> Tree.wellShapedTree (level rec lst) = true.
Proof.
  apply level_shape. apply Forall_forall. intros item _. apply children_keep_shape.
Qed.

End KeepsShape.

(** [updateItemRecursive] keeps the shape when the callback does, on
    the items it is applied to. *)
Lemma updateItemIn_shape (itemId : Q) (cb : GridItem -> GridItem)
    (allowed : GridItem -> bool) :
  (forall i c l sg, allowed (mkGridItem i c l sg None) = true ->
                    idEqb i itemId = true ->
                    Tree.wellShaped (cb (mkGridItem i c l sg None)) = true) ->
  (forall i c l sg kids, Tree.wellShapedTree kids = true ->
                         Tree.wellShaped (cb (mkGridItem i c l (Some sg) (Some kids))) = true) ->
  (forall i c l sg kids, allowed (mkGridItem i c l sg (Some kids)) = true ->
                         forallb allowed kids = true) ->
  forall item,
    Tree.wellShaped item = true -> allowed item = true ->
    Tree.wellShaped (GridState.updateItemIn itemId cb item) = true.
Proof.
  intros Hleaf Hcont Hdown.
  induction item as [i c l sg | i c l sg kids IH] using Tree.GridItem_tree_ind;
    intros Hshape Hallowed.
  - simpl. destruct (idEqb i itemId) eqn:Hid.
    + apply Hleaf; assumption.
    + exact Hshape.
  - simpl in Hshape. destruct sg as [sg |]; [| discriminate].
    simpl. destruct (idEqb i itemId) eqn:Hid.
    + apply Hcont. exact Hshape.
    + simpl. specialize (Hdown _ _ _ _ _ Hallowed).
      rewrite forallb_forall in Hshape, Hdown. apply forallb_forall.
      intros x Hx. apply in_map_iff in Hx. destruct Hx as (k & <- & Hk).
      rewrite Forall_forall in IH. apply IH; auto.
Qed.

Lemma updateItemRecursive_shape (itemId : Q) (cb : GridItem -> GridItem)
    (allowed : GridItem -> bool) (lst : list GridItem) :
  (forall i c l sg, allowed (mkGridItem i c l sg None) = true ->
                    idEqb i itemId = true ->
                    Tree.wellShaped (cb (mkGridItem i c l sg None)) = true) ->
  (forall i c l sg kids, Tree.wellShapedTree kids = true ->
                         Tree.wellShaped (cb (mkGridItem i c l (Some sg) (Some kids))) = true) ->
  (forall i c l sg kids, allowed (mkGridItem i c l sg (Some kids)) = true ->
                         forallb allowed kids = true) ->
  Tree.wellShapedTree lst = true -> forallb allowed lst = true ->
  Tree.wellShapedTree (GridState.updateItemRecursive lst itemId cb) = true.
Proof.
  intros Hleaf Hcont Hdown Hshape Hallowed.
  unfold GridState.updateItemRecursive, Tree.wellShapedTree in *.
  rewrite forallb_forall in Hshape, Hallowed. apply forallb_forall.
  intros x Hx. apply in_map_iff in Hx. destruct Hx as (k & <- & Hk).
  apply (updateItemIn_shape itemId cb allowed); auto.
Qed.

Lemma existsb_false_forallb {A} (p : A -> bool) (l : list A) :
  existsb p l = false -> forallb (fun a => negb (p a)) l = true.
Proof.
  induction l as [| a r IH]; simpl; [reflexivity |].
  intros H. apply orb_false_iff in H. destruct H as [-> Hr]. simpl. auto.
Qed.

(** C9 (as amended).  From a tree in which every item is a leaf or a
    container: adding an item at the root, adding an item under a
    parent id that no leaf of the tree carries, removing, duplicating,
    converting to a grid, mutating a layout and updating a layout field
    all give a tree in which every item is a leaf or a container. *)
Theorem mutations_keep_dichotomy (tree : list GridItem) (bp : Breakpoint)
    (now loadTime : Z) (random newId itemId : Q)
    (cb : ItemLayout -> ItemLayout) (field : LayoutField) (value : string) :
  Tree.wellShapedTree tree = true ->
  Tree.wellShapedTree (GridState.addItem bp now random None tree) = true
  /\ (existsb (Tree.hasLeafWithId itemId) tree = false ->
      Tree.wellShapedTree (GridState.addItem bp now random (Some itemId) tree) = true)
  /\ Tree.wellShapedTree (GridState.removeItem itemId tree) = true
  /\ Tree.wellShapedTree (GridState.duplicateItem bp newId itemId tree) = true
  /\ Tree.wellShapedTree (GridState.convertItemToGrid loadTime itemId tree) = true
  /\ Tree.wellShapedTree (GridState.mutateLayout itemId bp cb tree) = true
  /\ Tree.wellShapedTree (GridState.updateItemLayout bp itemId field value tree) = true.
Proof.
  intros Hshape.
  assert (Hroot : forall newItem,
             Tree.wellShaped newItem = true ->
             Tree.wellShapedTree (GridState.reflowOrders (tree ++ [newItem]) bp) = true).
  { intros newItem Hnew.
    rewrite wellShapedTree_reflow, wellShapedTree_app, Hshape. simpl.
    rewrite Hnew. reflexivity. }
  assert (Hmut : forall f,
             Tree.wellShapedTree (GridState.mutateLayout itemId bp f tree) = true).
  { intros f. unfold GridState.mutateLayout, GridState.updateAndReflow.
    apply (level_keeps_shape (GridState.updateAndReflowChildren itemId bp f)
             (GridState.updateAndReflowLevel itemId bp f)); auto.
    intros lst. apply updateAndReflowLevel_shape. }
  split; [| split; [| split; [| split; [| split; [| split]]]]].
  - unfold GridState.addItem. apply Hroot. reflexivity.
  - intros Hleafless. unfold GridState.addItem.
    destruct (GridState.noParent (Some itemId)); [apply Hroot; reflexivity |].
    apply (updateItemRecursive_shape itemId _
             (fun item => negb (Tree.hasLeafWithId itemId item))).
    + intros i c l sg Hallowed Hid. simpl in Hallowed. rewrite Hid in Hallowed.
      discriminate.
    + intros i c l sg kids Hkids. simpl.
      fold (Tree.wellShapedTree
              (GridState.reflowOrders
                 (kids ++ [mkGridItem (inject_Z now) (GridState.randomColor random)
                                      Grid.createLayoutMap None None]) bp)).
      rewrite wellShapedTree_reflow, wellShapedTree_app, Hkids. reflexivity.
    + intros i c l sg kids Hallowed. simpl in Hallowed.
      apply existsb_false_forallb. apply negb_true_iff. exact Hallowed.
    + exact Hshape.
    + apply existsb_false_forallb. exact Hleafless.
  - unfold GridState.removeItem, GridState.removeRecursive.
    apply (level_keeps_shape (GridState.removeChildren itemId)
             (GridState.removeLevel itemId)); auto.
    intros lst. apply removeLevel_shape.
  - unfold GridState.duplicateItem, GridState.duplicateRecursive.
    apply (level_keeps_shape (GridState.duplicateChildren bp newId itemId)
             (GridState.duplicateLevel bp newId itemId)); auto.
    intros lst. apply duplicateLevel_shape.
  - unfold GridState.convertItemToGrid.
    apply (updateItemRecursive_shape itemId _ (fun _ => true)); auto.
    + intros i c l sg kids _. apply forallb_forall. reflexivity.
    + apply forallb_forall. reflexivity.
  - apply Hmut.
  - unfold GridState.updateItemLayout. apply Hmut.
Qed.

Lemma mutations_keep_dichotomy_witness :
  Tree.wellShapedTree (GridState.addItem md 100 (1 # 2) None sampleTree) = true
  /\ Tree.wellShapedTree (GridState.addItem md 100 (1 # 2) (Some 2) sampleTree) = true
  /\ Tree.wellShapedTree (GridState.removeItem 2 sampleTree) = true.
Proof.
  pose proof (mutations_keep_dichotomy sampleTree md 100 0 (1 # 2) 50 2
                (fun l => l) f_colSpan "3" eq_refl) as (H1 & H2 & H3 & _).
  exact (conj H1 (conj (H2 eq_refl) H3)).
Defined.

(** C9 as stated fails: adding an item under the id of a leaf gives
    the leaf children and no sub-grid. *)
Lemma addItem_under_leaf_counterexample :
  let tree := [sampleLeaf 5 "auto" "auto"] in
  Tree.wellShapedTree tree = true
  /\ Tree.wellShapedTree (GridState.addItem xs 100 0 (Some 5) tree) = false
  /\ exists kids parent,
       GridState.addItem xs 100 0 (Some 5) tree = [parent]
       /\ subGrid parent = None /\ children parent = Some kids.
Proof.
  split; [reflexivity | split; [reflexivity |]].
  eexists. eexists. split; [vm_compute; reflexivity | split; reflexivity].
Qed.

(** ** Binary64: the values that rounding leaves as they are *)

Lemma pow2_pos (e : Z) : (0 < 2 ^ e)%Q.
Proof. apply Qpower_0_lt. reflexivity. Qed.

Lemma pow2_nonzero (e : Z) : ~ (2 ^ e == 0)%Q.
Proof. apply Qpower_not_0. discriminate. Qed.

Lemma pow2_Z (e : Z) : (0 <= e)%Z -> (2 ^ e == inject_Z (2 ^ e))%Q.
Proof. intros He. rewrite (Zpower_Qpower 2 e He). reflexivity. Qed.

Lemma log2floor_le (a : Q) : (0 < a)%Q -> (2 ^ JS.log2floor a <= a)%Q.
Proof.
  intros Ha. unfold JS.log2floor.
  set (e := (Z.log2 (Qnum a) - Z.log2 (Z.pos (Qden a)))%Z).
  destruct (Qle_bool (2 ^ e) a) eqn:Hle.
  - apply Qle_bool_iff. exact Hle.
  - destruct a as [n d]. cbn [Qnum Qden] in e.
    assert (Hn : (0 < n)%Z) by (unfold Qlt in Ha; simpl in Ha; lia).
    pose proof (Z.log2_spec n Hn) as [Hn1 _].
    pose proof (Z.log2_spec (Z.pos d) eq_refl) as [_ Hd2].
    pose proof (Z.log2_nonneg n) as Hln.
    pose proof (Z.log2_nonneg (Z.pos d)) as Hld.
    subst e.
    replace (Z.log2 n - Z.log2 (Z.pos d) - 1)%Z
      with (Z.log2 n - Z.succ (Z.log2 (Z.pos d)))%Z by lia.
    assert (Htwo : ~ (2 == 0)%Q) by discriminate.
    rewrite (Qpower_minus 2 _ _ Htwo).
    rewrite (pow2_Z (Z.log2 n) Hln), (pow2_Z (Z.succ (Z.log2 (Z.pos d)))) by lia.
    apply Qle_shift_div_r.
    + change 0%Q with (inject_Z 0). rewrite <- Zlt_Qlt. lia.
    + unfold Qle. cbn [Qnum Qden Qmult inject_Z].
      set (A := (2 ^ Z.log2 n)%Z) in *.
      set (B := (2 ^ Z.succ (Z.log2 (Z.pos d)))%Z) in *.
      assert (0 < A)%Z by (subst A; apply Z.pow_pos_nonneg; lia).
      rewrite Pos.mul_1_r. nia.
Qed.

Lemma roundHalfEven_integer (x : Q) (n : Z) :
  (x == inject_Z n)%Q -> JS.roundHalfEven x = n.
Proof.
  intros Hx. unfold JS.roundHalfEven.
  assert (Hf : Qfloor x = n) by (rewrite (Qfloor_comp _ _ Hx); apply Qfloor_Z).
  rewrite Hf.
  assert (Hz : (x - inject_Z n == 0)%Q) by (rewrite Hx; ring).
  assert (Hlt : (x - inject_Z n < 1 # 2)%Q) by (rewrite Hz; reflexivity).
  apply Qlt_alt in Hlt. unfold Qcompare in *. rewrite Hlt. reflexivity.
Qed.

(** A rational [z / 2^K] with a numerator below [2^53] and a
    denominator of at most [2^1074] is a binary64 value: rounding
    returns it. *)
Lemma round64_exact (q : Q) (z K : Z) :
  (q == inject_Z z / 2 ^ K)%Q ->
  (Z.abs z < 2 ^ 53)%Z -> (0 <= K <= 1074)%Z ->
  exists r, JS.round64 q = JS.Fin r /\ (r == q)%Q.
Proof.
  intros Hq Hz HK.
  assert (HpK := pow2_pos K).
  assert (Htwo : ~ (2 == 0)%Q) by discriminate.
  destruct (Z.eq_dec z 0) as [Hz0 | Hz0].
  - subst z. assert (Hq0 : (q == 0)%Q) by (rewrite Hq; unfold Qdiv; ring).
    assert (Hn : Qnum q = 0%Z).
    { unfold Qeq in Hq0. simpl in Hq0. lia. }
    unfold JS.round64. rewrite Hn. exists 0%Q. split; [reflexivity |].
    symmetry. exact Hq0.
  - assert (Hq0 : ~ (q == 0)%Q).
    { intros H0. rewrite Hq in H0.
      assert (H : (inject_Z z == 0)%Q).
      { rewrite <- (Qmult_div_r (inject_Z z) (2 ^ K)) by apply pow2_nonzero.
        rewrite H0. ring. }
      unfold Qeq in H. simpl in H. lia. }
    assert (Hn : Qnum q <> 0%Z).
    { intros E. apply Hq0. unfold Qeq. simpl. rewrite E. reflexivity. }
    assert (Ha : (Qabs q == inject_Z (Z.abs z) / 2 ^ K)%Q).
    { rewrite Hq. unfold Qdiv. rewrite Qabs_Qmult.
      rewrite (Qabs_pos (/ 2 ^ K)) by (apply Qlt_le_weak, Qinv_lt_0_compat, HpK).
      unfold Qabs, inject_Z. reflexivity. }
    assert (Hapos : (0 < Qabs q)%Q).
    { rewrite Ha. apply Qlt_shift_div_l; [exact HpK |].
      rewrite Qmult_0_l. change 0%Q with (inject_Z 0). rewrite <- Zlt_Qlt. lia. }
    assert (Hlt53 : (Qabs q < 2 ^ (53 - K))%Q).
    { rewrite Ha. rewrite (Qpower_minus 2 _ _ Htwo).
      unfold Qdiv. apply Qmult_lt_compat_r; [apply Qinv_lt_0_compat, HpK |].
      rewrite (pow2_Z 53) by lia. rewrite <- Zlt_Qlt. exact Hz. }
    pose proof (log2floor_le (Qabs q) Hapos) as HL.
    assert (HL2 : (JS.log2floor (Qabs q) < 53 - K)%Z).
    { apply (Qpower_lt_compat_l_inv 2); [| reflexivity].
      eapply Qle_lt_trans; [exact HL | exact Hlt53]. }
    set (t := Z.max (JS.log2floor (Qabs q) - 52) (-1074)).
    assert (Ht : (t <= - K)%Z) by (subst t; lia).
    set (N := (Z.abs z * 2 ^ (- K - t))%Z).
    assert (Hx : (Qabs q / 2 ^ t == inject_Z N)%Q).
    { subst N. rewrite inject_Z_mult, <- (pow2_Z (- K - t)) by lia.
      rewrite Ha. rewrite (Qpower_minus 2 _ _ Htwo).
      rewrite Qpower_opp. field.
      split; apply pow2_nonzero. }
    assert (Hv : (Qred (inject_Z N * 2 ^ t) == Qabs q)%Q).
    { rewrite Qred_correct, <- Hx. field. apply pow2_nonzero. }
    assert (Hbig : Qle_bool (2 ^ 1024) (Qred (inject_Z N * 2 ^ t)) = false).
    { destruct (Qle_bool (2 ^ 1024) (Qred (inject_Z N * 2 ^ t))) eqn:E; [| reflexivity].
      apply Qle_bool_iff in E. rewrite Hv in E.
      assert (H : ((2:Q) ^ (53 - K) <= 2 ^ 1024)%Q)
        by (apply Qpower_le_compat_l; [lia | discriminate]).
      exfalso. eapply Qlt_irrefl. eapply Qle_lt_trans; [exact E |].
      eapply Qlt_le_trans; [exact Hlt53 | exact H]. }
    unfold JS.round64.
    destruct (Qnum q) as [| p | p] eqn:Hnum; [congruence | |];
      cbv zeta; fold t; rewrite (roundHalfEven_integer _ N Hx); rewrite Hbig;
      eexists; (split; [reflexivity |]).
    + cbn [Z.ltb Z.compare]. rewrite Hv. apply Qabs_pos.
      unfold Qle. simpl. rewrite Hnum. lia.
    + cbn [Z.ltb Z.compare]. rewrite Hv.
      rewrite Qabs_neg by (unfold Qle; simpl; rewrite Hnum; lia). ring.
Qed.

(** ** Binary64: arithmetic on whole numbers of units *)

(** The bounds of the significand, as numerals. *)
Ltac bounds :=
  change (2 ^ 52)%Z with 4503599627370496%Z in *;
  change (2 ^ 53)%Z with 9007199254740992%Z in *;
  lia.

Section Units.

(** The unit is [2^-K] pixel. *)
Variable K : Z.
Hypothesis K_range : (0 <= K <= 1074)%Z.

Lemma denotes_zero : denotes K JS.zero 0.
Proof. exists 0%Q. split; [reflexivity |]. unfold Qdiv. ring. Qed.

Lemma denotes_same (n : JS.number) (x y : Z) : x = y -> denotes K n x -> denotes K n y.
Proof. intros E H. subst y. exact H. Qed.

Lemma denotes_rounded (q : Q) (z : Z) :
  (q == inject_Z z / 2 ^ K)%Q -> (Z.abs z < 2 ^ 53)%Z ->
  denotes K (JS.round64 q) z.
Proof.
  intros Hq Hz. destruct (round64_exact q z K Hq Hz K_range) as (r & Hr & Hrq).
  exists r. split; [exact Hr |]. rewrite Hrq. exact Hq.
Qed.

Lemma denotes_fadd (a b : JS.number) (x y : Z) :
  denotes K a x -> denotes K b y -> (Z.abs (x + y) < 2 ^ 53)%Z ->
  denotes K (JS.fadd a b) (x + y).
Proof.
  intros (p & Ha & Hp) (q & Hb & Hq) Hz. subst a b.
  unfold JS.fadd. cbn [JS.add JS.rounded].
  apply denotes_rounded; [| exact Hz].
  rewrite Hp, Hq, inject_Z_plus. field. apply pow2_nonzero.
Qed.

Lemma denotes_fsub (a b : JS.number) (x y : Z) :
  denotes K a x -> denotes K b y -> (Z.abs (x - y) < 2 ^ 53)%Z ->
  denotes K (JS.fsub a b) (x - y).
Proof.
  intros (p & Ha & Hp) (q & Hb & Hq) Hz. subst a b.
  unfold JS.fsub. cbn [JS.sub JS.rounded].
  apply denotes_rounded; [| exact Hz].
  rewrite Hp, Hq. unfold Z.sub. rewrite inject_Z_plus, inject_Z_opp.
  field. apply pow2_nonzero.
Qed.

Lemma denotes_half (a : JS.number) (x : Z) :
  denotes K a (2 * x) -> (Z.abs x < 2 ^ 53)%Z ->
  denotes K (JS.fdiv a (JS.Fin 2)) x.
Proof.
  intros (p & Ha & Hp) Hz. subst a.
  unfold JS.fdiv. change (JS.div (JS.Fin p) (JS.Fin 2)) with (JS.Fin (p / 2)).
  cbn [JS.rounded]. apply denotes_rounded; [| exact Hz].
  rewrite Hp, inject_Z_mult. field. apply pow2_nonzero.
Qed.

Lemma denotes_fmul (a : JS.number) (x n : Z) :
  denotes K a x -> (Z.abs (x * n) < 2 ^ 53)%Z ->
  denotes K (JS.fmul a (JS.ofZ n)) (x * n).
Proof.
  intros (p & Ha & Hp) Hz. subst a.
  unfold JS.fmul, JS.ofZ. cbn [JS.mul JS.rounded].
  apply denotes_rounded; [| exact Hz].
  rewrite Hp, inject_Z_mult. field. apply pow2_nonzero.
Qed.

Lemma denotes_le (p q : Q) (x y : Z) :
  (p == inject_Z x / 2 ^ K)%Q -> (q == inject_Z y / 2 ^ K)%Q ->
  Qle_bool p q = (x <=? y)%Z.
Proof.
  intros Hp Hq. pose proof (pow2_pos K) as HpK.
  destruct (Z.leb_spec x y) as [Hle | Hlt].
  - apply Qle_bool_iff. rewrite Hp, Hq. unfold Qdiv.
    apply Qmult_le_compat_r; [rewrite <- Zle_Qle; exact Hle |].
    apply Qlt_le_weak, Qinv_lt_0_compat, HpK.
  - destruct (Qle_bool p q) eqn:E; [| reflexivity].
    apply Qle_bool_iff in E. rewrite Hp, Hq in E. exfalso.
    apply (Qlt_irrefl (inject_Z x / 2 ^ K)).
    eapply Qle_lt_trans; [exact E |]. unfold Qdiv.
    apply Qmult_lt_compat_r; [apply Qinv_lt_0_compat, HpK |].
    rewrite <- Zlt_Qlt. exact Hlt.
Qed.

Lemma denotes_ltb (a b : JS.number) (x y : Z) :
  denotes K a x -> denotes K b y -> JS.ltb a b = (x <? y)%Z.
Proof.
  intros (p & Ha & Hp) (q & Hb & Hq). subst a b. cbn [JS.ltb].
  rewrite (denotes_le q p y x Hq Hp). rewrite Z.ltb_antisym. reflexivity.
Qed.

Lemma denotes_geb (a b : JS.number) (x y : Z) :
  denotes K a x -> denotes K b y -> JS.geb a b = (y <=? x)%Z.
Proof.
  intros Ha Hb. pose proof (denotes_ltb a b x y Ha Hb) as Hlt.
  destruct Ha as (p & Ha & _), Hb as (q & Hb & _). subst a b.
  unfold JS.geb. rewrite Hlt. rewrite Z.ltb_antisym. apply negb_involutive.
Qed.

End Units.

(** A measure of [a] units of [2^-k] pixel is [2 a] half units. *)
Lemma denotes_pixels (k : nat) (a : Z) :
  denotes (Z.of_nat k + 1) (JS.Fin (pixels k a)) (2 * a).
Proof.
  exists (pixels k a). split; [reflexivity |]. unfold pixels.
  assert (Htwo : ~ (2 == 0)%Q) by discriminate.
  rewrite (Qpower_plus 2 _ _ Htwo), inject_Z_mult.
  change ((2:Q) ^ 1) with (2:Q). change (inject_Z 2) with (2:Q).
  field. apply pow2_nonzero.
Qed.

(** ** The extent of tracks *)

Lemma extent_app (g : Z) (l1 l2 : list Z) :
  extent g (l1 ++ l2) = (extent g l1 + extent g l2)%Z.
Proof. induction l1 as [| a r IH]; simpl; [reflexivity | rewrite IH; lia]. Qed.

Lemma extent_nonneg (g : Z) (ws : list Z) :
  (0 <= g)%Z -> allPositive ws -> (0 <= extent g ws)%Z.
Proof.
  intros Hg Hpos. induction Hpos as [| a r Ha Hr IH]; simpl; lia.
Qed.

Lemma allPositive_split (ws : list Z) (j : nat) :
  allPositive ws -> allPositive (firstn j ws) /\ allPositive (skipn j ws).
Proof.
  intros Hpos. unfold allPositive in *. apply Forall_app.
  rewrite firstn_skipn. exact Hpos.
Qed.

Lemma extent_firstn_le (g : Z) (ws : list Z) (j : nat) :
  (0 <= g)%Z -> allPositive ws -> (0 <= extent g (firstn j ws) <= extent g ws)%Z.
Proof.
  intros Hg Hpos. destruct (allPositive_split ws j Hpos) as [Hf Hs].
  pose proof (extent_nonneg g _ Hg Hf). pose proof (extent_nonneg g _ Hg Hs).
  pose proof (extent_app g (firstn j ws) (skipn j ws)) as E.
  rewrite firstn_skipn in E. lia.
Qed.

Lemma firstn_snoc {A} (d : A) (l : list A) :
  forall k, (k < List.length l)%nat -> firstn (S k) l = firstn k l ++ [nth k l d].
Proof.
  induction l as [| a r IH]; intros k Hk.
  - simpl in Hk. lia.
  - destruct k as [| k]; [reflexivity |].
    simpl in Hk. change (firstn (S (S k)) (a :: r)) with (a :: firstn (S k) r).
    rewrite (IH k) by lia. reflexivity.
Qed.

Lemma extent_step (g : Z) (ws : list Z) (j : nat) :
  (j < List.length ws)%nat ->
  extent g (firstn (S j) ws) = (extent g (firstn j ws) + (nth j ws 0%Z + g))%Z.
Proof.
  intros Hj. rewrite (firstn_snoc 0%Z) by exact Hj. rewrite extent_app. simpl. lia.
Qed.


(** ** The two loops on measured tracks *)

Lemma sizeAt_pixels (k : nat) (ws : list Z) (i : nat) :
  (i < List.length ws)%nat ->
  PreviewCanvas.sizeAt (map (fun a => JS.Fin (pixels k a)) ws) (Z.of_nat i)
  = JS.Fin (pixels k (nth i ws 0%Z)).
Proof.
  intros Hi. unfold PreviewCanvas.sizeAt.
  destruct (Z.of_nat i <? 0)%Z eqn:Hneg; [lia |].
  rewrite Nat2Z.id.
  rewrite (nth_indep _ JS.NaN (JS.Fin (pixels k 0))) by (rewrite length_map; exact Hi).
  apply (map_nth (fun a => JS.Fin (pixels k a))).
Qed.

Section PixelGrid.

(** Sizes and gap are whole numbers of units of [2^-k] pixel; the
    arithmetic is followed in half units. *)
Variables (k : nat) (c : Z).
Hypothesis k_range : (k <= 1073)%nat.
Hypothesis gap_nonneg : (0 <= c)%Z.

Let K : Z := (Z.of_nat k + 1)%Z.
Let gap : JS.number := JS.Fin (pixels k c).
Let px (ws : list Z) : list JS.number := map (fun a => JS.Fin (pixels k a)) ws.

Lemma K_range : (0 <= K <= 1074)%Z.
Proof. subst K. lia. Qed.

(** The offset [getTrackPosition] computes behind [j] tracks. *)
Lemma getTrackPosition_pixels (ws : list Z) (j : nat) :
  allPositive ws -> (extent c ws < 2 ^ 52)%Z -> (j <= List.length ws)%nat ->
  denotes K (PreviewCanvas.getTrackPosition (Z.of_nat j + 1) (px ws) gap)
          (2 * extent c (firstn j ws)).
Proof.
  intros Hpos Hbound.
  unfold PreviewCanvas.getTrackPosition, PreviewCanvas.indicesFrom.
  replace (Z.of_nat j + 1 - 1)%Z with (Z.of_nat j) by lia. rewrite Nat2Z.id.
  induction j as [| j IH]; intros Hj.
  - simpl. apply denotes_zero.
  - rewrite seq_S, map_app, fold_left_app.
    cbn [map fold_left Nat.add Z.add]. unfold px at 2.
    rewrite sizeAt_pixels by lia.
    pose proof (extent_firstn_le c ws j gap_nonneg Hpos) as Hj1.
    pose proof (extent_firstn_le c ws (S j) gap_nonneg Hpos) as Hj2.
    rewrite (extent_step c ws j) in * by lia.
    assert (Hnth : (0 < nth j ws 0)%Z).
    { unfold allPositive in Hpos. rewrite Forall_forall in Hpos.
      apply Hpos. apply nth_In. lia. }
    assert (Hstep : denotes K (JS.fadd (JS.Fin (pixels k (nth j ws 0%Z))) gap)
                      (2 * nth j ws 0%Z + 2 * c)).
    { apply (denotes_fadd K K_range); [apply denotes_pixels | apply denotes_pixels | bounds]. }
    eapply denotes_same;
      [| apply (denotes_fadd K K_range _ _ _ _ (IH ltac:(lia)) Hstep); bounds].
    lia.
Qed.

(** The scan of [positionFromCoords], started at the offset [from]
    with the tracks [ws] ahead, for the offset behind [d] of them:
    it stops after [d] tracks. *)
Lemma scanTracks_pixels (ws : list Z) :
  allPositive ws ->
  forall (d : nat) (from : Z) (x current : JS.number) (start : Z),
    (0 <= from)%Z -> (from + extent c ws < 2 ^ 52)%Z ->
    (d <= List.length ws)%nat ->
    denotes K current (2 * from) ->
    denotes K x (2 * (from + extent c (firstn d ws))) ->
    PreviewCanvas.scanTracks x gap (px ws) current start = (start + Z.of_nat d)%Z.
Proof.
  intros Hpos. induction Hpos as [| a r Ha Hr IH];
    intros d from x current start Hfrom Hbound Hd Hcur Hx.
  - simpl in Hd. assert (d = 0%nat) by lia. subst d. simpl. lia.
  - cbn [px map PreviewCanvas.scanTracks]. fold (px r).
    cbn [extent fold_right] in Hbound. fold (extent c r) in Hbound.
    pose proof (extent_nonneg c r gap_nonneg Hr) as Hext.
    assert (Hhalf : denotes K (JS.fdiv (JS.Fin (pixels k a)) (JS.Fin 2)) a).
    { apply (denotes_half K K_range); [apply denotes_pixels | bounds]. }
    assert (Hmid : denotes K (JS.fadd current (JS.fdiv (JS.Fin (pixels k a)) (JS.Fin 2)))
                     (2 * from + a)).
    { apply (denotes_fadd K K_range); [exact Hcur | exact Hhalf | bounds]. }
    rewrite (denotes_ltb K _ _ _ _ Hx Hmid).
    assert (Hstep : denotes K (JS.fadd (JS.Fin (pixels k a)) gap) (2 * a + 2 * c)).
    { apply (denotes_fadd K K_range); [apply denotes_pixels | apply denotes_pixels | bounds]. }
    assert (Hnext : denotes K (JS.fadd current (JS.fadd (JS.Fin (pixels k a)) gap))
                      (2 * from + (2 * a + 2 * c))).
    { apply (denotes_fadd K K_range); [exact Hcur | exact Hstep | bounds]. }
    destruct d as [| d].
    + cbn [firstn extent fold_right].
      destruct (Z.ltb_spec (2 * (from + 0)) (2 * from + a)); lia.
    + cbn [firstn extent fold_right] in *. fold (extent c (firstn d r)) in *.
      pose proof (extent_firstn_le c r d gap_nonneg Hr) as Hd1.
      destruct (Z.ltb_spec (2 * (from + (a + c + extent c (firstn d r)))) (2 * from + a));
        [lia |].
      simpl in Hd.
      rewrite (IH d (from + a + c)%Z x _ (start + 1)%Z); try bounds.
      * eapply denotes_same; [| exact Hnext]. lia.
      * eapply denotes_same; [| exact Hx]. lia.
Qed.

Lemma scan_round_trip_pixels (ws : list Z) (total start span : Z) :
  allPositive ws -> (extent c ws < 2 ^ 52)%Z ->
  (start - 1 <= Z.of_nat (List.length ws))%Z ->
  (1 <= start <= total - span + 1)%Z ->
  Grid.clamp
    (PreviewCanvas.scanTracks (PreviewCanvas.getTrackPosition start (px ws) gap)
       gap (px ws) JS.zero 1)
    1 (Z.max 1 (total - span + 1))
  = start.
Proof.
  intros Hpos Hbound Hlen Hstart.
  pose proof (getTrackPosition_pixels ws (Z.to_nat (start - 1)) Hpos Hbound ltac:(lia))
    as Hleft.
  replace (Z.of_nat (Z.to_nat (start - 1)) + 1)%Z with start in Hleft by lia.
  rewrite (scanTracks_pixels ws Hpos (Z.to_nat (start - 1)) 0%Z _ JS.zero 1%Z);
    try bounds.
  - unfold Grid.clamp. lia.
  - apply denotes_zero.
  - exact Hleft.
Qed.

End PixelGrid.

(** ** C6: from grid lines to pixels and back *)




(** A positive width is not enough: three columns of width [2^-52]
    with a gap of 4 are uniform, the item at column 2 has its left
    edge at 4, and the sum of 4 and half a width is rounded to 4, so
    that the item comes back at column 3. *)
Lemma absorbed_width_example :
  let metrics := uniformMetrics (pixels 52 1) 10 4 3 1 in
  let rect := PreviewCanvas.indicatorFrom 2 1 1 1 metrics in
  (0 < pixels 52 1)%Q
  /\ JS.same (left rect) (JS.Fin 4)
  /\ JS.fadd (JS.Fin 4) (JS.fdiv (JS.Fin (pixels 52 1)) (JS.Fin 2)) = JS.Fin 4
  /\ PreviewCanvas.positionFromCoords (left rect) (top rect) metrics 1 1 3 1
     = PreviewCanvas.mkGridPosition 3 1.
Proof.
  cbv zeta. split; [reflexivity |].
  split; [vm_compute; reflexivity |].
  split; vm_compute; reflexivity.
Qed.

(** ** The order of the numbers that are not NaN *)

Lemma Qltb_iff (p q : Q) : negb (Qle_bool q p) = true <-> (p < q)%Q.
Proof.
  split; intros H.
  - apply negb_true_iff in H. apply Qle_bool_false_lt. exact H.
  - apply negb_true_iff. destruct (Qle_bool q p) eqn:Hle; [| reflexivity].
    apply Qle_bool_iff in Hle. lra.
Qed.

Lemma ltb_irrefl (a : JS.number) : JS.ltb a a = false.
Proof.
  destruct a as [| |q|]; simpl; try reflexivity.
  apply negb_false_iff. apply Qle_bool_iff. lra.
Qed.

Lemma ltb_trans (a b c : JS.number) :
  JS.ltb a b = true -> JS.ltb b c = true -> JS.ltb a c = true.
Proof.
  destruct a as [| |p|], b as [| |q|], c as [| |r|]; simpl;
    try discriminate; try reflexivity.
  rewrite !Qltb_iff. lra.
Qed.

Lemma eqb_sym (a b : JS.number) : JS.eqb a b = JS.eqb b a.
Proof.
  destruct a as [| |p|], b as [| |q|]; simpl; try reflexivity.
  apply Qeq_bool_comm.
Qed.

Lemma eqb_trans (a b c : JS.number) :
  JS.eqb a b = true -> JS.eqb b c = true -> JS.eqb a c = true.
Proof.
  destruct a as [| |p|], b as [| |q|], c as [| |r|]; simpl;
    try discriminate; try reflexivity.
  apply Qeq_bool_trans.
Qed.

Lemma eqb_ltb_trans (a b c : JS.number) :
  JS.eqb a b = true -> JS.ltb b c = true -> JS.ltb a c = true.
Proof.
  destruct a as [| |p|], b as [| |q|], c as [| |r|]; simpl;
    try discriminate; try reflexivity.
  rewrite Qeq_bool_iff, !Qltb_iff. intros H1 H2. lra.
Qed.

Lemma ltb_eqb_trans (a b c : JS.number) :
  JS.ltb a b = true -> JS.eqb b c = true -> JS.ltb a c = true.
Proof.
  destruct a as [| |p|], b as [| |q|], c as [| |r|]; simpl;
    try discriminate; try reflexivity.
  rewrite Qeq_bool_iff, !Qltb_iff. intros H1 H2. lra.
Qed.

Lemma ltb_not_eqb (a b : JS.number) : JS.ltb a b = true -> JS.eqb a b = false.
Proof.
  destruct a as [| |p|], b as [| |q|]; simpl; try discriminate; try reflexivity.
  rewrite Qltb_iff. intros H. apply not_true_is_false.
  rewrite Qeq_bool_iff. lra.
Qed.

Lemma ltb_asym (a b : JS.number) : JS.ltb a b = true -> JS.ltb b a = false.
Proof.
  intros H. destruct (JS.ltb b a) eqn:Hba; [| reflexivity].
  rewrite <- (ltb_irrefl a). symmetry. apply (ltb_trans a b a); assumption.
Qed.

Lemma number_trichotomy (a b : JS.number) :
  JS.isNaN a = false -> JS.isNaN b = false ->
  JS.ltb a b = true \/ JS.eqb a b = true \/ JS.ltb b a = true.
Proof.
  destruct a as [| |p|], b as [| |q|]; simpl; try discriminate; auto.
  intros _ _. rewrite !Qltb_iff, Qeq_bool_iff.
  destruct (Q_dec p q) as [[H | H] | H]; auto.
Qed.

(** The sign of a difference. *)
Lemma positive_difference (a b : JS.number) :
  JS.isNaN a = false -> JS.isNaN b = false ->
  JS.gtb (JS.sub a b) JS.zero = JS.ltb b a.
Proof.
  destruct a as [| |p|], b as [| |q|]; simpl; try discriminate; try reflexivity.
  intros _ _. apply eq_true_iff_eq. rewrite !Qltb_iff. split; intros H; lra.
Qed.

Lemma parsePosition_is_number (s : string) :
  JS.isNaN (GridState.parsePosition s) = false.
Proof.
  unfold GridState.parsePosition.
  destruct (JS.isNaN (JS.Number s)) eqn:H; [reflexivity | exact H].
Qed.

(** ** The order of the entries *)

Lemma entryBefore_iff (a b : GridState.SortEntry) :
  entryBefore a b = true <->
  JS.ltb (GridState.e_row a) (GridState.e_row b) = true
  \/ (JS.eqb (GridState.e_row a) (GridState.e_row b) = true
      /\ (JS.ltb (GridState.e_col a) (GridState.e_col b) = true
          \/ (JS.eqb (GridState.e_col a) (GridState.e_col b) = true
              /\ (GridState.e_index a < GridState.e_index b)%nat))).
Proof.
  unfold entryBefore.
  rewrite orb_true_iff, andb_true_iff, orb_true_iff, andb_true_iff, Nat.ltb_lt.
  reflexivity.
Qed.

Lemma entryBefore_irrefl (a : GridState.SortEntry) : entryBefore a a = false.
Proof.
  apply not_true_is_false. rewrite entryBefore_iff.
  rewrite !ltb_irrefl. intros [H | [_ [H | [_ H]]]]; try discriminate. lia.
Qed.

Lemma entryBefore_trans (a b c : GridState.SortEntry) :
  entryBefore a b = true -> entryBefore b c = true -> entryBefore a c = true.
Proof.
  rewrite !entryBefore_iff.
  intros [Hab | [Eab Hab]] [Hbc | [Ebc Hbc]].
  - left. eapply ltb_trans; eassumption.
  - left. eapply ltb_eqb_trans; eassumption.
  - left. eapply eqb_ltb_trans; eassumption.
  - right. split; [eapply eqb_trans; eassumption |].
    destruct Hab as [Hab | [Fab Hab]], Hbc as [Hbc | [Fbc Hbc]].
    + left. eapply ltb_trans; eassumption.
    + left. eapply ltb_eqb_trans; eassumption.
    + left. eapply eqb_ltb_trans; eassumption.
    + right. split; [eapply eqb_trans; eassumption | lia].
Qed.

Lemma entryBefore_asym (a b : GridState.SortEntry) :
  entryBefore a b = true -> entryBefore b a = false.
Proof.
  intros H. destruct (entryBefore b a) eqn:Hba; [| reflexivity].
  rewrite <- (entryBefore_irrefl a). symmetry.
  apply (entryBefore_trans a b a); assumption.
Qed.

Lemma entryBefore_total (a b : GridState.SortEntry) :
  validEntry a -> validEntry b ->
  GridState.e_index a <> GridState.e_index b ->
  entryBefore a b = true \/ entryBefore b a = true.
Proof.
  intros [Ra Ca] [Rb Cb] Hidx. rewrite !entryBefore_iff.
  destruct (number_trichotomy _ _ Ra Rb) as [H | [H | H]]; auto.
  destruct (number_trichotomy _ _ Ca Cb) as [G | [G | G]].
  - left. right. auto.
  - assert (GridState.e_index a < GridState.e_index b
            \/ GridState.e_index b < GridState.e_index a)%nat as [I | I] by lia.
    + left. right. auto.
    + right. right. rewrite (eqb_sym (GridState.e_row b)), (eqb_sym (GridState.e_col b)).
      auto.
  - right. right. rewrite (eqb_sym (GridState.e_row b)). auto.
Qed.

(** The comparator of the code says "greater" exactly when the second
    entry comes before the first. *)
Lemma compareEntries_greater (a b : GridState.SortEntry) :
  validEntry a -> validEntry b ->
  JS.gtb (GridState.compareEntries a b) JS.zero = entryBefore b a.
Proof.
  intros [Ra Ca] [Rb Cb]. unfold GridState.compareEntries, entryBefore.
  destruct (JS.eqb (GridState.e_row a) (GridState.e_row b)) eqn:Er.
  - rewrite (eqb_sym (GridState.e_row b)), Er.
    assert (Hr : JS.ltb (GridState.e_row b) (GridState.e_row a) = false).
    { destruct (JS.ltb (GridState.e_row b) (GridState.e_row a)) eqn:Hlt; [| reflexivity].
      apply ltb_not_eqb in Hlt. rewrite eqb_sym in Hlt. congruence. }
    rewrite Hr. simpl.
    destruct (JS.eqb (GridState.e_col a) (GridState.e_col b)) eqn:Ec.
    + rewrite (eqb_sym (GridState.e_col b)), Ec.
      assert (Hc : JS.ltb (GridState.e_col b) (GridState.e_col a) = false).
      { destruct (JS.ltb (GridState.e_col b) (GridState.e_col a)) eqn:Hlt; [| reflexivity].
        apply ltb_not_eqb in Hlt. rewrite eqb_sym in Hlt. congruence. }
      rewrite Hc. simpl. unfold JS.gtb, JS.ofZ, JS.zero. simpl.
      apply eq_true_iff_eq. rewrite Qltb_iff, Nat.ltb_lt.
      rewrite <- (Zlt_Qlt 0). lia.
    + rewrite (eqb_sym (GridState.e_col b)), Ec. rewrite andb_false_l, orb_false_r.
      apply positive_difference; assumption.
  - rewrite (eqb_sym (GridState.e_row b)), Er. rewrite andb_false_l, orb_false_r.
    apply positive_difference; assumption.
Qed.

(** ** The sort *)

Lemma insertSorted_perm {A} (compareFn : A -> A -> JS.number) (x : A) (l : list A) :
  Permutation (GridState.insertSorted compareFn x l) (x :: l).
Proof.
  induction l as [| y r IH]; cbn [GridState.insertSorted]; [reflexivity |].
  destruct (JS.gtb (compareFn y x) JS.zero); [reflexivity |].
  rewrite IH. apply perm_swap.
Qed.

Lemma sort_fold_perm {A} (compareFn : A -> A -> JS.number) (l : list A) :
  forall acc,
    Permutation
      (fold_left (fun acc x => GridState.insertSorted compareFn x acc) l acc)
      (acc ++ l).
Proof.
  induction l as [| x l IH]; intros acc; simpl.
  - rewrite app_nil_r. reflexivity.
  - rewrite IH. rewrite insertSorted_perm. simpl. apply Permutation_middle.
Qed.

Lemma sort_perm {A} (compareFn : A -> A -> JS.number) (l : list A) :
  Permutation (GridState.sort compareFn l) l.
Proof. unfold GridState.sort. apply (sort_fold_perm compareFn l []). Qed.

Lemma insertSorted_sorted (x : GridState.SortEntry) (l : list GridState.SortEntry) :
  validEntry x -> Forall validEntry l ->
  (forall y, In y l -> GridState.e_index y <> GridState.e_index x) ->
  StronglySorted comesBefore l ->
  StronglySorted comesBefore (GridState.insertSorted GridState.compareEntries x l).
Proof.
  intros Hx. induction l as [| y r IH]; intros Hvalid Hidx Hsorted.
  - simpl. constructor; constructor.
  - cbn [GridState.insertSorted]. inversion Hvalid as [| ? ? Hy Hr]; subst.
    apply StronglySorted_inv in Hsorted. destruct Hsorted as [Hsr Hyr].
    rewrite compareEntries_greater by assumption.
    destruct (entryBefore x y) eqn:Hxy.
    + constructor; [constructor; assumption |].
      constructor; [exact Hxy |].
      apply Forall_forall. intros z Hz. rewrite Forall_forall in Hyr.
      apply (entryBefore_trans x y z); [exact Hxy | apply Hyr; exact Hz].
    + assert (Hyx : entryBefore y x = true).
      { destruct (entryBefore_total y x Hy Hx) as [H | H]; auto.
        - apply Hidx. left. reflexivity.
        - congruence. }
      constructor.
      * apply IH; auto. intros z Hz. apply Hidx. right. exact Hz.
      * apply (Permutation_Forall (Permutation_sym (insertSorted_perm _ x r))).
        constructor; assumption.
Qed.

Lemma sort_fold_sorted (l : list GridState.SortEntry) :
  forall acc,
    Forall validEntry (acc ++ l) ->
    NoDup (map GridState.e_index (acc ++ l)) ->
    StronglySorted comesBefore acc ->
    StronglySorted comesBefore
      (fold_left (fun acc x => GridState.insertSorted GridState.compareEntries x acc)
                 l acc).
Proof.
  induction l as [| x l IH]; intros acc Hvalid Hnodup Hsorted; simpl; [exact Hsorted |].
  assert (Hperm : Permutation
                    (GridState.insertSorted GridState.compareEntries x acc ++ l)
                    (acc ++ x :: l)).
  { rewrite insertSorted_perm. simpl. apply Permutation_middle. }
  apply IH.
  - apply (Permutation_Forall (Permutation_sym Hperm)). exact Hvalid.
  - apply (Permutation_NoDup (Permutation_map _ (Permutation_sym Hperm))). exact Hnodup.
  - rewrite Forall_app in Hvalid. destruct Hvalid as [Hacc Hxl].
    inversion Hxl; subst.
    apply insertSorted_sorted; auto.
    intros y Hy Heq.
    rewrite map_app in Hnodup. simpl in Hnodup.
    apply NoDup_remove_2 in Hnodup. apply Hnodup.
    apply in_or_app. left. rewrite <- Heq. apply in_map. exact Hy.
Qed.

Lemma sort_sorted (l : list GridState.SortEntry) :
  Forall validEntry l -> NoDup (map GridState.e_index l) ->
  StronglySorted comesBefore (GridState.sort GridState.compareEntries l).
Proof.
  intros Hvalid Hnodup. unfold GridState.sort.
  apply sort_fold_sorted; auto. constructor.
Qed.

(** ** The position in a sorted list is the number of smaller entries *)

Lemma countBefore_perm (e : GridState.SortEntry) (l l' : list GridState.SortEntry) :
  Permutation l l' -> countBefore e l = countBefore e l'.
Proof.
  unfold countBefore. induction 1 as [| x l l' _ IH | x y l | l l' l'' _ IH1 _ IH2]; simpl.
  - reflexivity.
  - destruct (entryBefore x e); simpl; congruence.
  - destruct (entryBefore x e), (entryBefore y e); reflexivity.
  - congruence.
Qed.

Lemma countBefore_none (e : GridState.SortEntry) (l : list GridState.SortEntry) :
  Forall (comesBefore e) l -> countBefore e l = O.
Proof.
  unfold countBefore. induction 1 as [| x l Hx _ IH]; simpl; [reflexivity |].
  rewrite (entryBefore_asym _ _ Hx). exact IH.
Qed.

Lemma sorted_position (s : list GridState.SortEntry) :
  StronglySorted comesBefore s ->
  forall k e, nth_error s k = Some e -> countBefore e s = k.
Proof.
  induction 1 as [| a l Hsorted IH Hall]; intros k e Hk.
  - destruct k; discriminate.
  - destruct k as [| k]; simpl in Hk.
    + inversion Hk; subst. unfold countBefore. simpl.
      rewrite entryBefore_irrefl. apply countBefore_none. exact Hall.
    + unfold countBefore. simpl.
      rewrite Forall_forall in Hall.
      rewrite (Hall e (nth_error_In _ _ Hk)). simpl. f_equal.
      apply IH. exact Hk.
Qed.

(** ** The entries of a sibling list *)

Lemma nth_mapIndexed {A B} (f : A -> nat -> B) (l : list A) :
  forall start i,
    nth_error (GridState.mapIndexed f start l) i
    = option_map (fun a => f a (start + i)%nat) (nth_error l i).
Proof.
  induction l as [| a r IH]; intros start i.
  - destruct i; reflexivity.
  - destruct i as [| i]; simpl.
    + rewrite Nat.add_0_r. reflexivity.
    + rewrite IH. rewrite Nat.add_succ_r. reflexivity.
Qed.

Lemma entry_indices (bp : Breakpoint) (lst : list GridItem) :
  forall start,
    map GridState.e_index (GridState.mapIndexed (GridState.toEntry bp) start lst)
    = seq start (List.length lst).
Proof.
  induction lst as [| a r IH]; intros start; simpl; [reflexivity |].
  rewrite IH. reflexivity.
Qed.

Lemma entries_valid (bp : Breakpoint) (lst : list GridItem) :
  Forall validEntry (entriesOf lst bp).
Proof.
  apply Forall_forall. intros e He.
  apply In_nth_error in He. destruct He as [i Hi].
  unfold entriesOf in Hi. rewrite nth_mapIndexed in Hi.
  destruct (nth_error lst i) as [item |]; [| discriminate].
  inversion Hi; subst. split; apply parsePosition_is_number.
Qed.

Lemma idEqb_sym (a b : Q) : idEqb a b = idEqb b a.
Proof. apply Qeq_bool_comm. Qed.

Lemma distinctIds_positions (lst : list GridItem) :
  distinctIds lst = true ->
  forall i j x y,
    nth_error lst i = Some x -> nth_error lst j = Some y ->
    idEqb (id x) (id y) = true -> i = j.
Proof.
  induction lst as [| a r IH]; intros Hd i j x y Hi Hj Heq.
  - destruct i; discriminate.
  - simpl in Hd. apply andb_true_iff in Hd. destruct Hd as [Hhead Hrest].
    apply negb_true_iff in Hhead.
    assert (Hno : forall z, In z r -> idEqb (id a) (id z) = false).
    { intros z Hz. destruct (idEqb (id a) (id z)) eqn:E; [| reflexivity].
      rewrite <- Hhead. symmetry. apply existsb_exists. exists z. auto. }
    destruct i as [| i], j as [| j]; simpl in Hi, Hj.
    + reflexivity.
    + inversion Hi; subst. apply nth_error_In in Hj.
      rewrite (Hno y Hj) in Heq. discriminate.
    + inversion Hj; subst. apply nth_error_In in Hi.
      rewrite idEqb_sym in Heq. rewrite (Hno x Hi) in Heq. discriminate.
    + f_equal. apply (IH Hrest i j x y); assumption.
Qed.

Lemma entries_unique (bp : Breakpoint) (lst : list GridItem) :
  distinctIds lst = true -> uniqueIds (entriesOf lst bp).
Proof.
  intros Hd. split.
  - apply (NoDup_map_inv GridState.e_index). unfold entriesOf.
    rewrite entry_indices. apply seq_NoDup.
  - intros a b Ha Hb Heq.
    apply In_nth_error in Ha. destruct Ha as [i Hi].
    apply In_nth_error in Hb. destruct Hb as [j Hj].
    unfold entriesOf in Hi, Hj. rewrite nth_mapIndexed in Hi, Hj.
    destruct (nth_error lst i) as [x |] eqn:Hx; [| discriminate].
    destruct (nth_error lst j) as [y |] eqn:Hy; [| discriminate].
    inversion Hi; subst. inversion Hj; subst. simpl in Heq.
    assert (i = j) by (apply (distinctIds_positions lst Hd i j x y); assumption).
    subst j. congruence.
Qed.

Lemma uniqueIds_perm (l l' : list GridState.SortEntry) :
  Permutation l l' -> uniqueIds l -> uniqueIds l'.
Proof.
  intros Hp [Hnd Hid]. split.
  - apply (Permutation_NoDup Hp). exact Hnd.
  - intros a b Ha Hb. apply Hid; apply (Permutation_in _ (Permutation_sym Hp)); assumption.
Qed.

Lemma uniqueIds_tail (e : GridState.SortEntry) (l : list GridState.SortEntry) :
  uniqueIds (e :: l) ->
  uniqueIds l
  /\ forall x, In x l -> idEqb (GridState.e_id x) (GridState.e_id e) = false.
Proof.
  intros [Hnd Hid]. inversion Hnd; subst. split; [split |].
  - assumption.
  - intros a b Ha Hb. apply Hid; right; assumption.
  - intros x Hx. destruct (idEqb (GridState.e_id x) (GridState.e_id e)) eqn:E; [| reflexivity].
    exfalso. assert (x = e) by (apply Hid; [right | left |]; auto). subst. contradiction.
Qed.

(** ** The map from ids to orders *)

Lemma mapGet_mapSet (m : GridState.OrderMap) (k x : Q) (v : nat) :
  GridState.mapGet (GridState.mapSet m k v) x
  = if idEqb k x then Some v else GridState.mapGet m x.
Proof.
  induction m as [| [k' v'] r IH]; simpl.
  - destruct (idEqb k x); reflexivity.
  - destruct (idEqb k' k) eqn:Hk; simpl.
    + destruct (idEqb k' x) eqn:Hx.
      * assert (idEqb k x = true) as ->; [| reflexivity].
        apply (Qeq_bool_trans k k' x); [rewrite Qeq_bool_comm |]; assumption.
      * assert (idEqb k x = false) as ->; [| reflexivity].
        destruct (idEqb k x) eqn:E; [| reflexivity].
        rewrite <- Hx. symmetry. apply (Qeq_bool_trans k' k x); assumption.
    + rewrite IH. destruct (idEqb k' x) eqn:Hx; [| reflexivity].
      assert (idEqb k x = false) as ->; [| reflexivity].
      destruct (idEqb k x) eqn:E; [| reflexivity].
      rewrite <- Hk. symmetry.
      apply (Qeq_bool_trans k' x k); [| rewrite Qeq_bool_comm]; assumption.
Qed.

Lemma setOrders_miss (sorted : list GridState.SortEntry) (x : Q) :
  (forall e, In e sorted -> idEqb (GridState.e_id e) x = false) ->
  forall idx m,
    GridState.mapGet (GridState.setOrders sorted idx m) x = GridState.mapGet m x.
Proof.
  induction sorted as [| e r IH]; intros Hmiss idx m; simpl; [reflexivity |].
  rewrite IH by (intros z Hz; apply Hmiss; right; exact Hz).
  rewrite mapGet_mapSet. rewrite (Hmiss e (or_introl eq_refl)). reflexivity.
Qed.

Lemma setOrders_hit (sorted : list GridState.SortEntry) :
  uniqueIds sorted ->
  forall k e idx m,
    nth_error sorted k = Some e ->
    GridState.mapGet (GridState.setOrders sorted idx m) (GridState.e_id e)
    = Some (idx + k + 1)%nat.
Proof.
  induction sorted as [| e0 r IH]; intros Hu k e idx m Hk.
  - destruct k; discriminate.
  - apply uniqueIds_tail in Hu. destruct Hu as [Hr Hmiss].
    destruct k as [| k]; simpl in Hk; simpl.
    + inversion Hk; subst. rewrite setOrders_miss by exact Hmiss.
      rewrite mapGet_mapSet. unfold idEqb. rewrite Qeq_bool_refl.
      f_equal. lia.
    + rewrite (IH Hr k e (S idx) _ Hk). f_equal. lia.
Qed.

(** ** C2: the reflow *)

Lemma reflow_position (lst : list GridItem) (bp : Breakpoint) (i : nat) (item : GridItem) :
  nth_error lst i = Some item ->
  nth_error (entriesOf lst bp) i = Some (GridState.toEntry bp item i).
Proof.
  intros Hi. unfold entriesOf. rewrite nth_mapIndexed, Hi. reflexivity.
Qed.

(** In every sorted arrangement of the entries, the entry of the
    sibling at position [i] stands at position [rank lst bp i]. *)
Lemma rank_is_sorted_position (lst : list GridItem) (bp : Breakpoint)
    (i : nat) (item : GridItem) (sorted : list GridState.SortEntry) :
  nth_error lst i = Some item ->
  Permutation sorted (entriesOf lst bp) ->
  StronglySorted comesBefore sorted ->
  nth_error sorted (rank lst bp i) = Some (GridState.toEntry bp item i).
Proof.
  intros Hi Hperm Hsorted.
  pose proof (reflow_position lst bp i item Hi) as He.
  assert (Hin : In (GridState.toEntry bp item i) sorted).
  { apply (Permutation_in _ (Permutation_sym Hperm)).
    apply (nth_error_In _ _ He). }
  apply In_nth_error in Hin. destruct Hin as [k Hk].
  unfold rank. rewrite He.
  rewrite <- (countBefore_perm _ _ _ Hperm).
  rewrite (sorted_position sorted Hsorted k _ Hk). exact Hk.
Qed.

Lemma sorted_entries (lst : list GridItem) (bp : Breakpoint) :
  StronglySorted comesBefore
    (GridState.sort GridState.compareEntries (entriesOf lst bp)).
Proof.
  apply sort_sorted.
  - apply entries_valid.
  - unfold entriesOf. rewrite entry_indices. apply seq_NoDup.
Qed.

(** C2 (as amended).  For a sibling list with pairwise different ids
    and a breakpoint, the reflow leaves every sibling as it is except
    for the order of its layout at the breakpoint, which becomes
    [String(rank + 1)]; the rank of a sibling is its position in every
    arrangement of the siblings sorted by numeric row start, then
    numeric column start, then original index, where a position that
    [Number] does not read as a number (["auto"] is one) counts as
    [+infinity], and the empty string, which [Number] reads as 0,
    counts as 0; and the three siblings at (2, 1), (1, 1), (1, 3) get
    the orders 3, 1, 2. *)
Theorem reflow_assigns_rank (lst : list GridItem) (bp : Breakpoint)
    (i : nat) (item : GridItem) :
  distinctIds lst = true ->
  nth_error lst i = Some item ->
  nth_error (GridState.reflowOrders lst bp) i
  = Some (reordered item bp (JS.StringOfNat (rank lst bp i + 1)))
  /\ (forall sorted,
        Permutation sorted (entriesOf lst bp) ->
        StronglySorted comesBefore sorted ->
        nth_error sorted (rank lst bp i) = Some (GridState.toEntry bp item i))
  /\ (forall s, JS.isNaN (JS.Number s) = true -> GridState.parsePosition s = JS.PosInf)
  /\ (forall s, JS.isNaN (JS.Number s) = false -> GridState.parsePosition s = JS.Number s)
  /\ GridState.parsePosition "auto" = JS.PosInf
  /\ GridState.parsePosition "" = JS.zero
  /\ map (fun it => order (getBp (layout it) xs))
         (GridState.reflowOrders exampleSiblings xs)
     = ["3"; "1"; "2"].
Proof.
  intros Hd Hi.
  split; [| split; [| split; [| split; [| split; [| split]]]]].
  - unfold GridState.reflowOrders.
    erewrite map_nth_error by exact Hi. f_equal. unfold reordered. do 3 f_equal.
    fold (entriesOf lst bp).
    set (sorted := GridState.sort GridState.compareEntries (entriesOf lst bp)).
    assert (Hperm : Permutation sorted (entriesOf lst bp)) by apply sort_perm.
    assert (Hsorted : StronglySorted comesBefore sorted) by apply sorted_entries.
    pose proof (rank_is_sorted_position lst bp i item sorted Hi Hperm Hsorted) as Hk.
    assert (Hu : uniqueIds sorted).
    { apply (uniqueIds_perm _ _ (Permutation_sym Hperm)). apply entries_unique. exact Hd. }
    pose proof (setOrders_hit sorted Hu _ _ 0%nat [] Hk) as Hget.
    simpl GridState.e_id in Hget. rewrite Hget. reflexivity.
  - intros sorted. apply rank_is_sorted_position. exact Hi.
  - intros s Hs. unfold GridState.parsePosition. rewrite Hs. reflexivity.
  - intros s Hs. unfold GridState.parsePosition. rewrite Hs. reflexivity.
  - reflexivity.
  - reflexivity.
  - vm_compute. reflexivity.
Qed.

Lemma reflow_assigns_rank_witness :
  nth_error (GridState.reflowOrders exampleSiblings xs) 0
  = Some (reordered (sampleLeaf 11 "2" "1") xs "3").
Proof.
  exact (proj1 (reflow_assigns_rank exampleSiblings xs 0 (sampleLeaf 11 "2" "1")
                  eq_refl eq_refl)).
Defined.

(** C2 as stated fails on a sibling list in which an id occurs twice:
    the sibling at (1, 1) has rank 0 and should get the order 1; both
    siblings get the order 2. *)
Lemma reflow_twins_counterexample :
  rank twinSiblings xs 1 = 0%nat
  /\ map (fun it => order (getBp (layout it) xs))
         (GridState.reflowOrders twinSiblings xs)
     = ["2"; "2"]
  /\ nth_error (GridState.reflowOrders twinSiblings xs) 1
     <> Some (reordered (sampleLeaf 1 "1" "1") xs
                (JS.StringOfNat (rank twinSiblings xs 1 + 1))).
Proof.
  split; [vm_compute; reflexivity | split; [vm_compute; reflexivity |]].
  vm_compute. intros H. discriminate H.
Qed.

(* ================================================================== *)
(** * Further properties of the code *)
(* ================================================================== *)

(** ** The reflow changes the order and nothing else *)

Lemma reflowOrders_as_map (lst : list GridItem) (bp : Breakpoint) :
  GridState.reflowOrders lst bp
  = map (fun item =>
           reordered item bp (JS.StringOfNat (orderNumber (orderMapOf lst bp) item)))
        lst.
Proof. reflexivity. Qed.

Lemma getBp_reordered (item : GridItem) (bp : Breakpoint) (o : string) :
  getBp (layout (reordered item bp o)) bp
  = GridState.withOrder (getBp (layout item) bp) o.
Proof. destruct item; simpl. apply getBp_setBp_same. Qed.

Lemma getBp_reordered_other (item : GridItem) (bp bp' : Breakpoint) (o : string) :
  bp <> bp' ->
  getBp (layout (reordered item bp o)) bp' = getBp (layout item) bp'.
Proof. intros H. destruct item; simpl. apply getBp_setBp_other. exact H. Qed.

Lemma reordered_twice (item : GridItem) (bp : Breakpoint) (o o' : string) :
  reordered (reordered item bp o) bp o' = reordered item bp o'.
Proof. destruct item as [i c l sg ch]. destruct l, bp; reflexivity. Qed.

Lemma toEntry_reordered (item : GridItem) (bp : Breakpoint) (o : string) (i : nat) :
  GridState.toEntry bp (reordered item bp o) i = GridState.toEntry bp item i.
Proof.
  unfold GridState.toEntry. rewrite getBp_reordered.
  destruct item; reflexivity.
Qed.

Lemma entries_of_reordered (bp : Breakpoint) (f : GridItem -> string)
    (lst : list GridItem) :
  forall start,
    GridState.mapIndexed (GridState.toEntry bp) start
      (map (fun item => reordered item bp (f item)) lst)
    = GridState.mapIndexed (GridState.toEntry bp) start lst.
Proof.
  induction lst as [| item r IH]; intros start; simpl; [reflexivity |].
  rewrite IH. f_equal. apply toEntry_reordered.
Qed.

Lemma id_reordered (item : GridItem) (bp : Breakpoint) (o : string) :
  id (reordered item bp o) = id item.
Proof. destruct item; reflexivity. Qed.

(** X1.  Reflowing a sibling list that was just reflowed at the same
    breakpoint changes nothing: the reflow is idempotent, for every
    list. *)
Theorem reflow_idempotent (lst : list GridItem) (bp : Breakpoint) :
  GridState.reflowOrders (GridState.reflowOrders lst bp) bp
  = GridState.reflowOrders lst bp.
Proof.
  rewrite (reflowOrders_as_map (GridState.reflowOrders lst bp)).
  assert (Hmap : orderMapOf (GridState.reflowOrders lst bp) bp = orderMapOf lst bp).
  { unfold orderMapOf, entriesOf. rewrite reflowOrders_as_map.
    rewrite entries_of_reordered. reflexivity. }
  rewrite Hmap. rewrite reflowOrders_as_map. rewrite map_map.
  apply map_ext. intros item.
  rewrite reordered_twice. unfold orderNumber. rewrite id_reordered. reflexivity.
Qed.

(** The orders the map holds lie between the first order given and
    the last. *)
Lemma setOrders_range (sorted : list GridState.SortEntry) :
  forall idx m x k,
    GridState.mapGet (GridState.setOrders sorted idx m) x = Some k ->
    GridState.mapGet m x = Some k
    \/ (idx + 1 <= k <= idx + List.length sorted)%nat.
Proof.
  induction sorted as [| e r IH]; intros idx m x k Hget; simpl in *; [auto |].
  apply IH in Hget. destruct Hget as [Hget | Hk]; [| right; lia].
  rewrite mapGet_mapSet in Hget.
  destruct (idEqb (GridState.e_id e) x); [| auto].
  inversion Hget; subst. right. lia.
Qed.

Lemma setOrders_defined (sorted : list GridState.SortEntry) (x : Q) :
  (exists e, In e sorted /\ idEqb (GridState.e_id e) x = true) ->
  forall idx m, GridState.mapGet (GridState.setOrders sorted idx m) x <> None.
Proof.
  induction sorted as [| e r IH]; intros (e0 & Hin & Hid) idx m; [contradiction |].
  simpl. destruct (existsb (fun e' => idEqb (GridState.e_id e') x) r) eqn:Hex.
  - apply IH. apply existsb_exists in Hex. exact Hex.
  - rewrite setOrders_miss.
    + rewrite mapGet_mapSet. destruct Hin as [<- | Hin].
      * rewrite Hid. discriminate.
      * exfalso. assert (existsb (fun e' => idEqb (GridState.e_id e') x) r = true).
        { apply existsb_exists. exists e0. auto. }
        congruence.
    + intros e' He'. destruct (idEqb (GridState.e_id e') x) eqn:E; [| reflexivity].
      exfalso. assert (existsb (fun e' => idEqb (GridState.e_id e') x) r = true).
      { apply existsb_exists. exists e'. auto. }
      congruence.
Qed.

Lemma entriesOf_length (lst : list GridItem) (bp : Breakpoint) :
  List.length (entriesOf lst bp) = List.length lst.
Proof.
  unfold entriesOf. rewrite <- (length_map GridState.e_index).
  rewrite entry_indices. apply length_seq.
Qed.

Lemma orderNumber_range (lst : list GridItem) (bp : Breakpoint) (item : GridItem) :
  In item lst ->
  (1 <= orderNumber (orderMapOf lst bp) item <= List.length lst)%nat.
Proof.
  intros Hin. unfold orderNumber, orderMapOf.
  set (sorted := GridState.sort GridState.compareEntries (entriesOf lst bp)).
  assert (Hperm : Permutation sorted (entriesOf lst bp)) by apply sort_perm.
  destruct (GridState.mapGet (GridState.setOrders sorted 0 []) (id item)) as [k |] eqn:Hget.
  - apply setOrders_range in Hget. destruct Hget as [Hget | Hk]; [discriminate |].
    rewrite (Permutation_length Hperm), entriesOf_length in Hk. lia.
  - exfalso. revert Hget. apply setOrders_defined.
    apply In_nth_error in Hin. destruct Hin as [i Hi].
    exists (GridState.toEntry bp item i). split.
    + apply (Permutation_in _ (Permutation_sym Hperm)).
      apply (nth_error_In _ i). apply reflow_position. exact Hi.
    + simpl. unfold idEqb. apply Qeq_bool_refl.
Qed.

(** X2.  For every sibling list, the reflow returns as many siblings,
    in the same places; each is the sibling it was, with only the
    order of its layout at the breakpoint replaced, by the decimal of
    a number between 1 and the number of siblings.  Its id, colour,
    sub-grid, children, its layouts at the other breakpoints and the
    other fields of its layout at the breakpoint are as before. *)
Theorem reflow_changes_only_order (lst : list GridItem) (bp : Breakpoint) :
  List.length (GridState.reflowOrders lst bp) = List.length lst
  /\ forall i item,
       nth_error lst i = Some item ->
       exists k,
         (1 <= k <= List.length lst)%nat
         /\ nth_error (GridState.reflowOrders lst bp) i
            = Some (mkGridItem (id item) (color item)
                      (setBp (layout item) bp
                         (mkItemLayout (colStart (getBp (layout item) bp))
                                       (colEnd (getBp (layout item) bp))
                                       (rowStart (getBp (layout item) bp))
                                       (rowEnd (getBp (layout item) bp))
                                       (colSpan (getBp (layout item) bp))
                                       (rowSpan (getBp (layout item) bp))
                                       (JS.StringOfNat k)))
                      (subGrid item) (children item)).
Proof.
  split.
  - rewrite reflowOrders_as_map. apply length_map.
  - intros i item Hi. exists (orderNumber (orderMapOf lst bp) item). split.
    + apply orderNumber_range. apply (nth_error_In _ _ Hi).
    + rewrite reflowOrders_as_map. erewrite map_nth_error by exact Hi. reflexivity.
Qed.

(** ** Undo and redo *)

(** X3.  Undo and redo are inverse to each other: where there is a
    state to redo, redo followed by undo returns the history as it
    was, and where there is a state to undo, undo followed by redo
    does. *)
Theorem undo_redo_inverse {T : Type} (sameRef : T -> T -> bool)
    (s : History.HistoryState T) :
  let step := History.historyReducer sameRef in
  (History.canRedo s = true -> step (step s History.REDO) History.UNDO = s)
  /\ (History.canUndo s = true -> step (step s History.UNDO) History.REDO = s).
Proof.
  destruct s as [past present future]. cbv zeta. split.
  - destruct future as [| next rest]; [discriminate |]. intros _. simpl.
    destruct (past ++ [present]) eqn:Hp.
    + exfalso. destruct past; discriminate.
    + rewrite <- Hp. rewrite last_last, removelast_last. reflexivity.
  - destruct past as [| a past]; [discriminate |]. intros _.
    cbn [History.historyReducer History.past History.present History.future].
    rewrite <- app_removelast_last by discriminate. reflexivity.
Qed.

Lemma undo_redo_inverse_witness :
  let step := History.historyReducer Nat.eqb in
  step (step sampleHistory2 History.REDO) History.UNDO = sampleHistory2
  /\ step (step sampleHistory2 History.UNDO) History.REDO = sampleHistory2.
Proof.
  destruct (undo_redo_inverse Nat.eqb sampleHistory2) as [H1 H2].
  exact (conj (H1 eq_refl) (H2 eq_refl)).
Defined.

(** X4.  [canUndo] and [canRedo] tell exactly when undo and redo
    change the history: undo returns the state it was given if and
    only if [canUndo] is false, and the same for redo; and undo and
    redo only move snapshots between the three parts, so that the
    number of snapshots in past and future together stays the same. *)
Theorem can_undo_redo_exact {T : Type} (sameRef : T -> T -> bool)
    (s : History.HistoryState T) :
  let step := History.historyReducer sameRef in
  (History.canUndo s = false <-> step s History.UNDO = s)
  /\ (History.canRedo s = false <-> step s History.REDO = s)
  /\ (List.length (History.past (step s History.UNDO))
      + List.length (History.future (step s History.UNDO))
      = List.length (History.past s) + List.length (History.future s))%nat
  /\ (List.length (History.past (step s History.REDO))
      + List.length (History.future (step s History.REDO))
      = List.length (History.past s) + List.length (History.future s))%nat.
Proof.
  destruct s as [past present future]. cbv zeta.
  split; [| split; [| split]].
  - destruct past as [| a past]; simpl.
    + split; reflexivity.
    + split; [discriminate |]. intros H.
      apply (f_equal (fun h => List.length (History.future h))) in H.
      simpl in H. lia.
  - destruct future as [| next rest]; simpl.
    + split; reflexivity.
    + split; [discriminate |]. intros H.
      apply (f_equal (fun h => List.length (History.future h))) in H.
      simpl in H. lia.
  - destruct past as [| a past]; [reflexivity |].
    cbn [History.historyReducer History.past History.present History.future].
    assert (Hl : S (List.length (removelast (a :: past))) = List.length (a :: past)).
    { rewrite (app_removelast_last a (l := a :: past)) at 2 by discriminate.
      rewrite length_app. simpl. lia. }
    simpl List.length in *. lia.
  - destruct future as [| next rest]; [reflexivity |]. simpl.
    rewrite length_app. simpl. lia.
Qed.

(** ** Clones and complete layouts *)

Lemma copyLayout_same (l : ItemLayout) : Grid.copyLayout l = l.
Proof. destruct l; reflexivity. Qed.

Lemma buildBp_getBp {A} (m : PerBreakpoint A) : buildBp (getBp m) = m.
Proof. destruct m; reflexivity. Qed.

Lemma cloneLayoutMap_same (l : LayoutMap) : Grid.cloneLayoutMap l = l.
Proof.
  unfold Grid.cloneLayoutMap. destruct l as [a b c d e f]. unfold buildBp. simpl.
  rewrite !copyLayout_same. reflexivity.
Qed.

Lemma copy_tracks_same (tracks : list Track) :
  map (fun t => mkTrack (trackId t) (value t) (unit t)) tracks = tracks.
Proof.
  induction tracks as [| t r IH]; simpl; [reflexivity |].
  rewrite IH. destruct t; reflexivity.
Qed.

Lemma cloneGridSettings_same (m : GridSettingsMap) : Grid.cloneGridSettings m = m.
Proof.
  unfold Grid.cloneGridSettings, buildBp. destruct m as [a b c d e f]. simpl.
  rewrite !copy_tracks_same.
  destruct a, b, c, d, e, f; reflexivity.
Qed.

(** X5.  A clone holds the values of the original: [cloneLayoutMap]
    returns a map with the same seven fields at each breakpoint, and
    [cloneGridSettings] a map with the same counts, gap and tracks
    (id, value and unit of each track, in the same order) at each
    breakpoint. *)
Theorem clones_hold_the_same_values (l : LayoutMap) (m : GridSettingsMap) :
  Grid.cloneLayoutMap l = l /\ Grid.cloneGridSettings m = m.
Proof.
  split; [apply cloneLayoutMap_same | apply cloneGridSettings_same].
Qed.

Lemma sanitize_complete (m : LayoutMap) :
  Grid.sanitizeLayoutMap (Some (completeLayoutMap m)) = m.
Proof.
  destruct m as [a b c d e f].
  destruct a, b, c, d, e, f; reflexivity.
Qed.

(** X6.  [sanitizeLayoutMap] returns a complete map of layouts as it
    is: when every field of every breakpoint is given, every field of
    the result is the given one. *)
Theorem sanitize_keeps_complete_map (m : LayoutMap) :
  Grid.sanitizeLayoutMap (Some (completeLayoutMap m)) = m.
Proof.
  destruct m as [a b c d e f].
  destruct a, b, c, d, e, f; reflexivity.
Qed.

(** ** Removing an item *)

Lemma removeLevel_clears (itemId : Q) (rec : GridItem -> option (list GridItem))
    (lst : list GridItem) :
  Forall (fun item =>
            idEqb (id item) itemId = false ->
            Tree.findInItem itemId (withChildren item (rec item)) = None) lst ->
  Tree.findItemRecursive (GridState.removeLevel itemId rec lst) itemId = None.
Proof.
  unfold Tree.findItemRecursive, GridState.removeLevel.
  induction 1 as [| item r Hitem _ IH]; [reflexivity |].
  cbn [GridState.filterMap].
  destruct (idEqb (id item) itemId) eqn:Hid; cbn [negb]; cbv iota.
  - exact IH.
  - cbn [Tree.firstSome]. rewrite (Hitem eq_refl). exact IH.
Qed.

Lemma removeChildren_clears (itemId : Q) (item : GridItem) :
  idEqb (id item) itemId = false ->
  Tree.findInItem itemId (withChildren item (GridState.removeChildren itemId item))
  = None.
Proof.
  induction item as [i c l sg | i c l sg kids IH] using Tree.GridItem_tree_ind;
    intros Hid; simpl in Hid; simpl; rewrite Hid.
  - reflexivity.
  - apply (removeLevel_clears itemId (GridState.removeChildren itemId) kids).
    exact IH.
Qed.

Lemma removeItem_clears (itemId : Q) (tree : list GridItem) :
  Tree.findItemRecursive (GridState.removeItem itemId tree) itemId = None.
Proof.
  unfold GridState.removeItem, GridState.removeRecursive.
  apply removeLevel_clears. apply Forall_forall.
  intros item _. apply removeChildren_clears.
Qed.

Lemma removeItem_missing (itemId : Q) (tree : list GridItem) :
  Tree.findItemRecursive tree itemId = None -> GridState.removeItem itemId tree = tree.
Proof.
  intros Hmiss. unfold GridState.removeItem, GridState.removeRecursive.
  apply (missing_level_same itemId (GridState.removeChildren itemId)
           (GridState.removeLevel itemId)); auto.
  intros lst Hl Hrec. apply removeLevel_same; assumption.
Qed.

(** X7.  After [removeItem] the id cannot be found anywhere in the
    tree, at any depth and however often it occurred; and removing
    the same id once more returns the tree as it is. *)
Theorem remove_clears_the_id (itemId : Q) (tree : list GridItem) :
  Tree.findItemRecursive (GridState.removeItem itemId tree) itemId = None
  /\ GridState.removeItem itemId (GridState.removeItem itemId tree)
     = GridState.removeItem itemId tree.
Proof.
  split; [apply removeItem_clears |].
  apply removeItem_missing. apply removeItem_clears.
Qed.

(** ** Operations addressed to an id *)

Lemma updateItemIn_missing (itemId : Q) (cb : GridItem -> GridItem) (item : GridItem) :
  Tree.findInItem itemId item = None -> GridState.updateItemIn itemId cb item = item.
Proof.
  induction item as [i c l sg | i c l sg kids IH] using Tree.GridItem_tree_ind;
    intros Hmiss; simpl in *.
  - destruct (idEqb i itemId); [discriminate | reflexivity].
  - destruct (idEqb i itemId); [discriminate |].
    do 2 f_equal. rewrite firstSome_none in Hmiss.
    rewrite <- (map_id kids) at 2. apply map_ext_in.
    intros k Hk. rewrite Forall_forall in IH, Hmiss. apply IH; auto.
Qed.

Lemma updateItemRecursive_missing (itemId : Q) (cb : GridItem -> GridItem)
    (tree : list GridItem) :
  Tree.findItemRecursive tree itemId = None ->
  GridState.updateItemRecursive tree itemId cb = tree.
Proof.
  unfold Tree.findItemRecursive. rewrite firstSome_none. intros Hmiss.
  unfold GridState.updateItemRecursive.
  rewrite <- (map_id tree) at 2. apply map_ext_in.
  intros k Hk. rewrite Forall_forall in Hmiss. apply updateItemIn_missing; auto.
Qed.

(** X8.  An operation addressed to an id (not zero) that no item of
    the tree carries changes nothing: [addItem] under such a parent id
    returns the tree without the new item, [convertItemToGrid] and
    [clearItems] return the tree, and [updateGridSetting] for such a
    target returns the snapshot. *)
Theorem missing_target_changes_nothing (tree : list GridItem) (target : Q)
    (bp : Breakpoint) (now loadTime : Z) (random : Q)
    (freshId : nat -> string) (update : SettingUpdate) (settings : GridSettingsMap) :
  Tree.findItemRecursive tree target = None ->
  GridState.noParent (Some target) = false ->
  GridState.addItem bp now random (Some target) tree = tree
  /\ GridState.convertItemToGrid loadTime target tree = tree
  /\ GridState.clearItems true (Some target) tree = tree
  /\ GridState.updateGridSetting bp freshId update (Some target)
       (GridState.mkSnapshot tree settings)
     = GridState.mkSnapshot tree settings.
Proof.
  intros Hmiss Hparent. repeat split.
  - unfold GridState.addItem. rewrite Hparent.
    apply updateItemRecursive_missing. exact Hmiss.
  - apply updateItemRecursive_missing. exact Hmiss.
  - unfold GridState.clearItems. rewrite Hparent.
    apply updateItemRecursive_missing. exact Hmiss.
  - unfold GridState.updateGridSetting. rewrite Hparent. simpl.
    rewrite updateItemRecursive_missing by exact Hmiss. reflexivity.
Qed.

Lemma missing_target_changes_nothing_witness :
  GridState.addItem md 100 (1 # 2) (Some 9) sampleTree = sampleTree
  /\ GridState.convertItemToGrid 0 9 sampleTree = sampleTree.
Proof.
  pose proof (missing_target_changes_nothing sampleTree 9 md 100 0 (1 # 2)
                sampleFreshId (set_cols 3) sampleSettings eq_refl eq_refl)
    as (H1 & H2 & _).
  exact (conj H1 H2).
Defined.

(** [updateItemRecursive] with a callback that keeps the id and that
    changes nothing when applied twice. *)
Lemma updateItemIn_twice (itemId : Q) (cb : GridItem -> GridItem) :
  (forall x, id (cb x) = id x) -> (forall x, cb (cb x) = cb x) ->
  forall item,
    GridState.updateItemIn itemId cb (GridState.updateItemIn itemId cb item)
    = GridState.updateItemIn itemId cb item.
Proof.
  intros Hid Hcb.
  induction item as [i c l sg | i c l sg kids IH] using Tree.GridItem_tree_ind.
  - simpl. destruct (idEqb i itemId) eqn:E.
    + specialize (Hid (mkGridItem i c l sg None)). simpl in Hid.
      destruct (cb (mkGridItem i c l sg None)) as [i' c' l' sg' ch'] eqn:Hc.
      simpl in Hid. subst i'. cbn [GridState.updateItemIn]. rewrite E.
      rewrite <- Hc. apply Hcb.
    + simpl. rewrite E. reflexivity.
  - simpl. destruct (idEqb i itemId) eqn:E.
    + specialize (Hid (mkGridItem i c l sg (Some kids))). simpl in Hid.
      destruct (cb (mkGridItem i c l sg (Some kids))) as [i' c' l' sg' ch'] eqn:Hc.
      simpl in Hid. subst i'. cbn [GridState.updateItemIn]. rewrite E.
      rewrite <- Hc. apply Hcb.
    + cbn [GridState.updateItemIn]. rewrite E. do 2 f_equal.
      rewrite map_map. apply map_ext_in. intros k Hk.
      rewrite Forall_forall in IH. apply IH. exact Hk.
Qed.

(** X9.  [convertItemToGrid] gives every root item that carries the
    id the default settings as sub-grid and an empty list of children,
    whatever children it had; it leaves the root items with another id
    and without children as they are; and converting once more
    changes nothing. *)
Theorem convert_gives_empty_grid (loadTime : Z) (itemId : Q) (tree : list GridItem) :
  (forall i item,
      nth_error tree i = Some item ->
      nth_error (GridState.convertItemToGrid loadTime itemId tree) i
      = if idEqb (id item) itemId
        then Some (mkGridItem (id item) (color item) (layout item)
                     (Some (DEFAULT_GRID_SETTINGS loadTime)) (Some []))
        else match children item with
             | None => Some item
             | Some kids =>
                 Some (withChildren item
                         (Some (GridState.convertItemToGrid loadTime itemId kids)))
             end)
  /\ GridState.convertItemToGrid loadTime itemId
       (GridState.convertItemToGrid loadTime itemId tree)
     = GridState.convertItemToGrid loadTime itemId tree.
Proof.
  split.
  - intros i item Hi. unfold GridState.convertItemToGrid at 1.
    unfold GridState.updateItemRecursive. erewrite map_nth_error by exact Hi.
    destruct item as [i0 c l sg [kids |]]; simpl; destruct (idEqb i0 itemId);
      try reflexivity;
      rewrite cloneGridSettings_same; reflexivity.
  - unfold GridState.convertItemToGrid, GridState.updateItemRecursive.
    rewrite map_map. apply map_ext. intros item.
    apply updateItemIn_twice; intros x; reflexivity.
Qed.

(** ** Sibling lists below the root *)

Section AlongPath.

(** A function on sibling lists that, on a list that does not hold
    the id, calls itself on the children of every member. *)
Variable itemId : Q.
Variable F : list GridItem -> list GridItem.
Hypothesis F_descends :
  forall lst,
    GridState.hasId itemId lst = false ->
    F lst = map (fun item =>
                   match children item with
                   | Some kids => withChildren item (Some (F kids))
                   | None => item
                   end)
                lst.

(** Where the search goes down a path, the result holds, at the same
    path, the result for the sibling list the path reaches. *)
Lemma siblingsAt_descends (path : list nat) :
  forall tree lst,
    siblingsAt path tree = Some lst ->
    descends itemId path tree = true ->
    siblingsAt path (F tree) = Some (F lst).
Proof.
  induction path as [| i rest IH]; intros tree lst Hs Hd.
  - simpl in *. inversion Hs. reflexivity.
  - cbn [siblingsAt descends] in *.
    apply andb_true_iff in Hd. destruct Hd as [Hno Hd].
    apply negb_true_iff in Hno. rewrite (F_descends tree Hno).
    rewrite nth_error_map.
    destruct (nth_error tree i) as [item |]; [| discriminate].
    cbn [option_map].
    destruct (children item) as [kids |] eqn:Hk; [| discriminate].
    cbn [withChildren children]. apply IH; assumption.
Qed.

End AlongPath.

Lemma hasId_findFirst {B} (itemId : Q) (f : GridItem -> B) (lst : list GridItem) :
  GridState.hasId itemId lst = false ->
  GridState.findFirst (fun i => idEqb (id i) itemId) f lst = None.
Proof.
  unfold GridState.hasId. induction lst as [| item r IH]; simpl; [reflexivity |].
  destruct (idEqb (id item) itemId); [discriminate | exact IH].
Qed.

Lemma mutateLayout_descends (itemId : Q) (bp : Breakpoint)
    (cb : ItemLayout -> ItemLayout) (path : list nat) (tree lst : list GridItem) :
  siblingsAt path tree = Some lst ->
  descends itemId path tree = true ->
  siblingsAt path (GridState.mutateLayout itemId bp cb tree)
  = Some (GridState.mutateLayout itemId bp cb lst).
Proof.
  apply (siblingsAt_descends itemId (GridState.mutateLayout itemId bp cb)).
  intros l Hl. unfold GridState.mutateLayout.
  rewrite updateAndReflow_unfold, Hl. reflexivity.
Qed.

Lemma duplicateItem_descends (bp : Breakpoint) (newId itemId : Q)
    (path : list nat) (tree lst : list GridItem) :
  siblingsAt path tree = Some lst ->
  descends itemId path tree = true ->
  siblingsAt path (GridState.duplicateItem bp newId itemId tree)
  = Some (GridState.duplicateItem bp newId itemId lst).
Proof.
  apply (siblingsAt_descends itemId (GridState.duplicateItem bp newId itemId)).
  intros l Hl. unfold GridState.duplicateItem.
  rewrite duplicateRecursive_unfold, (hasId_findFirst _ _ _ Hl). reflexivity.
Qed.

(** ** Duplicating an item *)

Lemma findFirst_map {B} (p : GridItem -> bool) (f : GridItem -> B)
    (lst : list GridItem) :
  GridState.findFirst p f lst
  = option_map f (GridState.findFirst p (fun item => item) lst).
Proof.
  induction lst as [| item r IH]; simpl; [reflexivity |].
  destruct (p item); [reflexivity | exact IH].
Qed.

Lemma duplicateRecursive_missing (bp : Breakpoint) (newId itemId : Q)
    (lst : list GridItem) :
  Tree.findItemRecursive lst itemId = None ->
  GridState.duplicateRecursive bp newId itemId lst = lst.
Proof.
  intros Hmiss. unfold GridState.duplicateRecursive.
  apply (missing_level_same itemId
           (GridState.duplicateChildren bp newId itemId)
           (GridState.duplicateLevel bp newId itemId)); auto.
  intros l Hl Hrec. unfold GridState.duplicateLevel.
  rewrite (missing_findFirst _ _ _ Hl). apply rebuild_same. exact Hrec.
Qed.

(** X10.  In the sibling list that holds the id, at the root or at
    any depth below it (the first such list on the way down),
    [duplicateItem] appends a clone of the first sibling with the id
    at the end of that list (not behind the original) and reflows the
    list.  The clone has the new id and the colour, the layouts and
    the sub-grid of the original; it has children exactly when the
    original has, and when the id does not occur below the original,
    they are the children of the original as they are, with the ids
    they have in the original. *)
Theorem duplicate_appends_clone (bp : Breakpoint) (newId itemId : Q)
    (tree : list GridItem) (path : list nat) (lst : list GridItem) (item : GridItem) :
  siblingsAt path tree = Some lst ->
  descends itemId path tree = true ->
  firstWithId itemId lst = Some item ->
  exists clonedChildren,
    siblingsAt path (GridState.duplicateItem bp newId itemId tree)
    = Some (GridState.reflowOrders
              (lst ++ [mkGridItem newId (color item) (layout item) (subGrid item)
                                  clonedChildren])
              bp)
    /\ (clonedChildren = None <-> children item = None)
    /\ (forall kids,
          children item = Some kids ->
          Tree.findItemRecursive kids itemId = None ->
          clonedChildren = Some kids).
Proof.
  intros Hs Hd Hfirst.
  rewrite (duplicateItem_descends bp newId itemId path tree lst Hs Hd).
  unfold GridState.duplicateItem. rewrite duplicateRecursive_unfold.
  rewrite findFirst_map. unfold firstWithId in Hfirst. rewrite Hfirst.
  cbn [option_map]. rewrite cloneLayoutMap_same.
  eexists. split; [reflexivity |]. split.
  - destruct (children item); split; intros H; solve [discriminate H | reflexivity].
  - intros kids Hk Hbelow. rewrite Hk.
    rewrite duplicateRecursive_missing by exact Hbelow. reflexivity.
Qed.

Lemma duplicate_appends_clone_witness :
  exists clonedChildren,
    siblingsAt [1%nat] (GridState.duplicateItem xs 50 4 sampleTree)
    = Some (GridState.reflowOrders
              ([ sampleLeaf 3 "1" "1";
                 mkGridItem 4 "bg-pink-500" Grid.createLayoutMap
                            (Some sampleSettings) (Some []) ]
               ++ [mkGridItem 50 "bg-pink-500" Grid.createLayoutMap
                              (Some sampleSettings) clonedChildren])
              xs)
    /\ clonedChildren = Some [].
Proof.
  destruct (duplicate_appends_clone xs 50 4 sampleTree [1%nat]
              [ sampleLeaf 3 "1" "1";
                mkGridItem 4 "bg-pink-500" Grid.createLayoutMap
                           (Some sampleSettings) (Some []) ]
              (mkGridItem 4 "bg-pink-500" Grid.createLayoutMap
                          (Some sampleSettings) (Some []))
              eq_refl eq_refl eq_refl) as (cc & Hdup & _ & Hkids).
  exists cc. split; [exact Hdup |]. apply (Hkids [] eq_refl eq_refl).
Defined.

(** ** The parent of an item *)

Lemma findLevel_some (itemId : Q) (rec : GridItem -> option GridItem)
    (parent : option GridItem) (lst : list GridItem) (p : GridItem) :
  Tree.findLevel itemId rec parent lst = Some p ->
  (parent = Some p /\ GridState.hasId itemId lst = true)
  \/ exists item, In item lst /\ rec item = Some p.
Proof.
  induction lst as [| item r IH]; simpl; [discriminate |].
  destruct (idEqb (id item) itemId) eqn:Hid.
  - intros H. left. auto.
  - destruct (rec item) as [found |] eqn:Hrec.
    + intros H. inversion H; subst. right. exists item. auto.
    + intros H. destruct (IH H) as [[Hp Hh] | (x & Hx & Hr)].
      * left. auto.
      * right. exists x. auto.
Qed.

Lemma findBelow_sound (itemId : Q) (item : GridItem) :
  forall p,
    Tree.findBelow itemId item = Some p ->
    exists kids, children p = Some kids /\ GridState.hasId itemId kids = true.
Proof.
  induction item as [i c l sg | i c l sg kids IH] using Tree.GridItem_tree_ind;
    intros p Hp; simpl in Hp; [discriminate |].
  apply findLevel_some in Hp. destruct Hp as [[Hp Hh] | (k & Hk & Hr)].
  - inversion Hp; subst. exists kids. auto.
  - rewrite Forall_forall in IH. apply (IH k Hk). exact Hr.
Qed.

(** X11.  When [findParent] returns an item, that item has children
    and one of them carries the id; and when the first root item
    carries the id, [findParent] returns nothing. *)
Theorem findParent_sound (tree : list GridItem) (itemId : Q) :
  (forall p,
      Tree.findParent tree itemId = Some p ->
      exists kids, children p = Some kids /\ GridState.hasId itemId kids = true)
  /\ (forall first rest,
        tree = first :: rest -> idEqb (id first) itemId = true ->
        Tree.findParent tree itemId = None).
Proof.
  split.
  - intros p Hp. unfold Tree.findParent in Hp.
    apply findLevel_some in Hp. destruct Hp as [[Hp _] | (k & Hk & Hr)];
      [discriminate |].
    apply (findBelow_sound itemId k). exact Hr.
  - intros first rest -> Hid. unfold Tree.findParent. simpl. rewrite Hid. reflexivity.
Qed.

Lemma findParent_sound_witness :
  exists p kids,
    Tree.findParent sampleTree 3 = Some p
    /\ id p = 2 /\ children p = Some kids /\ GridState.hasId 3 kids = true.
Proof.
  destruct (proj1 (findParent_sound sampleTree 3) _ eq_refl) as (kids & Hk & Hh).
  eexists. exists kids. split; [reflexivity | split; [reflexivity | split]].
  - exact Hk.
  - exact Hh.
Defined.

(** ** The orders of a reflow, for pairwise different ids *)

Lemma reflow_order_at (lst : list GridItem) (bp : Breakpoint) (i k : nat)
    (item : GridItem) :
  distinctIds lst = true ->
  nth_error lst i = Some item ->
  nth_error (GridState.sort GridState.compareEntries (entriesOf lst bp)) k
  = Some (GridState.toEntry bp item i) ->
  nth_error (GridState.reflowOrders lst bp) i
  = Some (reordered item bp (JS.StringOfNat (k + 1))).
Proof.
  intros Hd Hi Hk. rewrite reflowOrders_as_map.
  erewrite map_nth_error by exact Hi. do 3 f_equal.
  unfold orderNumber, orderMapOf.
  set (sorted := GridState.sort GridState.compareEntries (entriesOf lst bp)) in *.
  assert (Hu : uniqueIds sorted).
  { apply (uniqueIds_perm (entriesOf lst bp)).
    - apply Permutation_sym. apply sort_perm.
    - apply entries_unique. exact Hd. }
  pose proof (setOrders_hit sorted Hu _ _ 0%nat [] Hk) as Hget.
  simpl GridState.e_id in Hget. rewrite Hget. reflexivity.
Qed.

Lemma orderAt_reordered (item : GridItem) (bp : Breakpoint) (o : string) :
  orderAt bp (reordered item bp o) = o.
Proof. unfold orderAt. rewrite getBp_reordered. reflexivity. Qed.

Lemma entry_of_position (lst : list GridItem) (bp : Breakpoint)
    (e : GridState.SortEntry) :
  In e (entriesOf lst bp) ->
  exists item,
    nth_error lst (GridState.e_index e) = Some item
    /\ e = GridState.toEntry bp item (GridState.e_index e).
Proof.
  intros He. apply In_nth_error in He. destruct He as [i Hi].
  unfold entriesOf in Hi. rewrite nth_mapIndexed in Hi.
  destruct (nth_error lst i) as [item |] eqn:Hx; [| discriminate].
  inversion Hi; subst. simpl. exists item. auto.
Qed.

Lemma map_by_position {A} (f : A -> string) (l : list A) :
  forall start,
    (forall k a, nth_error l k = Some a -> f a = JS.StringOfNat (start + k)) ->
    map f l = map JS.StringOfNat (seq start (List.length l)).
Proof.
  induction l as [| a r IH]; intros start H; simpl; [reflexivity |].
  f_equal.
  - rewrite (H 0%nat a eq_refl). rewrite Nat.add_0_r. reflexivity.
  - apply IH. intros k x Hk. rewrite (H (S k) x Hk). f_equal. lia.
Qed.

Lemma map_nth_positions (O : list string) :
  map (fun i => nth i O "") (seq 0 (List.length O)) = O.
Proof.
  induction O as [| o r IH]; simpl; [reflexivity |].
  f_equal. rewrite <- seq_shift, map_map. exact IH.
Qed.

(** X12.  For a sibling list with pairwise different ids, the orders
    the reflow writes are the decimals of 1, 2, ..., n, each of them
    once: no order is missing and none is given twice. *)
Theorem reflow_orders_are_one_to_n (lst : list GridItem) (bp : Breakpoint) :
  distinctIds lst = true ->
  Permutation (map (orderAt bp) (GridState.reflowOrders lst bp))
              (map JS.StringOfNat (seq 1 (List.length lst))).
Proof.
  intros Hd.
  set (O := map (orderAt bp) (GridState.reflowOrders lst bp)).
  set (sorted := GridState.sort GridState.compareEntries (entriesOf lst bp)).
  assert (Hperm : Permutation sorted (entriesOf lst bp)) by apply sort_perm.
  assert (HO : List.length O = List.length lst).
  { unfold O. rewrite length_map, reflowOrders_as_map. apply length_map. }
  assert (Hsorted : map (fun e => nth (GridState.e_index e) O "") sorted
                    = map JS.StringOfNat (seq 1 (List.length sorted))).
  { apply map_by_position. intros k e Hk.
    assert (He : In e (entriesOf lst bp)).
    { apply (Permutation_in _ Hperm). apply (nth_error_In _ _ Hk). }
    destruct (entry_of_position lst bp e He) as (item & Hi & Heq).
    rewrite Heq in Hk.
    pose proof (reflow_order_at lst bp _ k item Hd Hi Hk) as Hr.
    apply (map_nth_error (orderAt bp)) in Hr. fold O in Hr.
    rewrite orderAt_reordered in Hr.
    rewrite (nth_error_nth _ _ "" Hr). f_equal. lia. }
  rewrite (Permutation_length Hperm), entriesOf_length in Hsorted.
  rewrite <- Hsorted.
  rewrite (Permutation_map (fun e => nth (GridState.e_index e) O "") Hperm).
  rewrite <- (map_map GridState.e_index (fun i => nth i O "")).
  unfold entriesOf. rewrite entry_indices. rewrite <- HO.
  rewrite map_nth_positions. reflexivity.
Qed.

Lemma reflow_orders_are_one_to_n_witness :
  Permutation (map (orderAt xs) (GridState.reflowOrders exampleSiblings xs))
              ["1"; "2"; "3"].
Proof.
  exact (reflow_orders_are_one_to_n exampleSiblings xs eq_refl).
Defined.

(** ** A new root item comes last *)

Lemma mapIndexed_app {A B} (f : A -> nat -> B) (a b : list A) :
  forall start,
    GridState.mapIndexed f start (a ++ b)
    = GridState.mapIndexed f start a
      ++ GridState.mapIndexed f (start + List.length a) b.
Proof.
  induction a as [| x r IH]; intros start; simpl.
  - rewrite Nat.add_0_r. reflexivity.
  - rewrite IH. rewrite Nat.add_succ_r. reflexivity.
Qed.

Lemma before_an_auto_entry (x e : GridState.SortEntry) :
  validEntry x ->
  GridState.e_row e = JS.PosInf -> GridState.e_col e = JS.PosInf ->
  (GridState.e_index x < GridState.e_index e)%nat ->
  entryBefore x e = true.
Proof.
  intros [Hr Hc] He_row He_col Hidx. apply entryBefore_iff.
  rewrite He_row, He_col.
  destruct (GridState.e_row x) as [| |q|]; simpl in *; try discriminate; auto.
  right. split; [reflexivity |].
  destruct (GridState.e_col x) as [| |q|]; simpl in *; try discriminate; auto.
Qed.

Lemma distinctIds_app_one (lst : list GridItem) (item : GridItem) :
  distinctIds lst = true ->
  existsb (fun it => idEqb (id it) (id item)) lst = false ->
  distinctIds (lst ++ [item]) = true.
Proof.
  induction lst as [| a r IH]; intros Hd Hnew; simpl in *; [reflexivity |].
  apply andb_true_iff in Hd. destruct Hd as [Ha Hr].
  apply orb_false_iff in Hnew. destruct Hnew as [Hai Hri].
  rewrite IH by assumption. rewrite andb_true_r.
  rewrite existsb_app. apply negb_true_iff in Ha. rewrite Ha. simpl.
  rewrite orb_false_r. rewrite Hai. reflexivity.
Qed.

(** X13.  When the ids of the root items are pairwise different and
    none is the id of the new item, [addItem] without a parent
    appends the new item to the root list, and the new item, whose
    positions are all auto, gets the last order: the decimal of the
    number of root items after the addition. *)
Theorem added_root_item_comes_last (bp : Breakpoint) (now : Z) (random : Q)
    (prev : list GridItem) :
  distinctIds prev = true ->
  existsb (fun it => idEqb (id it) (inject_Z now)) prev = false ->
  List.length (GridState.addItem bp now random None prev) = S (List.length prev)
  /\ nth_error (GridState.addItem bp now random None prev) (List.length prev)
     = Some (reordered (newItemOf now random) bp
               (JS.StringOfNat (List.length prev + 1))).
Proof.
  intros Hd Hnew. unfold GridState.addItem. fold (newItemOf now random).
  set (new := newItemOf now random).
  set (all := prev ++ [new]).
  assert (Hall : distinctIds all = true) by (apply distinctIds_app_one; assumption).
  assert (Hi : nth_error all (List.length prev) = Some new).
  { unfold all. rewrite nth_error_app2 by lia. rewrite Nat.sub_diag. reflexivity. }
  split.
  - rewrite reflowOrders_as_map, length_map. unfold all. rewrite length_app. simpl. lia.
  - apply reflow_order_at; auto.
    pose proof (rank_is_sorted_position all bp (List.length prev) new
                  (GridState.sort GridState.compareEntries (entriesOf all bp))
                  Hi (sort_perm _ _) (sorted_entries all bp)) as Hpos.
    assert (Hrank : rank all bp (List.length prev) = List.length prev).
    { unfold rank. rewrite (reflow_position all bp _ new Hi).
      unfold entriesOf, all. rewrite mapIndexed_app. simpl.
      unfold countBefore. rewrite filter_app, length_app. simpl.
      rewrite entryBefore_irrefl. simpl. rewrite Nat.add_0_r.
      rewrite forallb_filter_id.
      - rewrite <- (length_map GridState.e_index), entry_indices. apply length_seq.
      - apply forallb_forall. intros x Hx.
        apply before_an_auto_entry.
        + pose proof (entries_valid bp prev) as Hv. rewrite Forall_forall in Hv.
          apply Hv. exact Hx.
        + unfold new, newItemOf. simpl. rewrite createLayoutMap_default. reflexivity.
        + unfold new, newItemOf. simpl. rewrite createLayoutMap_default. reflexivity.
        + simpl. assert (In (GridState.e_index x) (seq 0 (List.length prev))) as Hin.
          { rewrite <- (entry_indices bp prev 0). apply in_map. exact Hx. }
          apply in_seq in Hin. lia. }
    rewrite Hrank in Hpos. exact Hpos.
Qed.

Lemma added_root_item_comes_last_witness :
  nth_error (GridState.addItem xs 100 0 None exampleSiblings) 3
  = Some (reordered (newItemOf 100 0) xs "4").
Proof.
  exact (proj2 (added_root_item_comes_last xs 100 0 exampleSiblings eq_refl eq_refl)).
Defined.

(** ** Updating a layout field *)

Lemma storedSpan_atLeastOne (value : string) : atLeastOne (storedSpan value).
Proof.
  unfold storedSpan, atLeastOne.
  destruct (JS.isNaN (JS.Number value)) eqn:Hn; simpl.
  - split; reflexivity.
  - destruct (JS.ltb (JS.Number value) JS.one) eqn:Hl; auto.
Qed.

Lemma mutateLayout_at_level (itemId : Q) (bp : Breakpoint)
    (cb : ItemLayout -> ItemLayout) (lst : list GridItem) (i : nat) (item : GridItem) :
  GridState.hasId itemId lst = true ->
  nth_error lst i = Some item ->
  exists k,
    (1 <= k <= List.length lst)%nat
    /\ nth_error (GridState.mutateLayout itemId bp cb lst) i
       = Some (reordered
                 (if idEqb (id item) itemId
                  then withLayoutAt item bp (cb (getBp (layout item) bp))
                  else item)
                 bp (JS.StringOfNat k)).
Proof.
  intros Hhas Hi.
  unfold GridState.mutateLayout. rewrite updateAndReflow_unfold. rewrite Hhas.
  set (updated := map _ lst).
  assert (Hu : nth_error updated i
               = Some (if idEqb (id item) itemId
                       then withLayoutAt item bp (cb (getBp (layout item) bp))
                       else item)).
  { unfold updated. erewrite map_nth_error by exact Hi.
    rewrite copyLayout_same. destruct (idEqb (id item) itemId); reflexivity. }
  exists (orderNumber (orderMapOf updated bp)
            (if idEqb (id item) itemId
             then withLayoutAt item bp (cb (getBp (layout item) bp))
             else item)).
  split.
  - replace (List.length lst) with (List.length updated)
      by (unfold updated; apply length_map).
    apply orderNumber_range. apply (nth_error_In _ _ Hu).
  - rewrite reflowOrders_as_map. erewrite map_nth_error by exact Hu. reflexivity.
Qed.

(** X14.  In the sibling list that holds the id, at the root or at
    any depth below it (the first such list on the way down),
    [updateItemLayout] changes the layout at the active breakpoint of
    the siblings with the id, and of the other siblings only the
    order; the list keeps its length.  A span field is stored as a
    number that is at least 1: the number the input reads as, or 1
    when the input is not a number or is below 1.  A position or
    order field is stored as ["auto"] when the input is empty or
    ["auto"], and as the input otherwise; it is never stored
    empty. *)
Theorem updateItemLayout_stores (bp : Breakpoint) (itemId : Q) (field : LayoutField)
    (value : string) (tree : list GridItem) (path : list nat)
    (lst : list GridItem) (i : nat) (item : GridItem) :
  siblingsAt path tree = Some lst ->
  descends itemId path tree = true ->
  GridState.hasId itemId lst = true ->
  nth_error lst i = Some item ->
  (exists updated k,
      siblingsAt path (GridState.updateItemLayout bp itemId field value tree)
      = Some updated
      /\ List.length updated = List.length lst
      /\ (1 <= k <= List.length lst)%nat
      /\ nth_error updated i
         = Some (reordered
                   (if idEqb (id item) itemId
                    then withLayoutAt item bp
                           (updatedLayout (getBp (layout item) bp) field value)
                    else item)
                   bp (JS.StringOfNat k)))
  /\ atLeastOne (storedSpan value)
  /\ (storedSpan value = JS.Number value \/ storedSpan value = JS.one)
  /\ storedString value <> ""
  /\ (Grid.isAuto value = true -> storedString value = "auto")
  /\ (Grid.isAuto value = false -> storedString value = value).
Proof.
  intros Hs Hd Hhas Hi. split; [| split; [| split; [| split; [| split]]]].
  - unfold GridState.updateItemLayout.
    set (cb := fun layout : ItemLayout =>
                 match field with
                 | f_colSpan | f_rowSpan =>
                     GridState.setSpanField layout field
                       (if JS.isNaN (JS.Number value) || JS.ltb (JS.Number value) JS.one
                        then JS.one else JS.Number value)
                 | _ =>
                     GridState.setStringField layout field
                       (if String.eqb value "" || String.eqb value "auto"
                        then "auto" else value)
                 end).
    rewrite (mutateLayout_descends itemId bp cb path tree lst Hs Hd).
    destruct (mutateLayout_at_level itemId bp cb lst i item Hhas Hi) as (k & Hk & Hn).
    exists (GridState.mutateLayout itemId bp cb lst), k.
    split; [reflexivity |]. split; [| split; [exact Hk | exact Hn]].
    unfold GridState.mutateLayout. rewrite updateAndReflow_unfold, Hhas.
    rewrite reflowOrders_as_map, !length_map. reflexivity.
  - apply storedSpan_atLeastOne.
  - unfold storedSpan.
    destruct (JS.isNaN (JS.Number value) || JS.ltb (JS.Number value) JS.one); auto.
  - unfold storedString.
    destruct (String.eqb value "") eqn:He; simpl; [discriminate |].
    destruct (String.eqb value "auto"); [discriminate |].
    intros H. rewrite H in He. discriminate.
  - unfold storedString, Grid.isAuto. intros H. rewrite H. reflexivity.
  - unfold storedString, Grid.isAuto. intros H. rewrite H. reflexivity.
Qed.

Lemma updateItemLayout_stores_witness :
  exists updated k,
    siblingsAt [1%nat] (GridState.updateItemLayout xs 3 f_colSpan "0" sampleTree)
    = Some updated
    /\ nth_error updated 0
       = Some (reordered
                 (withLayoutAt (sampleLeaf 3 "1" "1") xs
                    (updatedLayout (getBp (layout (sampleLeaf 3 "1" "1")) xs)
                                   f_colSpan "0"))
                 xs (JS.StringOfNat k)).
Proof.
  destruct (proj1 (updateItemLayout_stores xs 3 f_colSpan "0" sampleTree [1%nat]
                     [ sampleLeaf 3 "1" "1";
                       mkGridItem 4 "bg-pink-500" Grid.createLayoutMap
                                  (Some sampleSettings) (Some []) ]
                     0 (sampleLeaf 3 "1" "1") eq_refl eq_refl eq_refl eq_refl))
    as (updated & k & Hu & _ & _ & Hk).
  exists updated, k. split; [exact Hu | exact Hk].
Defined.

(** X15.  The effective span is never below 1: on either axis,
    [getSpan] is a number that is at least 1 whenever the start and
    the end of the axis are both explicit, and whenever the explicit
    span of the axis is at least 1 (as it is in an empty layout and
    after every update of a span field). *)
Theorem effective_span_at_least_one (l : ItemLayout) (axis : Axis) :
  (Grid.isAuto (startOf l axis) = false /\ Grid.isAuto (endOf l axis) = false)
  \/ atLeastOne (spanOf l axis) ->
  atLeastOne (Grid.getSpan l axis).
Proof.
  intros H. unfold Grid.getSpan.
  replace (match axis with col => colStart l | row => rowStart l end)
    with (startOf l axis) by (destruct axis; reflexivity).
  replace (match axis with col => colEnd l | row => rowEnd l end)
    with (endOf l axis) by (destruct axis; reflexivity).
  replace (match axis with col => colSpan l | row => rowSpan l end)
    with (spanOf l axis) by (destruct axis; reflexivity).
  destruct (negb (Grid.isAuto (startOf l axis)) && negb (Grid.isAuto (endOf l axis)))
    eqn:Hexplicit.
  - set (span := JS.sub _ _).
    destruct (JS.isNaN span) eqn:Hn; simpl.
    + split; reflexivity.
    + destruct (JS.ltb span JS.one) eqn:Hl; [split; reflexivity | split; assumption].
  - destruct H as [[Hs He] | H]; [| exact H].
    rewrite Hs, He in Hexplicit. discriminate.
Qed.

Lemma effective_span_at_least_one_witness :
  atLeastOne (Grid.getSpan sampleLayout col)
  /\ atLeastOne (Grid.getSpan Grid.createEmptyLayout row).
Proof.
  split.
  - apply effective_span_at_least_one. left. split; reflexivity.
  - apply effective_span_at_least_one. right. split; reflexivity.
Defined.

(** ** Settings: one breakpoint at a time *)

Lemma forallb_firstn {A} (p : A -> bool) (n : nat) (l : list A) :
  forallb p l = true -> forallb p (firstn n l) = true.
Proof.
  revert n. induction l as [| a r IH]; intros n H; destruct n; simpl in *; auto.
  apply andb_true_iff in H. destruct H as [Ha Hr]. rewrite Ha. simpl. auto.
Qed.

Lemma resized_standard (freshId : nat -> string) (tracks : list Track) (n : Z) :
  Grid.isStandardTracks tracks = true ->
  Grid.isStandardTracks (resized freshId tracks n) = true.
Proof.
  intros Hstd. unfold resized, GridState.resizeTracks.
  destruct (n >? Z.of_nat (List.length tracks))%Z.
  - unfold Grid.isStandardTracks in *. rewrite forallb_app, Hstd. simpl.
    apply forallb_forall. intros t Ht. unfold GridState.addedTracks in Ht.
    apply in_map_iff in Ht. destruct Ht as (k & <- & _). reflexivity.
  - destruct (n <? Z.of_nat (List.length tracks))%Z; [| exact Hstd].
    unfold GridState.sliceTo.
    destruct (n <? 0)%Z; apply forallb_firstn; exact Hstd.
Qed.

(** X16.  A settings update touches the active breakpoint only: the
    settings of every other breakpoint are as before; an update of
    the root grid leaves the items as they are, and an update of a
    sub-grid leaves the root settings as they are. *)
Theorem settings_update_is_local (bp other : Breakpoint) (freshId : nat -> string)
    (update : SettingUpdate) (target : Q) (state : GridState.Snapshot) :
  (bp <> other ->
   getBp (GridState.updateSettings bp freshId update (GridState.gridSettings state)) other
   = getBp (GridState.gridSettings state) other)
  /\ GridState.items (GridState.updateGridSetting bp freshId update None state)
     = GridState.items state
  /\ (GridState.noParent (Some target) = false ->
      GridState.gridSettings
        (GridState.updateGridSetting bp freshId update (Some target) state)
      = GridState.gridSettings state).
Proof.
  split; [| split].
  - intros Hne. unfold GridState.updateSettings. apply getBp_setBp_other. exact Hne.
  - reflexivity.
  - intros Hp. unfold GridState.updateGridSetting. rewrite Hp. reflexivity.
Qed.

Lemma settings_update_is_local_witness :
  getBp (GridState.updateSettings sm sampleFreshId (set_cols 6) sampleSettings) md
  = getBp sampleSettings md
  /\ GridState.gridSettings
       (GridState.updateGridSetting sm sampleFreshId (set_cols 6) (Some 2) sampleSnapshot)
     = sampleSettings.
Proof.
  destruct (settings_update_is_local sm md sampleFreshId (set_cols 6) 2 sampleSnapshot)
    as (H1 & _ & H3).
  split.
  - apply H1. discriminate.
  - apply H3. reflexivity.
Defined.

(** X17.  Changing the number of columns or rows of a setting whose
    tracks of that axis are all [1fr] leaves them all [1fr], for
    every new count; so the generated code goes on naming the count
    of that axis ([grid-cols-n], [grid-rows-n]) and not a list of
    tracks. *)
Theorem count_update_keeps_standard_tracks (numberToString : JS.number -> string)
    (freshId : nat -> string) (s : GridSetting) (n : Z) :
  (Grid.isStandardTracks (colTracks s) = true ->
   Grid.isStandardTracks (colTracks (GridState.applyUpdate freshId s (set_cols n))) = true
   /\ colsClassOf numberToString (GridState.applyUpdate freshId s (set_cols n))
      = JS.cat ["grid-cols-"; JS.StringOfZ n])
  /\ (Grid.isStandardTracks (rowTracks s) = true ->
      Grid.isStandardTracks (rowTracks (GridState.applyUpdate freshId s (set_rows n))) = true
      /\ rowsClassOf numberToString (GridState.applyUpdate freshId s (set_rows n))
         = JS.cat ["grid-rows-"; JS.StringOfZ n]).
Proof.
  split; intros Hstd.
  - assert (H : Grid.isStandardTracks
                  (colTracks (GridState.applyUpdate freshId s (set_cols n))) = true).
    { simpl. fold (resized freshId (colTracks s) n). apply resized_standard. exact Hstd. }
    split; [exact H |]. unfold colsClassOf. rewrite H. reflexivity.
  - assert (H : Grid.isStandardTracks
                  (rowTracks (GridState.applyUpdate freshId s (set_rows n))) = true).
    { simpl. fold (resized freshId (rowTracks s) n). apply resized_standard. exact Hstd. }
    split; [exact H |]. unfold rowsClassOf. rewrite H. reflexivity.
Qed.

Lemma count_update_keeps_standard_tracks_witness :
  colsClassOf (fun _ => "") (GridState.applyUpdate sampleFreshId (getBp sampleSettings sm)
                               (set_cols 6))
  = "grid-cols-6".
Proof.
  exact (proj2 (proj1 (count_update_keeps_standard_tracks (fun _ => "") sampleFreshId
                         (getBp sampleSettings sm) 6) eq_refl)).
Defined.

(** ** The classes of a container *)

Lemma changedString_same (x : string) : Grid.changedString (Some x) x = false.
Proof. simpl. rewrite String.eqb_refl. reflexivity. Qed.

Lemma changedZ_same (x : Z) : Grid.changedZ (Some x) x = false.
Proof. simpl. rewrite Z.eqb_refl. reflexivity. Qed.

(** A breakpoint whose three tokens are the previous ones adds
    nothing to the class list. *)
Lemma headerStep_same (numberToString : JS.number -> string)
    (settings : GridSettingsMap) (bp : Breakpoint) (code : string) :
  Grid.headerStep numberToString settings
    (Grid.mkHeaderState code
       (Some (colsClassOf numberToString (getBp settings bp)))
       (Some (gap (getBp settings bp)))
       (Some (rowsClassOf numberToString (getBp settings bp))))
    bp
  = Grid.mkHeaderState code
      (Some (colsClassOf numberToString (getBp settings bp)))
      (Some (gap (getBp settings bp)))
      (Some (rowsClassOf numberToString (getBp settings bp))).
Proof.
  unfold Grid.headerStep. cbv zeta.
  cbn [Grid.previousCols Grid.previousGap Grid.previousRows Grid.h_code].
  fold (colsClassOf numberToString (getBp settings bp)).
  rewrite changedString_same.
  cbn [Grid.previousCols Grid.previousGap Grid.previousRows Grid.h_code].
  rewrite changedZ_same.
  cbn [Grid.previousCols Grid.previousGap Grid.previousRows Grid.h_code].
  fold (rowsClassOf numberToString (getBp settings bp)).
  rewrite changedString_same. reflexivity.
Qed.

Lemma headerStep_first (numberToString : JS.number -> string)
    (settings : GridSettingsMap) (bp : Breakpoint) (code : string) :
  Grid.headerStep numberToString settings (Grid.mkHeaderState code None None None) bp
  = Grid.mkHeaderState
      (JS.cat [ JS.cat [ JS.cat [ code; " "; Grid.prefixMap bp;
                                  colsClassOf numberToString (getBp settings bp) ];
                         " "; Grid.prefixMap bp; "gap-";
                         JS.StringOfZ (gap (getBp settings bp)) ];
                " "; Grid.prefixMap bp;
                rowsClassOf numberToString (getBp settings bp) ])
      (Some (colsClassOf numberToString (getBp settings bp)))
      (Some (gap (getBp settings bp)))
      (Some (rowsClassOf numberToString (getBp settings bp))).
Proof. reflexivity. Qed.

Lemma getBp_sameEverywhere (s : GridSetting) (bp : Breakpoint) :
  getBp (sameEverywhere s) bp = s.
Proof. destruct bp; reflexivity. Qed.

(** X18.  When the six breakpoints have the same setting, the opening
    tag of a container names the columns, the gap and the rows once,
    without a breakpoint prefix, and the five later breakpoints add
    no class. *)
Theorem equal_breakpoints_emit_once (numberToString : JS.number -> string)
    (classAttr : string) (s : GridSetting) (indent : nat) :
  Grid.containerOpen numberToString classAttr (sameEverywhere s) indent true
  = JS.cat [ JS.cat [ JS.cat [ JS.cat [ JS.cat [ JS.repeatString " " indent; "<div ";
                                                 classAttr; "="; JS.dq; "grid" ];
                                        " "; ""; colsClassOf numberToString s ];
                               " "; ""; "gap-"; JS.StringOfZ (gap s) ];
                      " "; ""; rowsClassOf numberToString s ];
             JS.dq; ">"; JS.nl ].
Proof.
  unfold Grid.containerOpen. cbv zeta. unfold BREAKPOINT_ORDER. cbn [fold_left].
  rewrite headerStep_first.
  rewrite !getBp_sameEverywhere.
  pose proof (headerStep_same numberToString (sameEverywhere s)) as Hsame.
  assert (Hstep : forall bp code,
             Grid.headerStep numberToString (sameEverywhere s)
               (Grid.mkHeaderState code (Some (colsClassOf numberToString s))
                  (Some (gap s)) (Some (rowsClassOf numberToString s))) bp
             = Grid.mkHeaderState code (Some (colsClassOf numberToString s))
                 (Some (gap s)) (Some (rowsClassOf numberToString s))).
  { intros bp code. specialize (Hsame bp code).
    rewrite getBp_sameEverywhere in Hsame. exact Hsame. }
  rewrite !Hstep. reflexivity.
Qed.

(** ** Copying from the neighbouring breakpoint *)

(** X19.  [handleCopyFromBreakpoint] does nothing at the two ends of
    the order of the breakpoints (before [xs], after [2xl]).
    Elsewhere it reads the breakpoint one step away; the settings of
    the active breakpoint become those of the neighbour, and the
    layout of every root item at the active breakpoint becomes its
    layout at the neighbour; the other breakpoints, the ids, the
    colours, the sub-grids and the children of the root items (and so
    every nested item) stay as they are. *)
Theorem copy_from_neighbor (bp : Breakpoint) (direction : GridState.Direction)
    (state : GridState.Snapshot) :
  match GridState.handleCopyFromBreakpoint bp direction state with
  | None =>
      (bp = xs /\ direction = GridState.d_prev)
      \/ (bp = xxl /\ direction = GridState.d_next)
  | Some copied =>
      exists neighbor,
        GridState.neighborOf bp direction = Some neighbor
        /\ GridState.indexOf neighbor
           = (GridState.indexOf bp + directionStep direction)%Z
        /\ getBp (GridState.gridSettings copied) bp
           = getBp (GridState.gridSettings state) neighbor
        /\ (forall other, other <> bp ->
              getBp (GridState.gridSettings copied) other
              = getBp (GridState.gridSettings state) other)
        /\ GridState.items copied
           = map (fun item => withLayoutAt item bp (getBp (layout item) neighbor))
                 (GridState.items state)
  end.
Proof.
  assert (Hcopy : forall nb,
             map (fun item =>
                    withLayout item
                      (setBp (layout item) bp (Grid.copyLayout (getBp (layout item) nb))))
                 (GridState.items state)
             = map (fun item => withLayoutAt item bp (getBp (layout item) nb))
                   (GridState.items state)).
  { intros nb. apply map_ext. intros item. rewrite copyLayout_same. reflexivity. }
  unfold GridState.handleCopyFromBreakpoint.
  destruct (GridState.neighborOf bp direction) as [nb |] eqn:Hn.
  - exists nb. split; [reflexivity |]. split; [| split; [| split]].
    + destruct bp, direction; vm_compute in Hn; inversion Hn; subst; reflexivity.
    + simpl. apply getBp_setBp_same.
    + intros other Hne. simpl. apply getBp_setBp_other. congruence.
    + simpl. apply Hcopy.
  - destruct bp, direction; vm_compute in Hn; try discriminate; auto.
Qed.

(** ** Importing a configuration in the format the import reads *)

Lemma readPartialLayout_ofLayout (l : ItemLayout) :
  finiteSpans l = true ->
  GridState.readPartialLayout (Json.ofLayout l) = Json.Ok (completeLayout l).
Proof.
  destruct l as [cs ce rs re csp rsp o]. unfold finiteSpans. simpl.
  destruct csp; try discriminate; destruct rsp; try discriminate. reflexivity.
Qed.

Lemma readPartialLayoutMap_ofLayoutMap (m : LayoutMap) :
  finiteLayouts m = true ->
  GridState.readPartialLayoutMap (Some (Json.ofPerBreakpoint Json.ofLayout m))
  = Json.Ok (Some (completeLayoutMap m)).
Proof.
  destruct m as [a b c d e f]. unfold finiteLayouts. simpl.
  rewrite !andb_true_iff. intros (Ha & Hb & Hc & Hd & He & Hf & _).
  unfold GridState.readPartialLayoutMap.
  cbn [Json.truthy Json.ofPerBreakpoint map BREAKPOINT_ORDER Json.prop Json.lookup
       Json.breakpointKey getBp at_xs at_sm at_md at_lg at_xl at_xxl].
  simpl String.eqb. cbv iota.
  cbn [Json.ofLayout Json.truthy].
  change (Json.JObject
            [("colStart", Json.JString (colStart a)); ("colEnd", Json.JString (colEnd a));
             ("rowStart", Json.JString (rowStart a)); ("rowEnd", Json.JString (rowEnd a));
             ("colSpan", Json.ofNumber (colSpan a)); ("rowSpan", Json.ofNumber (rowSpan a));
             ("order", Json.JString (order a))]) with (Json.ofLayout a).
  change (Json.JObject
            [("colStart", Json.JString (colStart b)); ("colEnd", Json.JString (colEnd b));
             ("rowStart", Json.JString (rowStart b)); ("rowEnd", Json.JString (rowEnd b));
             ("colSpan", Json.ofNumber (colSpan b)); ("rowSpan", Json.ofNumber (rowSpan b));
             ("order", Json.JString (order b))]) with (Json.ofLayout b).
  change (Json.JObject
            [("colStart", Json.JString (colStart c)); ("colEnd", Json.JString (colEnd c));
             ("rowStart", Json.JString (rowStart c)); ("rowEnd", Json.JString (rowEnd c));
             ("colSpan", Json.ofNumber (colSpan c)); ("rowSpan", Json.ofNumber (rowSpan c));
             ("order", Json.JString (order c))]) with (Json.ofLayout c).
  change (Json.JObject
            [("colStart", Json.JString (colStart d)); ("colEnd", Json.JString (colEnd d));
             ("rowStart", Json.JString (rowStart d)); ("rowEnd", Json.JString (rowEnd d));
             ("colSpan", Json.ofNumber (colSpan d)); ("rowSpan", Json.ofNumber (rowSpan d));
             ("order", Json.JString (order d))]) with (Json.ofLayout d).
  change (Json.JObject
            [("colStart", Json.JString (colStart e)); ("colEnd", Json.JString (colEnd e));
             ("rowStart", Json.JString (rowStart e)); ("rowEnd", Json.JString (rowEnd e));
             ("colSpan", Json.ofNumber (colSpan e)); ("rowSpan", Json.ofNumber (rowSpan e));
             ("order", Json.JString (order e))]) with (Json.ofLayout e).
  change (Json.JObject
            [("colStart", Json.JString (colStart f)); ("colEnd", Json.JString (colEnd f));
             ("rowStart", Json.JString (rowStart f)); ("rowEnd", Json.JString (rowEnd f));
             ("colSpan", Json.ofNumber (colSpan f)); ("rowSpan", Json.ofNumber (rowSpan f));
             ("order", Json.JString (order f))]) with (Json.ofLayout f).
  rewrite !readPartialLayout_ofLayout by assumption. reflexivity.
Qed.

Lemma importItem_ofItem (now : Z) (item : GridItem) (index : nat) :
  finiteLayouts (layout item) = true ->
  GridState.importItem now (Json.ofItem item) index = Json.Ok (asLeaf item).
Proof.
  destruct item as [i c l sg ch]. cbn [layout]. intros Hfin.
  unfold GridState.importItem. cbn [Json.ofItem].
  cbn [Json.prop app Json.lookup]. simpl String.eqb. cbv iota.
  cbn [GridState.nullish Json.bind Json.asString].
  rewrite (readPartialLayoutMap_ofLayoutMap l Hfin).
  cbn [Json.bind]. rewrite sanitize_complete. reflexivity.
Qed.

Lemma importItems_ofItems (now : Z) (items : list GridItem) :
  forallb (fun item => finiteLayouts (layout item)) items = true ->
  forall index,
    GridState.importItems now (map Json.ofItem items) index
    = Json.Ok (map asLeaf items).
Proof.
  induction items as [| item r IH]; intros Hfin index.
  - reflexivity.
  - cbn [forallb] in Hfin. apply andb_true_iff in Hfin. destruct Hfin as [Hitem Hr].
    cbn [map GridState.importItems].
    rewrite (importItem_ofItem now item index Hitem). cbn [Json.bind].
    rewrite (IH Hr (S index)). reflexivity.
Qed.

Lemma asUnit_unitName (u : TrackUnit) :
  Json.asUnit (Json.JString (unitName u)) = Json.Ok u.
Proof. destruct u; reflexivity. Qed.

Lemma readTrack_ofTrack (t : Track) :
  isFinite (value t) = true ->
  GridState.readTrack (Json.ofTrack t) = Json.Ok t.
Proof.
  destruct t as [i v u]. cbn [value]. intros Hfin.
  destruct v; try discriminate.
  unfold GridState.readTrack, Json.ofTrack.
  cbn [trackId value unit Json.ofNumber Json.prop Json.lookup].
  simpl String.eqb. cbv iota.
  cbn [Json.required Json.asString Json.asNumber Json.bind].
  rewrite asUnit_unitName. reflexivity.
Qed.

Lemma readTracks_ofTracks (tracks : list Track) :
  forallb (fun t => isFinite (value t)) tracks = true ->
  Json.mapM GridState.readTrack (map Json.ofTrack tracks) = Json.Ok tracks.
Proof.
  induction tracks as [| t r IH]; intros Hfin.
  - reflexivity.
  - cbn [forallb] in Hfin. apply andb_true_iff in Hfin. destruct Hfin as [Ht Hr].
    cbn [map Json.mapM]. rewrite (readTrack_ofTrack t Ht). cbn [Json.bind].
    rewrite (IH Hr). reflexivity.
Qed.

Lemma asInteger_ofZ (z : Z) : Json.asInteger (Json.ofZ z) = Json.Ok z.
Proof.
  unfold Json.asInteger, Json.ofZ. rewrite Qfloor_Z.
  rewrite Qeq_bool_refl. reflexivity.
Qed.

Lemma readSetting_at (m : GridSettingsMap) (bp : Breakpoint) :
  finiteTracks (getBp m bp) = true ->
  GridState.readSetting (Json.ofSettingsMap m) bp = Json.Ok (getBp m bp).
Proof.
  intros Hfin. unfold finiteTracks in Hfin. apply andb_true_iff in Hfin.
  destruct Hfin as [Hc Hr].
  assert (Hprop : Json.prop (Json.ofSettingsMap m) (Json.breakpointKey bp)
                  = Some (Json.ofSetting (getBp m bp))).
  { destruct bp; reflexivity. }
  unfold GridState.readSetting. rewrite Hprop.
  destruct (getBp m bp) as [c r ct rt g].
  cbn [colTracks rowTracks] in Hc, Hr.
  unfold Json.ofSetting.
  cbn [cols rows gap colTracks rowTracks Json.prop Json.lookup].
  simpl String.eqb. cbv iota.
  cbn [GridState.readTracks Json.required].
  rewrite (readTracks_ofTracks ct Hc), (readTracks_ofTracks rt Hr).
  rewrite !asInteger_ofZ. reflexivity.
Qed.

Lemma readSettingsMap_ofSettingsMap (m : GridSettingsMap) :
  finiteSettings m = true ->
  GridState.readSettingsMap (Json.ofSettingsMap m) = Json.Ok m.
Proof.
  unfold finiteSettings. cbn [forallb BREAKPOINT_ORDER].
  rewrite !andb_true_iff. intros (Ha & Hb & Hc & Hd & He & Hf & _).
  unfold GridState.readSettingsMap.
  rewrite !readSetting_at by assumption. cbn [Json.bind].
  destruct m; reflexivity.
Qed.

(** X20.  A configuration written with the keys [items] and
    [gridSettings], whose spans and track values are finite numbers,
    is accepted by [importPreset]: the settings are read back as they
    were, and the items come back in the same order with their ids,
    colours and layouts, without their sub-grids and children, and
    with the display order of the active breakpoint assigned
    again. *)
Theorem import_reads_preset (currentBreakpoint : Breakpoint) (now : Z)
    (state : GridState.Snapshot) :
  forallb (fun item => finiteLayouts (layout item)) (GridState.items state) = true ->
  finiteSettings (GridState.gridSettings state) = true ->
  GridState.importPreset currentBreakpoint now (presetOf state)
  = Json.Ok (GridState.mkSnapshot
               (GridState.reflowOrders (map asLeaf (GridState.items state))
                                       currentBreakpoint)
               (GridState.gridSettings state)).
Proof.
  intros Hitems Hsettings.
  unfold GridState.importPreset, presetOf.
  cbn [Json.prop Json.lookup]. simpl String.eqb. cbv iota.
  unfold Json.ofSettingsMap at 1 2. unfold Json.ofPerBreakpoint at 1 2.
  cbn [Json.truthy negb orb].
  fold (Json.ofPerBreakpoint Json.ofSetting (GridState.gridSettings state)).
  fold (Json.ofSettingsMap (GridState.gridSettings state)).
  rewrite (importItems_ofItems now _ Hitems 0). cbn [Json.bind].
  rewrite (readSettingsMap_ofSettingsMap _ Hsettings). reflexivity.
Qed.

Lemma import_reads_preset_witness :
  GridState.importPreset md 0 (presetOf sampleSnapshot)
  = Json.Ok (GridState.mkSnapshot
               (GridState.reflowOrders (map asLeaf (GridState.items sampleSnapshot)) md)
               (GridState.gridSettings sampleSnapshot)).
Proof.
  apply (import_reads_preset md 0 sampleSnapshot); vm_compute; reflexivity.
Defined.

(** ** Tracks of any positive size *)

(** X21.  For tracks of any positive sizes and a gap that is not
    negative, where sizes and gap are whole numbers of units of
    [2^-k] pixel and the extent of the tracks on each axis stays
    below [2^52] units (so that no sum of the two loops is rounded),
    an item that starts at a line of the grid (at most one behind the
    last measured track) and fits inside the grid comes back at its
    own start column and start row when the left and top of its
    indicator rectangle are read as a pointer position. *)
Theorem geometry_round_trip_any_sizes (k : nat) (ws hs : list Z) (g : Z)
    (totalCols totalRows colStart rowStart colSpan rowSpan : Z) :
  (k <= 1073)%nat ->
  allPositive ws -> allPositive hs -> (0 <= g)%Z ->
  (extent g ws < 2 ^ 52)%Z -> (extent g hs < 2 ^ 52)%Z ->
  (colStart - 1 <= Z.of_nat (List.length ws))%Z ->
  (rowStart - 1 <= Z.of_nat (List.length hs))%Z ->
  (1 <= colStart <= totalCols - colSpan + 1)%Z ->
  (1 <= rowStart <= totalRows - rowSpan + 1)%Z ->
  let metrics := pixelMetrics k ws hs g in
  let rect := PreviewCanvas.indicatorFrom colStart rowStart colSpan rowSpan metrics in
  PreviewCanvas.positionFromCoords (left rect) (top rect) metrics
    colSpan rowSpan totalCols totalRows
  = PreviewCanvas.mkGridPosition colStart rowStart.
Proof.
  intros Hk Hws Hhs Hg Hwb Hhb Hcl Hrl Hc Hr metrics rect.
  unfold PreviewCanvas.positionFromCoords. subst rect metrics.
  unfold PreviewCanvas.indicatorFrom, pixelMetrics.
  cbn [left top PreviewCanvas.colWidths PreviewCanvas.rowHeights PreviewCanvas.gapPx].
  rewrite (scan_round_trip_pixels k g Hk Hg ws totalCols colStart colSpan) by assumption.
  rewrite (scan_round_trip_pixels k g Hk Hg hs totalRows rowStart rowSpan) by assumption.
  reflexivity.
Qed.

Lemma geometry_round_trip_any_sizes_witness :
  let metrics := pixelMetrics 6 [7680; 1925; 4800]%Z [2560; 12800]%Z 512 in
  let rect := PreviewCanvas.indicatorFrom 2 2 2 1 metrics in
  PreviewCanvas.positionFromCoords (left rect) (top rect) metrics 2 1 3 2
  = PreviewCanvas.mkGridPosition 2 2.
Proof.
  apply (geometry_round_trip_any_sizes 6 [7680; 1925; 4800]%Z [2560; 12800]%Z 512 3 2 2 2 2 1);
    try (repeat constructor; reflexivity); try (simpl; lia); try lia.
Defined.

(** ** The pointer and the drop position *)

Lemma ltb_le_left (x x' : Q) (a : JS.number) :
  (x <= x')%Q -> JS.ltb (JS.Fin x') a = true -> JS.ltb (JS.Fin x) a = true.
Proof.
  intros Hle. destruct a as [| |q|]; simpl; try discriminate; try reflexivity.
  rewrite !Qltb_iff. lra.
Qed.

Lemma scanTracks_lower (x gap : JS.number) (sizes : list JS.number) :
  forall current start,
    (start <= PreviewCanvas.scanTracks x gap sizes current start)%Z.
Proof.
  induction sizes as [| size rest IH]; intros current start.
  - simpl. lia.
  - cbn [PreviewCanvas.scanTracks].
    destruct (JS.ltb x (JS.fadd current (JS.fdiv size (JS.Fin 2)))); [lia |].
    specialize (IH (JS.fadd current (JS.fadd size gap)) (start + 1)%Z). lia.
Qed.

Lemma scanTracks_mono (x x' : Q) (gap : JS.number) (sizes : list JS.number) :
  (x <= x')%Q ->
  forall current start,
    (PreviewCanvas.scanTracks (JS.Fin x) gap sizes current start
     <= PreviewCanvas.scanTracks (JS.Fin x') gap sizes current start)%Z.
Proof.
  intros Hle. induction sizes as [| size rest IH]; intros current start.
  - simpl. lia.
  - cbn [PreviewCanvas.scanTracks].
    destruct (JS.ltb (JS.Fin x') (JS.fadd current (JS.fdiv size (JS.Fin 2)))) eqn:Hx'.
    + rewrite (ltb_le_left x x' _ Hle Hx'). lia.
    + destruct (JS.ltb (JS.Fin x) (JS.fadd current (JS.fdiv size (JS.Fin 2)))).
      * pose proof (scanTracks_lower (JS.Fin x') gap rest
                      (JS.fadd current (JS.fadd size gap)) (start + 1)%Z). lia.
      * apply IH.
Qed.

(** X22.  Whatever the pointer position and the measured tracks are
    (NaN and infinities included), the position [positionFromCoords]
    returns lies between 1 and [max(1, total - span + 1)] on both
    axes; and for finite pointer positions, a pointer further to the
    right or further down never gives a smaller column or row. *)
Theorem drop_position_bounds_and_order (metrics : PreviewCanvas.GridMetrics)
    (colSpan rowSpan totalCols totalRows : Z) :
  (forall x y,
     let p := PreviewCanvas.positionFromCoords x y metrics
                colSpan rowSpan totalCols totalRows in
     (1 <= PreviewCanvas.pos_colStart p <= Z.max 1 (totalCols - colSpan + 1))%Z
     /\ (1 <= PreviewCanvas.pos_rowStart p <= Z.max 1 (totalRows - rowSpan + 1))%Z)
  /\ (forall x x' y y' : Q,
        (x <= x')%Q -> (y <= y')%Q ->
        let p := PreviewCanvas.positionFromCoords (JS.Fin x) (JS.Fin y) metrics
                   colSpan rowSpan totalCols totalRows in
        let p' := PreviewCanvas.positionFromCoords (JS.Fin x') (JS.Fin y') metrics
                    colSpan rowSpan totalCols totalRows in
        (PreviewCanvas.pos_colStart p <= PreviewCanvas.pos_colStart p')%Z
        /\ (PreviewCanvas.pos_rowStart p <= PreviewCanvas.pos_rowStart p')%Z).
Proof.
  split.
  - intros x y p. subst p. unfold PreviewCanvas.positionFromCoords, Grid.clamp.
    cbn [PreviewCanvas.pos_colStart PreviewCanvas.pos_rowStart]. lia.
  - intros x x' y y' Hx Hy p p'. subst p p'.
    unfold PreviewCanvas.positionFromCoords, Grid.clamp.
    cbn [PreviewCanvas.pos_colStart PreviewCanvas.pos_rowStart].
    pose proof (scanTracks_mono x x' (PreviewCanvas.gapPx metrics)
                  (PreviewCanvas.colWidths metrics) Hx JS.zero 1%Z).
    pose proof (scanTracks_mono y y' (PreviewCanvas.gapPx metrics)
                  (PreviewCanvas.rowHeights metrics) Hy JS.zero 1%Z).
    lia.
Qed.

Lemma drop_position_bounds_and_order_witness :
  let metrics := finiteMetrics [120; 30; 75] [40; 200] 8 in
  (PreviewCanvas.pos_colStart
     (PreviewCanvas.positionFromCoords (JS.Fin 10) (JS.Fin 0) metrics 1 1 3 2)
   <= PreviewCanvas.pos_colStart
        (PreviewCanvas.positionFromCoords (JS.Fin 140) (JS.Fin 50) metrics 1 1 3 2))%Z.
Proof.
  cbv zeta.
  destruct (drop_position_bounds_and_order
              (finiteMetrics [120; 30; 75] [40; 200] 8) 1 1 3 2) as [_ Hmono].
  apply (Hmono 10 140 0 50); discriminate.
Defined.

(** ** A resize read back *)

Section PixelSpan.

Variables (k : nat) (c : Z).
Hypothesis k_range : (k <= 1073)%nat.
Hypothesis gap_nonneg : (0 <= c)%Z.

Let K : Z := (Z.of_nat k + 1)%Z.
Let gap : JS.number := JS.Fin (pixels k c).
Let px (ws : list Z) : list JS.number := map (fun a => JS.Fin (pixels k a)) ws.

(** The sum [indicatorFrom] computes over [n] tracks behind [s]. *)
Lemma spannedSize_pixels (ws : list Z) (s n : nat) :
  allPositive ws -> (extent c ws < 2 ^ 52)%Z ->
  (s + n <= List.length ws)%nat ->
  denotes K (PreviewCanvas.spannedSize (Z.of_nat s + 1) (Z.of_nat n) (px ws))
          (2 * extent 0 (firstn n (skipn s ws))).
Proof.
  intros Hpos Hbound.
  unfold PreviewCanvas.spannedSize, PreviewCanvas.indicesFrom.
  replace (Z.of_nat s + 1 - 1)%Z with (Z.of_nat s) by lia. rewrite Nat2Z.id.
  destruct (allPositive_split ws s Hpos) as [_ Hskip].
  assert (Hzero : forall l, allPositive l -> (0 <= extent 0 l <= extent c l)%Z).
  { intros l Hl. induction Hl as [| a r Ha Hr IH]; simpl; lia. }
  assert (Hrest : (extent c (skipn s ws) <= extent c ws)%Z).
  { pose proof (extent_app c (firstn s ws) (skipn s ws)) as E.
    rewrite firstn_skipn in E.
    pose proof (extent_firstn_le c ws s gap_nonneg Hpos). lia. }
  unfold px. rewrite length_map.
  induction n as [| n IH]; intros Hn.
  - simpl. apply (denotes_zero K).
  - rewrite seq_S, map_app, fold_left_app.
    cbn [map fold_left Nat.add].
    destruct (Z.ltb_spec (Z.of_nat s + Z.of_nat n) (Z.of_nat (List.length ws)))
      as [_ | Hge]; [| lia].
    rewrite <- Nat2Z.inj_add. rewrite sizeAt_pixels by lia.
    assert (Hlen : (n < List.length (skipn s ws))%nat) by (rewrite length_skipn; lia).
    rewrite (extent_step 0 (skipn s ws) n Hlen). rewrite nth_skipn.
    destruct (allPositive_split (skipn s ws) (S n) Hskip) as [Hfirst _].
    pose proof (Hzero _ Hfirst) as H1.
    pose proof (extent_firstn_le c (skipn s ws) (S n) gap_nonneg Hskip) as H2.
    rewrite (extent_step 0 (skipn s ws) n Hlen), nth_skipn in H1.
    eapply (denotes_same K);
      [| apply (denotes_fadd K (K_range k k_range) _ _ _ _ (IH ltac:(lia))
                  (denotes_pixels k _)); bounds].
    lia.
Qed.

(** The loop of [spanFromSize], with the tracks [rest] ahead, for the
    size of [n + 1] of them and the [n] gaps between them: it stops
    after [n + 1] tracks. *)
Lemma growSpan_pixels (rest : list Z) :
  allPositive rest ->
  forall (n : nat) (done : Z) (size current : JS.number) (span : Z),
    (0 <= done)%Z -> (done + extent c rest < 2 ^ 52)%Z ->
    (n < List.length rest)%nat ->
    denotes K current (2 * done) ->
    denotes K size (2 * (done + extent 0 (firstn (S n) rest) + Z.of_nat n * c)) ->
    PreviewCanvas.growSpan size gap (px rest) current span = (span + 1 + Z.of_nat n)%Z.
Proof.
  intros Hpos. induction Hpos as [| a r Ha Hr IH];
    intros n done size current span Hdone Hbound Hn Hcur Hsize.
  - simpl in Hn. lia.
  - cbn [px map PreviewCanvas.growSpan]. fold (px r). cbv zeta.
    cbn [extent fold_right] in Hbound. fold (extent c r) in Hbound.
    cbn [firstn extent fold_right] in Hsize. fold (extent 0 (firstn n r)) in Hsize.
    pose proof (extent_nonneg c r gap_nonneg Hr) as Hext.
    assert (Hzero : forall l, allPositive l -> (0 <= extent 0 l <= extent c l)%Z).
    { intros l Hl. induction Hl as [| a' r' Ha' Hr' IH']; simpl; lia. }
    destruct (allPositive_split r n Hr) as [Hfirst _].
    pose proof (Hzero _ Hfirst) as Hsum.
    pose proof (extent_firstn_le c r n gap_nonneg Hr) as Hpart.
    assert (Hgaps : (Z.of_nat n * c + extent 0 (firstn n r) <= extent c r)%Z).
    { clear - gap_nonneg Hr Hn. simpl in Hn.
      revert n Hn. induction Hr as [| a' r' Ha' Hr' IH']; intros n Hn.
      - destruct n; simpl in *; lia.
      - destruct n as [| n]; [simpl; pose proof (extent_nonneg c r' gap_nonneg Hr'); lia |].
        cbn [firstn extent fold_right]. fold (extent 0 (firstn n r')). fold (extent c r').
        simpl in Hn. specialize (IH' n ltac:(lia)). lia. }
    assert (Hgrown : denotes K (JS.fadd current (JS.Fin (pixels k a))) (2 * done + 2 * a)).
    { apply (denotes_fadd K (K_range k k_range)); [exact Hcur | apply denotes_pixels | bounds]. }
    assert (Hhalf : denotes K (JS.fdiv gap (JS.Fin 2)) c).
    { apply (denotes_half K (K_range k k_range)); [apply denotes_pixels | bounds]. }
    assert (Hthreshold :
              denotes K (JS.fsub size (JS.fdiv gap (JS.Fin 2)))
                (2 * (done + (a + 0 + extent 0 (firstn n r)) + Z.of_nat n * c) - c)).
    { apply (denotes_fsub K (K_range k k_range)); [exact Hsize | exact Hhalf | bounds]. }
    rewrite (denotes_geb K _ _ _ _ Hgrown Hthreshold).
    destruct n as [| n].
    + cbn [firstn extent fold_right Z.of_nat].
      destruct (Z.leb_spec (2 * (done + (a + 0 + 0) + 0 * c) - c) (2 * done + 2 * a)); lia.
    + simpl in Hn.
      assert (Hmore : (0 < extent 0 (firstn (S n) r))%Z).
      { destruct r as [| a' r']; [simpl in Hn; lia |].
        cbn [firstn extent fold_right]. fold (extent 0 (firstn n r')).
        inversion Hr as [| ? ? Ha' Hr']; subst.
        destruct (allPositive_split r' n Hr') as [Hf' _].
        pose proof (Hzero _ Hf'). lia. }
      destruct (Z.leb_spec
                  (2 * (done + (a + 0 + extent 0 (firstn (S n) r)) + Z.of_nat (S n) * c) - c)
                  (2 * done + 2 * a)); [lia |].
      assert (Hnext : denotes K (JS.fadd (JS.fadd current (JS.Fin (pixels k a))) gap)
                        (2 * done + 2 * a + 2 * c)).
      { apply (denotes_fadd K (K_range k k_range));
          [exact Hgrown | apply denotes_pixels | bounds]. }
      rewrite (IH n (done + a + c)%Z size _ (span + 1)%Z); try bounds.
      * eapply (denotes_same K); [| exact Hnext]. lia.
      * eapply (denotes_same K); [| exact Hsize]. lia.
Qed.

Lemma span_round_trip_pixels (ws : list Z) (start span maxSpan : Z) :
  allPositive ws -> (extent c ws < 2 ^ 52)%Z ->
  (1 <= start)%Z -> (1 <= span <= maxSpan)%Z ->
  (start - 1 + span <= Z.of_nat (List.length ws))%Z ->
  PreviewCanvas.spanFromSize
    (JS.fadd (PreviewCanvas.spannedSize start span (px ws))
             (JS.fmul gap (JS.ofZ (Z.max (span - 1) 0))))
    start (px ws) gap maxSpan
  = span.
Proof.
  intros Hpos Hbound Hstart Hspan Hlen.
  unfold PreviewCanvas.spanFromSize, PreviewCanvas.tracksFrom.
  destruct (Z.ltb_spec (start - 1) 0) as [Hneg | _]; [lia |].
  unfold px at 2. rewrite skipn_map. fold (px (skipn (Z.to_nat (start - 1)) ws)).
  set (s := Z.to_nat (start - 1)). set (n := Z.to_nat (span - 1)).
  destruct (allPositive_split ws s Hpos) as [_ Hskip].
  assert (Hrest : (extent c (skipn s ws) <= extent c ws)%Z).
  { pose proof (extent_app c (firstn s ws) (skipn s ws)) as E.
    rewrite firstn_skipn in E.
    pose proof (extent_firstn_le c ws s gap_nonneg Hpos). lia. }
  assert (Hzero : forall l, allPositive l -> (0 <= extent 0 l <= extent c l)%Z).
  { intros l Hl. induction Hl as [| a r Ha Hr IH]; simpl; lia. }
  assert (Hgaps : forall l m, allPositive l -> (m < List.length l)%nat ->
             (Z.of_nat m * c + extent 0 (firstn (S m) l) <= extent c l)%Z).
  { intros l m Hl. revert m. induction Hl as [| a r Ha Hr IH]; intros m Hm.
    - simpl in Hm. lia.
    - cbn [firstn extent fold_right]. fold (extent 0 (firstn m r)). fold (extent c r).
      destruct m as [| m].
      + simpl. pose proof (extent_nonneg c r gap_nonneg Hr). lia.
      + simpl in Hm. specialize (IH m ltac:(lia)). lia. }
  assert (Hn : (n < List.length (skipn s ws))%nat) by (rewrite length_skipn; lia).
  pose proof (Hgaps _ n Hskip Hn) as Hfit.
  destruct (allPositive_split (skipn s ws) (S n) Hskip) as [Hfirst _].
  pose proof (Hzero _ Hfirst) as Hsum.
  pose proof (spannedSize_pixels ws s (S n) Hpos Hbound ltac:(lia)) as Hspanned.
  replace (Z.of_nat s + 1)%Z with start in Hspanned by lia.
  replace (Z.of_nat (S n)) with span in Hspanned by lia.
  assert (Hgap : denotes K (JS.fmul gap (JS.ofZ (Z.max (span - 1) 0)))
                   (2 * c * Z.max (span - 1) 0)).
  { apply (denotes_fmul K (K_range k k_range)); [apply denotes_pixels |].
    replace (Z.max (span - 1) 0) with (Z.of_nat n) by lia. bounds. }
  assert (Hwidth : denotes K
                     (JS.fadd (PreviewCanvas.spannedSize start span (px ws))
                        (JS.fmul gap (JS.ofZ (Z.max (span - 1) 0))))
                     (2 * extent 0 (firstn (S n) (skipn s ws))
                      + 2 * c * Z.max (span - 1) 0)).
  { apply (denotes_fadd K (K_range k k_range)); [exact Hspanned | exact Hgap |].
    replace (Z.max (span - 1) 0) with (Z.of_nat n) by lia. bounds. }
  rewrite (growSpan_pixels (skipn s ws) Hskip n 0%Z _ JS.zero 0%Z); try bounds.
  - unfold Grid.clamp. lia.
  - apply (denotes_zero K).
  - assert (Hm : Z.max (span - 1) 0 = Z.of_nat n) by (subst n; lia).
    eapply (denotes_same K); [| exact Hwidth]. rewrite Hm. lia.
Qed.

End PixelSpan.

(** X23.  For tracks of any positive sizes and a gap that is not
    negative, where sizes and gap are whole numbers of units of
    [2^-k] pixel and the extent of the tracks on each axis stays
    below [2^52] units (so that no sum or product of the loops is
    rounded), the width and the height of the indicator rectangle of
    an item read back as its spans: [spanFromSize] returns the column
    span and the row span, when the spans are at least 1, at most the
    allowed maximum, and the item lies on measured tracks. *)
Theorem resize_round_trip (k : nat) (ws hs : list Z) (g : Z)
    (colStart rowStart colSpan rowSpan maxCols maxRows : Z) :
  (k <= 1073)%nat ->
  allPositive ws -> allPositive hs -> (0 <= g)%Z ->
  (extent g ws < 2 ^ 52)%Z -> (extent g hs < 2 ^ 52)%Z ->
  (1 <= colStart)%Z -> (1 <= rowStart)%Z ->
  (1 <= colSpan <= maxCols)%Z -> (1 <= rowSpan <= maxRows)%Z ->
  (colStart - 1 + colSpan <= Z.of_nat (List.length ws))%Z ->
  (rowStart - 1 + rowSpan <= Z.of_nat (List.length hs))%Z ->
  let metrics := pixelMetrics k ws hs g in
  let rect := PreviewCanvas.indicatorFrom colStart rowStart colSpan rowSpan metrics in
  PreviewCanvas.spanFromSize (width rect) colStart (PreviewCanvas.colWidths metrics)
    (PreviewCanvas.gapPx metrics) maxCols = colSpan
  /\ PreviewCanvas.spanFromSize (height rect) rowStart (PreviewCanvas.rowHeights metrics)
       (PreviewCanvas.gapPx metrics) maxRows = rowSpan.
Proof.
  intros Hk Hws Hhs Hg Hwb Hhb Hc Hr Hcs Hrs Hcl Hrl metrics rect. subst rect metrics.
  unfold PreviewCanvas.indicatorFrom, pixelMetrics.
  cbn [width height PreviewCanvas.colWidths PreviewCanvas.rowHeights PreviewCanvas.gapPx].
  split; apply (span_round_trip_pixels k g Hk Hg); assumption.
Qed.

Lemma resize_round_trip_witness :
  let metrics := pixelMetrics 6 [7680; 1925; 4800]%Z [2560; 12800]%Z 512 in
  let rect := PreviewCanvas.indicatorFrom 2 1 2 2 metrics in
  PreviewCanvas.spanFromSize (width rect) 2 (PreviewCanvas.colWidths metrics)
    (PreviewCanvas.gapPx metrics) 3 = 2%Z
  /\ PreviewCanvas.spanFromSize (height rect) 1 (PreviewCanvas.rowHeights metrics)
       (PreviewCanvas.gapPx metrics) 2 = 2%Z.
Proof.
  apply (resize_round_trip 6 [7680; 1925; 4800]%Z [2560; 12800]%Z 512 2 1 2 2 3 2);
    try (repeat constructor; reflexivity); try (simpl; lia); try lia.
Defined.

(** In binary64 a wide track absorbs a narrow one: with the widths
    [10^16] and 1 and no gap, the indicator of an item over both
    columns is [10^16] wide, and reads back as a span of 1. *)
Lemma absorbed_track_example :
  let metrics := pixelMetrics 0 [10000000000000000; 1]%Z [10]%Z 0 in
  let rect := PreviewCanvas.indicatorFrom 1 1 2 1 metrics in
  JS.same (width rect) (JS.Fin 10000000000000000)
  /\ PreviewCanvas.spanFromSize (width rect) 1 (PreviewCanvas.colWidths metrics)
       (PreviewCanvas.gapPx metrics) 2 = 1%Z.
Proof.
  cbv zeta. split; vm_compute; reflexivity.
Qed.

(** ** [Number(String(n))] for an integer *)

Lemma readDigits_acc (d : Decimal.uint) :
  forall (p : positive) (count : nat),
    JS.readDigits 10 (digitsOf d) (Z.pos p) count
    = (Z.pos (Pos.of_uint_acc d p), (count + Decimal.nb_digits d)%nat, []).
Proof.
  unfold digitsOf.
  induction d as [| d IH | d IH | d IH | d IH | d IH | d IH | d IH | d IH | d IH | d IH];
    intros p count;
    cbn [NilEmpty.string_of_uint list_ascii_of_string JS.readDigits
         Pos.of_uint_acc Decimal.nb_digits];
    try (rewrite Nat.add_0_r; reflexivity);
    match goal with
    | |- context [JS.digitIn 10 ?c] =>
        let v := eval vm_compute in (JS.digitIn 10 c) in
        change (JS.digitIn 10 c) with v
    end;
    cbv iota; cbv beta;
    rewrite <- Nat.add_succ_comm;
    match goal with
    | |- JS.readDigits _ _ ?acc _ = (Z.pos ?q, _, _) =>
        match q with
        | Pos.of_uint_acc _ ?a => replace acc with (Z.pos a) by lia
        end
    end;
    apply IH.
Qed.

Lemma readDigits_zero (d : Decimal.uint) :
  forall count : nat,
    JS.readDigits 10 (digitsOf d) 0 count
    = (Z.of_N (Pos.of_uint d), (count + Decimal.nb_digits d)%nat, []).
Proof.
  induction d as [| d IH | d IH | d IH | d IH | d IH | d IH | d IH | d IH | d IH | d IH];
    intros count.
  1: (cbn; rewrite Nat.add_0_r; reflexivity).
  1: { unfold digitsOf in *.
       cbn [NilEmpty.string_of_uint list_ascii_of_string JS.readDigits
            Pos.of_uint Decimal.nb_digits].
       change (JS.digitIn 10 "0"%char) with (Some 0%Z). cbv iota. cbv beta.
       rewrite <- Nat.add_succ_comm. change (0 * 10 + 0)%Z with 0%Z. apply IH. }
  all: unfold digitsOf;
    cbn [NilEmpty.string_of_uint list_ascii_of_string JS.readDigits
         Pos.of_uint Decimal.nb_digits];
    match goal with
    | |- context [JS.digitIn 10 ?c] =>
        let v := eval vm_compute in (JS.digitIn 10 c) in
        change (JS.digitIn 10 c) with v
    end;
    cbv iota; cbv beta;
    rewrite <- Nat.add_succ_comm;
    match goal with
    | |- JS.readDigits _ _ ?acc _ = _ =>
        let v := eval vm_compute in acc in change acc with v
    end;
    cbn [Z.of_N];
    apply (readDigits_acc d).
Qed.

Lemma dropBlanks_noblank (l : list ascii) :
  Forall (fun c => JS.isBlank c = false) l -> JS.dropBlanks l = l.
Proof.
  intros H. destruct H as [| c r Hc Hr]; [reflexivity |].
  cbn [JS.dropBlanks]. rewrite Hc. reflexivity.
Qed.

Lemma trim_noblank (l : list ascii) :
  Forall (fun c => JS.isBlank c = false) l -> JS.trim l = l.
Proof.
  intros H. unfold JS.trim. rewrite (dropBlanks_noblank l H).
  rewrite dropBlanks_noblank by (apply Forall_rev; exact H).
  apply rev_involutive.
Qed.

Lemma digits_noblank (d : Decimal.uint) :
  Forall (fun c => JS.isBlank c = false) (digitsOf d).
Proof.
  unfold digitsOf. induction d; cbn [NilEmpty.string_of_uint list_ascii_of_string];
    constructor; solve [reflexivity | assumption].
Qed.

Lemma readUnsigned_digits (d : Decimal.uint) :
  d <> Decimal.Nil ->
  JS.readUnsigned (digitsOf d) = JS.ofZ (Z.of_N (Pos.of_uint d)).
Proof.
  intros Hd. unfold JS.readUnsigned.
  assert (Hinf : JS.listEqb (digitsOf d) JS.infinityLit = false).
  { unfold digitsOf. destruct d; try congruence; reflexivity. }
  rewrite Hinf. unfold JS.readUnsignedDecimal.
  rewrite readDigits_zero.
  destruct (Decimal.nb_digits d) as [| n] eqn:Hn.
  { destruct d; try congruence; discriminate Hn. }
  cbn [Nat.add JS.readExponent]. cbv iota. cbv beta.
  unfold JS.scale10. cbn [Z.of_nat Z.sub Z.opp Z.add Z.leb Z.compare Z.pow Z.pow_pos Pos.iter].
  rewrite Z.mul_1_r. reflexivity.
Qed.

Lemma parseNumber_digits (d : Decimal.uint) :
  d <> Decimal.Nil ->
  JS.parseNumber (digitsOf d) = JS.readUnsigned (digitsOf d).
Proof.
  intros Hd. unfold JS.parseNumber. rewrite (trim_noblank _ (digits_noblank d)).
  unfold digitsOf.
  destruct d as [| d | d | d | d | d | d | d | d | d | d]; try congruence;
    destruct d; reflexivity.
Qed.

Lemma Number_of_numeral (d : Decimal.uint) :
  JS.Number (NilZero.string_of_uint d) = JS.ofZ (Z.of_N (Pos.of_uint d)).
Proof.
  assert (Hcase : d = Decimal.Nil \/ d <> Decimal.Nil)
    by (destruct d; [left; reflexivity | right; discriminate ..]).
  destruct Hcase as [Hnil | Hnil]; [subst d; reflexivity |].
  replace (NilZero.string_of_uint d) with (NilEmpty.string_of_uint d)
    by (destruct d; try congruence; reflexivity).
  unfold JS.Number. fold (digitsOf d).
  rewrite (parseNumber_digits d Hnil). apply (readUnsigned_digits d Hnil).
Qed.

(** Reading back the string of an integer gives the integer. *)
Lemma Number_StringOfZ (z : Z) : JS.Number (JS.StringOfZ z) = JS.ofZ z.
Proof.
  unfold JS.StringOfZ. destruct z as [| p | p]; cbn [Z.to_int NilZero.string_of_int].
  - reflexivity.
  - rewrite Number_of_numeral, DecimalPos.Unsigned.of_to. reflexivity.
  - assert (Hd : Pos.to_uint p <> Decimal.Nil).
    { intros Hnil. pose proof (DecimalPos.Unsigned.of_to p) as Hp.
      rewrite Hnil in Hp. discriminate Hp. }
    pose proof (Number_of_numeral (Pos.to_uint p)) as Hnum.
    rewrite DecimalPos.Unsigned.of_to in Hnum.
    replace (NilZero.string_of_uint (Pos.to_uint p))
      with (NilEmpty.string_of_uint (Pos.to_uint p)) in *
      by (destruct (Pos.to_uint p); try congruence; reflexivity).
    unfold JS.Number in *. cbn [list_ascii_of_string].
    fold (digitsOf (Pos.to_uint p)) in *.
    unfold JS.parseNumber in *.
    rewrite (trim_noblank _ (digits_noblank (Pos.to_uint p))) in Hnum.
    rewrite trim_noblank
      by (constructor; [reflexivity | apply digits_noblank]).
    change (Ascii.eqb "-" "+") with false. change (Ascii.eqb "-" "-") with true.
    cbv iota.
    rewrite <- (parseNumber_digits _ Hd). unfold JS.parseNumber.
    rewrite (trim_noblank _ (digits_noblank (Pos.to_uint p))).
    rewrite Hnum. reflexivity.
Qed.

Lemma isAuto_StringOfZ (z : Z) : Grid.isAuto (JS.StringOfZ z) = false.
Proof.
  unfold JS.StringOfZ.
  destruct z as [| p | p]; cbn [Z.to_int NilZero.string_of_int]; try reflexivity.
  destruct (Pos.to_uint p); reflexivity.
Qed.

(** ** The commit of a drag *)

Lemma parsePosition_StringOfZ (z : Z) :
  GridState.parsePosition (JS.StringOfZ z) = JS.ofZ z.
Proof. unfold GridState.parsePosition. rewrite Number_StringOfZ. reflexivity. Qed.

(** The effective span between two numbered lines. *)
Lemma getSpan_lines (l : ItemLayout) (axis : Axis) (s e : Z) :
  startOf l axis = JS.StringOfZ s ->
  endOf l axis = JS.StringOfZ e ->
  JS.same (Grid.getSpan l axis) (JS.ofZ (Z.max 1 (e - s))).
Proof.
  intros Hs He.
  assert (Hspan : Grid.getSpan l axis
                  = let span := JS.sub (JS.Number (endOf l axis))
                                       (JS.Number (startOf l axis)) in
                    if negb (Grid.isAuto (startOf l axis))
                       && negb (Grid.isAuto (endOf l axis))
                    then if JS.isNaN span || JS.ltb span JS.one then JS.one else span
                    else match axis with col => colSpan l | row => rowSpan l end).
  { destruct axis; reflexivity. }
  rewrite Hspan, Hs, He. cbv zeta.
  rewrite !isAuto_StringOfZ, !Number_StringOfZ.
  unfold JS.ofZ, JS.one. cbn [negb andb JS.sub JS.isNaN orb JS.ltb JS.same].
  destruct (Qle_bool 1 (inject_Z e - inject_Z s)) eqn:Hle; cbn [negb JS.same].
  - apply Qle_bool_iff in Hle.
    assert (H1 : (inject_Z 1 <= inject_Z (e - s))%Q).
    { unfold Z.sub. rewrite inject_Z_plus, inject_Z_opp. exact Hle. }
    rewrite <- Zle_Qle in H1. rewrite Z.max_r by exact H1.
    unfold Z.sub. rewrite inject_Z_plus, inject_Z_opp. reflexivity.
  - apply Qle_bool_false_lt in Hle.
    assert (H1 : (inject_Z (e - s) < inject_Z 1)%Q).
    { unfold Z.sub. rewrite inject_Z_plus, inject_Z_opp. exact Hle. }
    rewrite <- Zlt_Qlt in H1. rewrite Z.max_l by lia. reflexivity.
Qed.

Lemma getSpan_withOrder (l : ItemLayout) (o : string) (axis : Axis) :
  Grid.getSpan (GridState.withOrder l o) axis = Grid.getSpan l axis.
Proof. destruct axis; reflexivity. Qed.

(** What a layout mutation leaves at the active breakpoint of a
    sibling with the id. *)
Lemma mutateLayout_at_item (itemId : Q) (bp : Breakpoint)
    (cb : ItemLayout -> ItemLayout) (lst : list GridItem) (i : nat) (item : GridItem) :
  nth_error lst i = Some item ->
  idEqb (id item) itemId = true ->
  exists mutated o,
    nth_error (GridState.mutateLayout itemId bp cb lst) i = Some mutated
    /\ getBp (layout mutated) bp = GridState.withOrder (cb (getBp (layout item) bp)) o.
Proof.
  intros Hi Hid.
  assert (Hhas : GridState.hasId itemId lst = true).
  { unfold GridState.hasId. apply existsb_exists. exists item.
    split; [apply (nth_error_In _ _ Hi) | exact Hid]. }
  destruct (mutateLayout_at_level itemId bp cb lst i item Hhas Hi) as (k & _ & Hk).
  rewrite Hid in Hk.
  eexists. exists (JS.StringOfNat k). split; [exact Hk |].
  rewrite getBp_reordered. unfold withLayoutAt.
  destruct item; simpl. rewrite getBp_setBp_same. reflexivity.
Qed.

(** X24.  After the commit of a move, in the sibling list that holds
    the id of the session, at the root or at any depth below it (the
    first such list on the way down), a sibling with that id has, at
    the breakpoint of the session, the drop position as its start
    column and start row, and an effective span of the base span of
    the session on each axis (of 1 when the base span is below 1). *)
Theorem move_commit (session : PreviewCanvas.DragSession)
    (coords : PreviewCanvas.GridPosition) (tree : list GridItem)
    (path : list nat) (lst : list GridItem) (i : nat) (item : GridItem) :
  siblingsAt path tree = Some lst ->
  descends (PreviewCanvas.itemId session) path tree = true ->
  nth_error lst i = Some item ->
  idEqb (id item) (PreviewCanvas.itemId session) = true ->
  exists siblings moved,
    siblingsAt path (PreviewCanvas.setItemsForMove session coords tree) = Some siblings
    /\ nth_error siblings i = Some moved
    /\ let l := getBp (layout moved) (PreviewCanvas.breakpoint session) in
       GridState.parsePosition (colStart l) = JS.ofZ (PreviewCanvas.pos_colStart coords)
       /\ GridState.parsePosition (rowStart l) = JS.ofZ (PreviewCanvas.pos_rowStart coords)
       /\ JS.same (Grid.getSpan l col)
            (JS.ofZ (Z.max 1 (PreviewCanvas.baseColSpan session)))
       /\ JS.same (Grid.getSpan l row)
            (JS.ofZ (Z.max 1 (PreviewCanvas.baseRowSpan session))).
Proof.
  intros Hs Hd Hi Hid. unfold PreviewCanvas.setItemsForMove.
  rewrite (mutateLayout_descends _ _ _ path tree lst Hs Hd).
  destruct (mutateLayout_at_item _ (PreviewCanvas.breakpoint session)
              (PreviewCanvas.moveLayout session coords) lst i item Hi Hid)
    as (moved & o & Hnth & Hl).
  eexists. exists moved. split; [reflexivity |]. split; [exact Hnth |].
  cbv zeta. rewrite Hl.
  split; [apply parsePosition_StringOfZ |].
  split; [apply parsePosition_StringOfZ |].
  rewrite !getSpan_withOrder.
  set (base := getBp (layout item) (PreviewCanvas.breakpoint session)).
  split.
  - pose proof (getSpan_lines (PreviewCanvas.moveLayout session coords base) col
                  (PreviewCanvas.pos_colStart coords)
                  (PreviewCanvas.pos_colStart coords + PreviewCanvas.baseColSpan session)
                  eq_refl eq_refl) as Hspan.
    replace (PreviewCanvas.pos_colStart coords + PreviewCanvas.baseColSpan session
             - PreviewCanvas.pos_colStart coords)%Z
      with (PreviewCanvas.baseColSpan session) in Hspan by lia.
    exact Hspan.
  - pose proof (getSpan_lines (PreviewCanvas.moveLayout session coords base) row
                  (PreviewCanvas.pos_rowStart coords)
                  (PreviewCanvas.pos_rowStart coords + PreviewCanvas.baseRowSpan session)
                  eq_refl eq_refl) as Hspan.
    replace (PreviewCanvas.pos_rowStart coords + PreviewCanvas.baseRowSpan session
             - PreviewCanvas.pos_rowStart coords)%Z
      with (PreviewCanvas.baseRowSpan session) in Hspan by lia.
    exact Hspan.
Qed.

Lemma move_commit_witness :
  let session :=
    PreviewCanvas.mkDragSession PreviewCanvas.m_move 3 xs 1 1 2 1
                                (JS.Fin 100) (JS.Fin 50) in
  exists siblings moved,
    siblingsAt [1%nat]
      (PreviewCanvas.setItemsForMove session (PreviewCanvas.mkGridPosition 3 2) sampleTree)
    = Some siblings
    /\ nth_error siblings 0 = Some moved
    /\ let l := getBp (layout moved) xs in
       GridState.parsePosition (colStart l) = JS.ofZ 3
       /\ GridState.parsePosition (rowStart l) = JS.ofZ 2
       /\ JS.same (Grid.getSpan l col) (JS.ofZ (Z.max 1 2))
       /\ JS.same (Grid.getSpan l row) (JS.ofZ (Z.max 1 1)).
Proof.
  cbv zeta.
  apply (move_commit
           (PreviewCanvas.mkDragSession PreviewCanvas.m_move 3 xs 1 1 2 1
                                        (JS.Fin 100) (JS.Fin 50))
           (PreviewCanvas.mkGridPosition 3 2) sampleTree [1%nat]
           [ sampleLeaf 3 "1" "1";
             mkGridItem 4 "bg-pink-500" Grid.createLayoutMap
                        (Some sampleSettings) (Some []) ]
           0 (sampleLeaf 3 "1" "1"));
    reflexivity.
Defined.

Lemma integerToString_prints : printsIntegers integerToString.
Proof.
  intros q z Hq. unfold integerToString.
  rewrite (Qfloor_comp _ _ Hq), Qfloor_Z. reflexivity.
Qed.

Lemma min_of_integers (s c t : Z) :
  exists q, JS.min (JS.add (JS.ofZ s) (JS.ofZ c)) (JS.ofZ t) = JS.Fin q
            /\ (q == inject_Z (Z.min (s + c) t))%Q.
Proof.
  unfold JS.ofZ. cbn [JS.add JS.min JS.ltb].
  destruct (Qle_bool (inject_Z s + inject_Z c) (inject_Z t)) eqn:Hle; cbn [negb].
  - eexists. split; [reflexivity |].
    apply Qle_bool_iff in Hle. rewrite <- inject_Z_plus in *.
    rewrite <- Zle_Qle in Hle. rewrite Z.min_l by exact Hle. reflexivity.
  - eexists. split; [reflexivity |].
    apply Qle_bool_false_lt in Hle. rewrite <- inject_Z_plus in Hle.
    rewrite <- Zlt_Qlt in Hle. rewrite Z.min_r by lia. reflexivity.
Qed.

Lemma orElse_nonzero (s : Z) (fallback : JS.number) :
  s <> 0%Z -> JS.orElse (JS.ofZ s) fallback = JS.ofZ s.
Proof.
  intros Hs. unfold JS.orElse, JS.ofZ.
  destruct (Qeq_bool (inject_Z s) 0) eqn:Heq; [| reflexivity].
  apply Qeq_bool_iff in Heq. change 0%Q with (inject_Z 0) in Heq.
  unfold Qeq in Heq. simpl in Heq. lia.
Qed.

(** X25.  The layout a resize leaves, when the printer of numbers is
    right on the integers.  On an axis where the item is placed
    automatically, the effective span is the new span.  On an axis
    where the start is a numbered line other than 0, the start stays,
    and the effective span is the new span, cut at the line behind the
    last column on the column axis, and 1 when that is below 1; the
    rows are not cut. *)
Theorem resize_commit (numberToString : JS.number -> string)
    (session : PreviewCanvas.DragSession) (newColSpan newRowSpan totalCols : Z)
    (l : ItemLayout) :
  printsIntegers numberToString ->
  let resized :=
    PreviewCanvas.resizeLayout numberToString session newColSpan newRowSpan totalCols l in
  (Grid.isAuto (colStart l) = true ->
   Grid.getSpan resized col = JS.ofZ newColSpan)
  /\ (Grid.isAuto (rowStart l) = true ->
      Grid.getSpan resized row = JS.ofZ newRowSpan)
  /\ (forall s, colStart l = JS.StringOfZ s -> s <> 0%Z ->
        colStart resized = colStart l
        /\ JS.same (Grid.getSpan resized col)
             (JS.ofZ (Z.max 1 (Z.min (s + newColSpan) (totalCols + 1) - s))))
  /\ (forall s, rowStart l = JS.StringOfZ s -> s <> 0%Z ->
        rowStart resized = rowStart l
        /\ JS.same (Grid.getSpan resized row) (JS.ofZ (Z.max 1 newRowSpan))).
Proof.
  intros Hprint resized. subst resized.
  destruct l as [cs ce rs re csp rsp o].
  unfold PreviewCanvas.resizeLayout, Grid.copyLayout.
  cbn [colStart colEnd rowStart rowEnd colSpan rowSpan order]. cbv zeta.
  split; [| split; [| split]].
  - intros Hauto. rewrite Hauto. cbn [negb].
    cbn [colStart colEnd rowStart rowEnd colSpan rowSpan order].
    destruct (negb (Grid.isAuto rs)); unfold Grid.getSpan;
      cbn [colStart colEnd rowStart rowEnd colSpan rowSpan order];
      rewrite Hauto; reflexivity.
  - intros Hauto.
    destruct (negb (Grid.isAuto cs));
      cbn [colStart colEnd rowStart rowEnd colSpan rowSpan order];
      rewrite Hauto; cbn [negb]; unfold Grid.getSpan;
      cbn [colStart colEnd rowStart rowEnd colSpan rowSpan order];
      rewrite Hauto; reflexivity.
  - intros s Hs Hnz. subst cs. rewrite isAuto_StringOfZ. cbn [negb].
    cbn [colStart colEnd rowStart rowEnd colSpan rowSpan order].
    rewrite Number_StringOfZ, (orElse_nonzero s _ Hnz).
    destruct (min_of_integers s newColSpan (totalCols + 1)) as (q & Hmin & Hq).
    rewrite Hmin, (Hprint q _ Hq).
    destruct (negb (Grid.isAuto rs));
      (split; [reflexivity | apply getSpan_lines; reflexivity]).
  - intros s Hs Hnz. subst rs.
    assert (Hend : numberToString
                     (JS.add (JS.orElse (JS.Number (JS.StringOfZ s))
                                (JS.ofZ (PreviewCanvas.startRow session)))
                        (JS.ofZ newRowSpan))
                   = JS.StringOfZ (s + newRowSpan)).
    { rewrite Number_StringOfZ, (orElse_nonzero s _ Hnz).
      unfold JS.ofZ. cbn [JS.add]. apply Hprint. rewrite inject_Z_plus. reflexivity. }
    destruct (negb (Grid.isAuto cs));
      cbn [colStart colEnd rowStart rowEnd colSpan rowSpan order];
      rewrite isAuto_StringOfZ; cbn [negb];
      cbn [colStart colEnd rowStart rowEnd colSpan rowSpan order];
      rewrite Hend;
      (split; [reflexivity |]);
      match goal with
      | |- JS.same (Grid.getSpan ?r row) _ =>
          pose proof (getSpan_lines r row s (s + newRowSpan) eq_refl eq_refl) as Hspan
      end;
      replace (s + newRowSpan - s)%Z with newRowSpan in Hspan by lia;
      exact Hspan.
Qed.

Lemma resize_commit_witness :
  let l := mkItemLayout "2" "3" "auto" "auto" JS.one JS.one "auto" in
  let resized := PreviewCanvas.resizeLayout integerToString sampleSession 5 2 4 l in
  colStart resized = colStart l
  /\ JS.same (Grid.getSpan resized col) (JS.ofZ (Z.max 1 (Z.min (2 + 5) (4 + 1) - 2))).
Proof.
  cbv zeta.
  destruct (resize_commit integerToString sampleSession 5 2 4
              (mkItemLayout "2" "3" "auto" "auto" JS.one JS.one "auto")
              integerToString_prints) as (_ & _ & Hcol & _).
  apply (Hcol 2%Z); [reflexivity | discriminate].
Defined.

(** ** The inline styles and the generated classes *)

(** X26.  At every breakpoint the generator writes one class for each
    style property [buildGridStyles] sets for the same layout, and no
    other: a start or end class exactly when [buildGridStyles] sets
    that line, a span class exactly when it sets the span shorthand,
    an order class exactly when it sets the order; so a layout that
    [buildGridStyles] leaves without a property gets no class. *)
Theorem classes_match_preview_styles (numberToString : JS.number -> string)
    (bp : Breakpoint) (l : ItemLayout) :
  let styles := Grid.buildGridStyles numberToString l in
  List.length (Grid.layoutClasses numberToString bp l) = propertyCount styles
  /\ (propertyCount styles = 0%nat <-> Grid.layoutClasses numberToString bp l = []).
Proof.
  cbv zeta. unfold Grid.layoutClasses, Grid.buildGridStyles, propertyCount.
  cbn [Grid.gridColumnStart Grid.gridColumnEnd Grid.gridRowStart Grid.gridRowEnd
       Grid.gridColumn Grid.gridRow Grid.cssOrder].
  destruct (Grid.isAuto (colStart l)), (Grid.isAuto (colEnd l)),
    (Grid.isAuto (rowStart l)), (Grid.isAuto (rowEnd l)),
    (JS.gtb (colSpan l) JS.one), (JS.gtb (rowSpan l) JS.one),
    (Grid.isAuto (order l));
    cbn [negb andb app List.length Nat.add];
    (split; [reflexivity | split; intros H; solve [reflexivity | discriminate H]]).
Qed.

(** The reflow of a list in which every sibling has its own id, seen
    at one of its places. *)
Lemma reflow_changes_only_order_witness :
  exists k,
    (1 <= k <= 1)%nat
    /\ nth_error (GridState.reflowOrders [sampleLeaf 5 "2" "1"] xs) 0
       = Some (mkGridItem 5 "bg-blue-500"
                 (setBp (layout (sampleLeaf 5 "2" "1")) xs
                    (mkItemLayout "1" "auto" "2" "auto" JS.one JS.one (JS.StringOfNat k)))
                 None None).
Proof.
  destruct (reflow_changes_only_order [sampleLeaf 5 "2" "1"] xs) as [_ H].
  exact (H 0%nat (sampleLeaf 5 "2" "1") eq_refl).
Defined.

Lemma can_undo_redo_exact_witness :
  History.canUndo sampleHistory2 = true
  /\ History.historyReducer (fun a b : nat => Nat.eqb a b) sampleHistory2 History.UNDO
     <> sampleHistory2.
Proof.
  destruct (can_undo_redo_exact (fun a b : nat => Nat.eqb a b) sampleHistory2)
    as [[_ Hundo] _].
  split; [reflexivity |].
  intros Heq. specialize (Hundo Heq). discriminate Hundo.
Defined.

Lemma convert_gives_empty_grid_witness :
  nth_error (GridState.convertItemToGrid 0 1 sampleTree) 0
  = Some (mkGridItem 1 "bg-blue-500" (layout (sampleLeaf 1 "2" "1"))
            (Some (DEFAULT_GRID_SETTINGS 0)) (Some [])).
Proof.
  destruct (convert_gives_empty_grid 0 1 sampleTree) as [H _].
  exact (H 0%nat (sampleLeaf 1 "2" "1") eq_refl).
Defined.

Lemma copy_from_neighbor_witness :
  exists neighbor,
    GridState.neighborOf md GridState.d_prev = Some neighbor
    /\ GridState.indexOf neighbor
       = (GridState.indexOf md + directionStep GridState.d_prev)%Z
    /\ forall other, other <> md ->
         getBp (setBp (GridState.gridSettings sampleSnapshot) md
                  (getBp (GridState.gridSettings sampleSnapshot) sm)) other
         = getBp (GridState.gridSettings sampleSnapshot) other.
Proof.
  destruct (copy_from_neighbor md GridState.d_prev sampleSnapshot)
    as (nb & H1 & H2 & _ & H4 & _).
  exists nb. split; [exact H1 | split; [exact H2 | exact H4]].
Defined.
